(** * Podcast illustrator: transcript merger and timeline builder

  A shallow embedding of the two algorithmic pieces of the Python
  sources, [AudioProcessor.merge_transcripts] (audio_processor.py) and
  [VideoComposer.create_timeline] / [fill_timeline_gaps]
  (video_composer.py), together with the parts of [process_audio] and
  [compose_video] that guard them.

  Numbers.  Python mixes [int] and [float] freely in these functions
  (the initial cursor is the int [0], the default durations are the
  floats [5.0] and [3.0], JSON timestamps are either).  Times are
  embedded as exact rationals [Q]; Python's numeric [==], [<], [>] are
  [Qeq], [Qlt]; rounding of binary floating point is not modelled.
  Integer quantities ([segment_index], [segment_duration]) are [Z].

  Dictionaries with a fixed set of keys are records; a key read with
  [d.get(k, default)] is an [option] field, a key read with [d[k]] is a
  plain field.

  Further on, the same treatment is given to the rendering loop and the
  routes over the composer (video.py), to the chunking and the query list
  of content_analyzer.py, to [process_visual_content] and
  [get_content_for_timestamp] of visual_content_generator.py, to three
  routes of visual.py and to the upload filter of audio.py.  Services
  outside the program (speech-to-text, the language model, the web search
  and downloads, the encoder) are parameters.  Characters are the code
  points below 256. *)

From Stdlib Require Import List Bool ZArith QArith Qminmax Qabs Lqa Lia.
From Stdlib Require Import String Ascii DecimalString Sorted Permutation.
Import ListNotations.

Local Open Scope Q_scope.

(** ** Python built-ins used by the sources *)

Module Py.

(** [a < b] on numbers, as a boolean. *)
Definition ltb (a b : Q) : bool := negb (Qle_bool b a).

(** [max(a, b)]: the first argument is kept unless the second is
    strictly greater. *)
Definition max (a b : Q) : Q := if ltb a b then b else a.

(** [min(a, b)]: the first argument is kept unless the second is
    strictly smaller. *)
Definition min (a b : Q) : Q := if ltb b a then b else a.

(** Truth value of a string: non-empty. *)
Definition truthy (s : string) : bool :=
  match s with EmptyString => false | String _ _ => true end.

(** [l[-1]] guarded by [if l:]. *)
Definition last_item {A : Type} (l : list A) : option A :=
  match rev l with [] => None | x :: _ => Some x end.

(** Exceptions raised by the modelled code. *)
Inductive exn : Type :=
| FileNotFoundError (msg : string)
| ValueError (msg : string)
| Exception (msg : string).

(** [str(e)] *)
Definition str (e : exn) : string :=
  match e with
  | FileNotFoundError m | ValueError m | Exception m => m
  end.

Inductive result (A : Type) : Type :=
| Ok (a : A)
| Raise (e : exn).
Arguments Ok {A} a.
Arguments Raise {A} e.

End Py.

(** ** audio_processor.py *)

Module AudioProcessor.

(** One timestamped piece of text, [{'start', 'end', 'text'}]. *)
Record TranscriptSegment : Type := mkSeg {
  seg_start : Q;
  seg_end : Q;
  seg_text : string
}.

(** What the speech-to-text service answers for one audio chunk. *)
Record WhisperResponse : Type := mkWhisper {
  w_text : string;
  w_language : string;
  w_duration : Q;
  w_segments : list TranscriptSegment
}.

(** The per-chunk [transcript_data] dictionary. *)
Record SegmentTranscript : Type := mkTranscript {
  segment_index : Z;
  text : string;
  language : string;
  duration : Q;
  segments : list TranscriptSegment
}.

(** The [merged_transcript] dictionary. *)
Record MergedTranscript : Type := mkMerged {
  total_duration : Q;
  merged_language : string;
  full_text : string;
  merged_segments : list TranscriptSegment
}.

(** [transcribe_segment], after the service has answered. *)
Definition transcribe_segment (resp : WhisperResponse) (idx : Z)
  : SegmentTranscript :=
  {| segment_index := idx;
     text := w_text resp;
     language := w_language resp;
     duration := w_duration resp;
     segments :=
       fold_left
         (fun acc s =>
            acc ++ [ {| seg_start := seg_start s;
                        seg_end := seg_end s;
                        seg_text := seg_text s |} ])
         (w_segments resp) [] |}.

(** [transcribe_all_segments]: [outcomes] holds, per segment file and in
    file order, the service's answer or [None] when the call raised; a
    failed segment is skipped and the loop goes on. *)
Fixpoint transcribe_from (i : Z) (outcomes : list (option WhisperResponse))
  (transcripts : list SegmentTranscript) : list SegmentTranscript :=
  match outcomes with
  | [] => transcripts
  | Some resp :: rest =>
      transcribe_from (i + 1) rest (transcripts ++ [transcribe_segment resp i])
  | None :: rest => transcribe_from (i + 1) rest transcripts
  end.

Definition transcribe_all_segments (outcomes : list (option WhisperResponse))
  : list SegmentTranscript :=
  transcribe_from 0%Z outcomes [].

(** Body of the inner [for segment in transcript['segments']] loop. *)
Definition append_shifted (base_time : Z) (acc : list TranscriptSegment)
  (segment : TranscriptSegment) : list TranscriptSegment :=
  acc ++ [ {| seg_start := inject_Z base_time + seg_start segment;
              seg_end := inject_Z base_time + seg_end segment;
              seg_text := seg_text segment |} ].

(** Body of the outer [for transcript in transcripts] loop. *)
Definition merge_step (segment_duration : Z) (merged : MergedTranscript)
  (transcript : SegmentTranscript) : MergedTranscript :=
  let base_time := (segment_index transcript * segment_duration)%Z in
  let full_text1 :=
    if Py.truthy (full_text merged)
    then String.append (full_text merged) " "
    else full_text merged in
  {| total_duration :=
       Py.max (total_duration merged)
              (inject_Z base_time + duration transcript);
     merged_language := merged_language merged;
     full_text := String.append full_text1 (text transcript);
     merged_segments :=
       fold_left (append_shifted base_time) (segments transcript)
                 (merged_segments merged) |}.

Definition merge_transcripts (transcripts : list SegmentTranscript)
  (segment_duration : Z) : MergedTranscript :=
  let merged_transcript :=
    {| total_duration := 0;
       merged_language :=
         match transcripts with
         | t :: _ => language t
         | [] => "en"%string
         end;
       full_text := EmptyString;
       merged_segments := [] |} in
  fold_left (merge_step segment_duration) transcripts merged_transcript.

(** The summary dictionary [process_audio] returns. *)
Record ProcessSummary : Type := mkSummary {
  segments_created : nat;
  transcripts_generated : nat;
  summary_total_duration : Q;
  estimated_time : nat
}.

(** Steps 2 and 3 of [process_audio]: the emptiness check in front of
    the merge, and the merge itself. *)
Definition merge_stage (transcripts : list SegmentTranscript)
  (segment_duration : Z) : Py.result MergedTranscript :=
  match transcripts with
  | [] => Py.Raise (Py.Exception "No segments were successfully transcribed"%string)
  | _ :: _ => Py.Ok (merge_transcripts transcripts segment_duration)
  end.

(** [process_audio] once the audio has been cut into [outcomes]-many
    files: the value returned together with the transcript written to
    full_transcript.json, or the exception re-raised to the caller. *)
Definition process_audio (outcomes : list (option WhisperResponse))
  (segment_duration : Z) : Py.result (ProcessSummary * MergedTranscript) :=
  let transcripts := transcribe_all_segments outcomes in
  match merge_stage transcripts segment_duration with
  | Py.Raise e => Py.Raise e
  | Py.Ok full_transcript =>
      Py.Ok ({| segments_created := List.length outcomes;
                transcripts_generated := List.length transcripts;
                summary_total_duration := total_duration full_transcript;
                estimated_time := List.length outcomes * 2 |},
             full_transcript)
  end.

End AudioProcessor.

(** ** video_composer.py *)

Module VideoComposer.

(** The ['type'] key: ['image'], ['video'] or ['background']. *)
Inductive Kind : Type := image | video | background.

(** A raw record of the manifest.  ['path'] is read with a subscript;
    the other three keys are read with [get] and a default. *)
Record RawRecord : Type := mkRaw {
  raw_path : string;
  raw_timestamp : option Q;
  raw_relevance_score : option Q;
  raw_description : option string
}.

(** visual_content_manifest.json; both keys are read with [get]. *)
Record Manifest : Type := mkManifest {
  images : option (list RawRecord);
  videos : option (list RawRecord)
}.

(** full_transcript.json, as far as the composer reads it. *)
Record Transcript : Type := mkTranscriptFile {
  transcript_total_duration : option Q
}.

(** An element of [all_content]. *)
Record Content : Type := mkContent {
  c_type : Kind;
  c_path : string;
  c_timestamp : Q;
  c_relevance_score : Q;
  c_description : string;
  c_duration : Q
}.

(** An element of the timeline. *)
Record Segment : Type := mkSegment {
  type : Kind;
  path : option string;
  start_time : Q;
  end_time : Q;
  duration : Q;
  description : string;
  relevance_score : Q
}.

(** [d.get(k, default)] *)
Definition get {A : Type} (o : option A) (default : A) : A :=
  match o with Some a => a | None => default end.

(** [self.default_image_duration = 5.0]; the number five, written with
    denominator one. *)
Definition default_image_duration : Q := 5.

Definition add_image (all_content : list Content) (image : RawRecord)
  : list Content :=
  all_content ++
    [ {| c_type := VideoComposer.image;
         c_path := raw_path image;
         c_timestamp := get (raw_timestamp image) 0;
         c_relevance_score := get (raw_relevance_score image) 0.5;
         c_description := get (raw_description image) EmptyString;
         c_duration := default_image_duration |} ].

Definition add_video (all_content : list Content) (video : RawRecord)
  : list Content :=
  all_content ++
    [ {| c_type := VideoComposer.video;
         c_path := raw_path video;
         c_timestamp := get (raw_timestamp video) 0;
         c_relevance_score := get (raw_relevance_score video) 0.8;
         c_description := get (raw_description video) EmptyString;
         c_duration := 3 (* 3.0 *) |} ].

(** Lines 69-91 of [create_timeline]: the two loops filling
    [all_content]. *)
Definition collect_content (visual_content : Manifest) : list Content :=
  let all_content := fold_left add_image (get (images visual_content) []) [] in
  fold_left add_video (get (videos visual_content) []) all_content.

(** [all_content.sort(key=lambda x: x['timestamp'])].  The built-in sort
    is stable and compares keys with [<]; it is embedded as the stable
    insertion sort: an element goes in front of the first element whose
    key is not smaller than its own. *)
Fixpoint insert_by_timestamp (x : Content) (l : list Content) : list Content :=
  match l with
  | [] => [x]
  | y :: r =>
      if Py.ltb (c_timestamp y) (c_timestamp x)
      then y :: insert_by_timestamp x r
      else x :: y :: r
  end.

Definition sort_by_timestamp (l : list Content) : list Content :=
  fold_right insert_by_timestamp [] l.

(** Body of the loop of lines 98-112; the state is [timeline] and
    [current_time]. *)
Definition place_step (total_duration : Q) (st : list Segment * Q)
  (content : Content) : list Segment * Q :=
  let '(timeline, current_time) := st in
  let start_time := Py.max (c_timestamp content) current_time in
  let end_time := Py.min (start_time + c_duration content) total_duration in
  if Py.ltb start_time end_time then
    (timeline ++
       [ {| type := c_type content;
            path := Some (c_path content);
            start_time := start_time;
            end_time := end_time;
            duration := end_time - start_time;
            description := c_description content;
            relevance_score := c_relevance_score content |} ],
     end_time)
  else (timeline, current_time).

(** Lines 96-112: the timeline before its gaps are filled. *)
Definition place_all (all_content : list Content) (total_duration : Q)
  : list Segment :=
  fst (fold_left (place_step total_duration) all_content ([], 0)).

(** [seg.copy()] followed by the three assignments to ['start_time'],
    ['end_time'] and ['duration']. *)
Definition copy_with_times (seg : Segment) (s e d : Q) : Segment :=
  {| type := type seg;
     path := path seg;
     start_time := s;
     end_time := e;
     duration := d;
     description := description seg;
     relevance_score := relevance_score seg |}.

(** The default background segment of lines 142-150. *)
Definition background_segment (s e d : Q) : Segment :=
  {| type := background;
     path := None;
     start_time := s;
     end_time := e;
     duration := d;
     description := "Background"%string;
     relevance_score := 0.1 |}.

(** Body of the loop of lines 127-153; the state is [filled_timeline]
    and [current_time]. *)
Definition fill_step (st : list Segment * Q) (segment : Segment)
  : list Segment * Q :=
  let '(filled_timeline, current_time) := st in
  let filled_timeline :=
    if Py.ltb current_time (start_time segment) then
      let gap_duration := start_time segment - current_time in
      match Py.last_item filled_timeline with
      | Some last_segment =>
          filled_timeline ++
            [copy_with_times last_segment current_time
                             (start_time segment) gap_duration]
      | None =>
          filled_timeline ++
            [background_segment current_time (start_time segment)
                                gap_duration]
      end
    else filled_timeline in
  (filled_timeline ++ [segment], end_time segment).

Definition fill_timeline_gaps (timeline : list Segment) (total_duration : Q)
  : list Segment :=
  match timeline with
  | [] => timeline
  | _ :: _ =>
      let '(filled_timeline, current_time) :=
        fold_left fill_step timeline ([], 0) in
      if Py.ltb current_time total_duration then
        let remaining_duration := total_duration - current_time in
        match Py.last_item filled_timeline with
        | Some last_segment =>
            filled_timeline ++
              [copy_with_times last_segment current_time total_duration
                               remaining_duration]
        | None => filled_timeline
        end
      else filled_timeline
  end.

Definition create_timeline (visual_content : Manifest)
  (transcript : Transcript) : list Segment :=
  let total_duration := get (transcript_total_duration transcript) 0 in
  let all_content := sort_by_timestamp (collect_content visual_content) in
  let timeline := place_all all_content total_duration in
  fill_timeline_gaps timeline total_duration.

(** *** The composition pipeline

    The job directory and the encoder are outside the program; they are
    read through the two records below.  The pipeline runs in a small
    exception monad that also keeps the log of what was written and
    which commands were handed to the encoder. *)

(** What [compose_video] finds on disk. *)
Record JobDir : Type := mkJobDir {
  job_dir : string;
  listdir : list string;                (* [os.listdir(self.job_dir)] *)
  transcript_file : option Transcript;  (* full_transcript.json *)
  manifest_file : option Manifest       (* content/visual_content_manifest.json *)
}.

(** The four command lines given to [subprocess.run]. *)
Inductive FfmpegCmd : Type :=
| ImageToVideo (image_path : string) (duration : Q) (output_path : string)
| ColorBackground (duration : Q) (output_path : string)
| ConcatSegments (video_segments : list string) (output_path : string)
| MuxAudio (video_path audio_path output_path : string).

(** The surroundings: file tests, the encoder's verdict on a command
    ([Some stderr] when it exits with an error), and the file names built
    with [os.path] and f-strings in the temp directory. *)
Record World : Type := mkWorld {
  path_exists : string -> bool;
  ffmpeg : FfmpegCmd -> option string;
  getsize : string -> Z;
  image_video_path : string -> string;
  background_video_path : Q -> string
}.

(** The [composition_info] dictionary. *)
Record CompositionInfo : Type := mkInfo {
  output_path : string;
  file_size : Z;
  timeline_segments : nat;
  info_total_duration : Q;
  video_resolution : string;
  fps : Z
}.

(** What a run leaves behind: the records written to status.json, the
    commands given to the encoder, the composition_info.json record; and a
    mark where [create_timeline] is called. *)
Inductive Event : Type :=
| StatusWritten (status : string) (progress : Z) (message : string)
| TimelineBuilt (timeline : list Segment)
| EncoderInvoked (cmd : FfmpegCmd)
| InfoWritten (info : CompositionInfo).

Definition M (A : Type) : Type := list Event -> Py.result A * list Event.

Definition ret {A : Type} (a : A) : M A := fun log => (Py.Ok a, log).

Definition raise {A : Type} (e : Py.exn) : M A := fun log => (Py.Raise e, log).

Definition bind {A B : Type} (c : M A) (k : A -> M B) : M B :=
  fun log =>
    match c log with
    | (Py.Ok a, log') => k a log'
    | (Py.Raise e, log') => (Py.Raise e, log')
    end.

Definition emit (ev : Event) : M unit := fun log => (Py.Ok tt, log ++ [ev]).

(** [try: body except Exception as e: handler] *)
Definition try_except {A : Type} (body : M A) (handler : Py.exn -> M A) : M A :=
  fun log =>
    match body log with
    | (Py.Ok a, log') => (Py.Ok a, log')
    | (Py.Raise e, log') => handler e log'
    end.

Notation "x <- c ;; k" := (bind c (fun x => k))
  (at level 61, c at next level, right associativity).
Notation "c ;;; k" := (bind c (fun _ => k))
  (at level 61, right associativity).

Definition cat (a b : string) : string := String.append a b.

(** [os.path.join] of a directory and a relative name. *)
Definition join (dir name : string) : string := cat dir (cat "/" name).

(** [str(n)] for a natural number. *)
Definition str_nat (n : nat) : string :=
  DecimalString.NilZero.string_of_uint (Nat.to_uint n).

(** [c.lower()] on ASCII. *)
Definition lower_ascii (c : ascii) : ascii :=
  let n := nat_of_ascii c in
  if (65 <=? n)%nat && (n <=? 90)%nat then ascii_of_nat (n + 32) else c.

Fixpoint lower (s : string) : string :=
  match s with
  | EmptyString => EmptyString
  | String c r => String (lower_ascii c) (lower r)
  end.

Definition endswith (s suffix : string) : bool :=
  let n := String.length s in
  let m := String.length suffix in
  (m <=? n)%nat && String.eqb (substring (n - m) m s) suffix.

Definition audio_extensions : list string :=
  [".mp3"; ".wav"; ".m4a"; ".flac"; ".ogg"]%string.

Definition update_status (status : string) (progress : Z) (message : string)
  : M unit :=
  emit (StatusWritten status progress message).

(** [filename.lower().endswith(('.mp3', '.wav', '.m4a', '.flac', '.ogg'))] *)
Definition is_audio (filename : string) : bool :=
  existsb (endswith (lower filename)) audio_extensions.

Definition get_audio_file (job : JobDir) : M string :=
  match find is_audio (listdir job) with
  | Some filename => ret (join (job_dir job) filename)
  | None => raise (Py.FileNotFoundError "No audio file found in job directory")
  end.

Definition load_transcript (job : JobDir) : M Transcript :=
  match transcript_file job with
  | None => raise (Py.FileNotFoundError "Transcript not found")
  | Some t => ret t
  end.

Definition load_visual_content (job : JobDir) : Manifest :=
  match manifest_file job with
  | None => {| images := Some []; videos := Some [] |}
  | Some m => m
  end.

(** [segment['path']] put into a string position; the background
    segment's [None] prints as ["None"]. *)
Definition path_str (p : option string) : string := get p "None"%string.

Definition prepare_image_for_video (w : World) (image_path : string)
  (duration : Q) : M string :=
  if negb (path_exists w image_path) then
    raise (Py.FileNotFoundError (cat "Image not found: " image_path))
  else
    let output_path := image_video_path w image_path in
    let cmd := ImageToVideo image_path duration output_path in
    emit (EncoderInvoked cmd) ;;;
    match ffmpeg w cmd with
    | None => ret output_path
    | Some stderr =>
        raise (Py.Exception (cat "Failed to convert image to video: " stderr))
    end.

Definition create_background_video (w : World) (duration : Q) : M string :=
  let output_path := background_video_path w duration in
  let cmd := ColorBackground duration output_path in
  emit (EncoderInvoked cmd) ;;;
  match ffmpeg w cmd with
  | None => ret output_path
  | Some stderr =>
      raise (Py.Exception (cat "Failed to create background video: " stderr))
  end.

(** The loop of [prepare_video_segments] from index [i] on;
    [int(98 + (i / total_segments) * 1)] is [98] for every [i] below
    [total_segments]. *)
Fixpoint prepare_from (w : World) (i total_segments : nat)
  (timeline : list Segment) (video_segments : list string) : M (list string) :=
  match timeline with
  | [] => ret video_segments
  | segment :: rest =>
      update_status "rendering" 98
        (cat "Preparing segment "
             (cat (str_nat (i + 1)) (cat "/" (str_nat total_segments)))) ;;;
      video_segments' <-
        match type segment with
        | image =>
            video_path <- prepare_image_for_video w (path_str (path segment))
                                                  (duration segment) ;;
            ret (video_segments ++ [video_path])
        | video => ret (video_segments ++ [path_str (path segment)])
        | background =>
            video_path <- create_background_video w (duration segment) ;;
            ret (video_segments ++ [video_path])
        end ;;
      prepare_from w (S i) total_segments rest video_segments'
  end.

Definition prepare_video_segments (w : World) (timeline : list Segment)
  : M (list string) :=
  prepare_from w 0 (List.length timeline) timeline [].

Definition concatenate_videos (w : World) (video_segments : list string)
  (output_path : string) : M string :=
  match video_segments with
  | [] => raise (Py.ValueError "No video segments to concatenate")
  | _ :: _ =>
      let cmd := ConcatSegments video_segments output_path in
      emit (EncoderInvoked cmd) ;;;
      match ffmpeg w cmd with
      | None => ret output_path
      | Some stderr =>
          raise (Py.Exception (cat "Failed to concatenate videos: " stderr))
      end
  end.

Definition add_audio_to_video (w : World)
  (video_path audio_path output_path : string) : M string :=
  let cmd := MuxAudio video_path audio_path output_path in
  emit (EncoderInvoked cmd) ;;;
  match ffmpeg w cmd with
  | None => ret output_path
  | Some stderr =>
      raise (Py.Exception (cat "Failed to add audio to video: " stderr))
  end.

(** [not visual_content.get(k)]: the key is missing or the list is empty. *)
Definition no_items (l : option (list RawRecord)) : bool :=
  match l with
  | None | Some [] => true
  | Some (_ :: _) => false
  end.

Definition compose_video (w : World) (job : JobDir) : M CompositionInfo :=
  try_except
    (update_status "composing" 95 "Starting video composition..." ;;;
     transcript <- load_transcript job ;;
     let visual_content := load_visual_content job in
     audio_file <- get_audio_file job ;;
     if no_items (images visual_content) && no_items (videos visual_content)
     then raise (Py.Exception "No visual content available for video composition")
     else
       update_status "composing" 96 "Creating video timeline..." ;;;
       let timeline := create_timeline visual_content transcript in
       emit (TimelineBuilt timeline) ;;;
       update_status "composing" 97 "Preparing video segments..." ;;;
       video_segments <- prepare_video_segments w timeline ;;
       update_status "composing" 98 "Combining video segments..." ;;;
       let video_only_path := join (join (job_dir job) "temp") "video_only.mp4" in
       _ <- concatenate_videos w video_segments video_only_path ;;
       update_status "composing" 99 "Adding audio track..." ;;;
       let final_output_path :=
         join (join (job_dir job) "output") "illustrated_podcast.mp4" in
       _ <- add_audio_to_video w video_only_path audio_file final_output_path ;;
       let composition_info :=
         {| output_path := final_output_path;
            file_size := getsize w final_output_path;
            timeline_segments := List.length timeline;
            info_total_duration := get (transcript_total_duration transcript) 0;
            video_resolution := "1920x1080";
            fps := 30 |} in
       emit (InfoWritten composition_info) ;;;
       update_status "completed" 100 "Video composition completed successfully" ;;;
       ret composition_info)
    (fun e =>
       update_status "failed" 0 (cat "Video composition failed: " (Py.str e)) ;;;
       raise e).

End VideoComposer.

(** ** Vocabulary of the specification *)

Module MergerSpec.
Import AudioProcessor.

(** The global offset of a chunk: [segmentIndex * D]. *)
Definition offset (D : Z) (t : SegmentTranscript) : Q :=
  inject_Z (segment_index t * D).

(** A chunk-local segment moved by [base] seconds. *)
Definition shift (base : Q) (s : TranscriptSegment) : TranscriptSegment :=
  {| seg_start := base + seg_start s;
     seg_end := base + seg_end s;
     seg_text := seg_text s |}.

(** Every local segment of every chunk, shifted by its chunk's offset,
    chunk after chunk. *)
Definition shifted_segments (D : Z) (ts : list SegmentTranscript)
  : list TranscriptSegment :=
  flat_map (fun t => map (shift (offset D t)) (segments t)) ts.

Definition by_start (a b : TranscriptSegment) : Prop :=
  seg_start a <= seg_start b.

(** The chunks come in increasing index order. *)
Definition index_ordered (ts : list SegmentTranscript) : Prop :=
  Sorted Z.lt (map segment_index ts).

(** A chunk's own segments are sorted and start within the chunk. *)
Definition local_times_ok (D : Z) (t : SegmentTranscript) : Prop :=
  Sorted by_start (segments t) /\
  Forall (fun s => 0 <= seg_start s /\ seg_start s <= inject_Z D) (segments t).

(** Data-model ranges of a chunk: [segmentIndex >= 0], [duration >= 0]. *)
Definition well_formed (t : SegmentTranscript) : Prop :=
  (0 <= segment_index t)%Z /\ 0 <= duration t.

(** The two chunks of the specification's merger scenario. *)
Definition scenario : list SegmentTranscript :=
  [ {| segment_index := 0; text := "hello"; language := "en";
       duration := 600; segments := [mkSeg 5 8 "hello"] |};
    {| segment_index := 1; text := "world"; language := "en";
       duration := 30; segments := [mkSeg 2 4 "world"] |} ].

End MergerSpec.

Module TimelineSpec.
Import VideoComposer.

(** *** Normalisation *)

(** The placement a raw image record stands for. *)
Definition image_placement (r : RawRecord) : Content :=
  {| c_type := image;
     c_path := raw_path r;
     c_timestamp := match raw_timestamp r with Some t => t | None => 0 end;
     c_relevance_score :=
       match raw_relevance_score r with Some x => x | None => 0.5 end;
     c_description :=
       match raw_description r with Some d => d | None => EmptyString end;
     c_duration := 5 |}.

(** The placement a raw generated-video record stands for. *)
Definition video_placement (r : RawRecord) : Content :=
  {| c_type := video;
     c_path := raw_path r;
     c_timestamp := match raw_timestamp r with Some t => t | None => 0 end;
     c_relevance_score :=
       match raw_relevance_score r with Some x => x | None => 0.8 end;
     c_description :=
       match raw_description r with Some d => d | None => EmptyString end;
     c_duration := 3 |}.

Definition image_records (vc : Manifest) : list RawRecord :=
  match images vc with Some l => l | None => [] end.

Definition video_records (vc : Manifest) : list RawRecord :=
  match videos vc with Some l => l | None => [] end.

(** *** Sorting *)

Definition by_timestamp (a b : Content) : Prop :=
  c_timestamp a <= c_timestamp b.

(** The placements of [l] whose timestamp equals [t], in list order. *)
Definition with_timestamp (t : Q) (l : list Content) : list Content :=
  filter (fun c => Qeq_bool (c_timestamp c) t) l.

(** *** Interval assignment *)

(** The timeline entry of placement [c] on the interval [[s, e)]. *)
Definition entry_of (x : Content * (Q * Q)) : Segment :=
  let '(c, (s, e)) := x in
  {| type := c_type c;
     path := Some (c_path c);
     start_time := s;
     end_time := e;
     duration := e - s;
     description := c_description c;
     relevance_score := c_relevance_score c |}.

(** The interval given to each placement, in list order:
    [start = max(timestamp, cursor)],
    [end = min(start + intrinsicDuration, total)]; the cursor moves to
    [end] past a placement with a non-empty interval. *)
Fixpoint assigned (cursor total : Q) (cs : list Content)
  : list (Content * (Q * Q)) :=
  match cs with
  | [] => []
  | c :: rest =>
      let s := Py.max (c_timestamp c) cursor in
      let e := Py.min (s + c_duration c) total in
      (c, (s, e)) :: assigned (if Py.ltb s e then e else cursor) total rest
  end.

(** The assigned interval is not empty: [start < end]. *)
Definition kept (x : Content * (Q * Q)) : bool :=
  let '(_, (s, e)) := x in Py.ltb s e.

(** *** Gap closing, as the specification words it *)

(** The filler for the stretch [[s, e)]: a duplicate of the previous real
    entry, or a background entry when there is none. *)
Definition filler (prev : option Segment) (s e : Q) : Segment :=
  match prev with
  | Some p =>
      {| type := type p;
         path := path p;
         start_time := s;
         end_time := e;
         duration := e - s;
         description := description p;
         relevance_score := relevance_score p |}
  | None =>
      {| type := background;
         path := None;
         start_time := s;
         end_time := e;
         duration := e - s;
         description := "Background"%string;
         relevance_score := 0.1 |}
  end.

(** Walk over the real entries with the cursor and the previous real
    entry: a filler in front of every entry that starts after the cursor,
    and one last filler when the cursor ends below [total]. *)
Fixpoint fill_by_policy (prev : option Segment) (cursor total : Q)
  (timeline : list Segment) : list Segment :=
  match timeline with
  | [] => if Py.ltb cursor total then [filler prev cursor total] else []
  | seg :: rest =>
      (if Py.ltb cursor (start_time seg)
       then [filler prev cursor (start_time seg)] else [])
      ++ seg :: fill_by_policy (Some seg) (end_time seg) total rest
  end.

(** *** Coverage *)

(** Positive length, and the stored duration is that length. *)
Definition proper (e : Segment) : Prop :=
  start_time e < end_time e /\ duration e == end_time e - start_time e.

(** [entry[i].end_time == entry[i+1].start_time] *)
Definition contiguous (tl : list Segment) : Prop :=
  forall i a b,
    nth_error tl i = Some a -> nth_error tl (S i) = Some b ->
    end_time a == start_time b.

(** An earlier entry ends before a later one starts. *)
Definition no_overlap (tl : list Segment) : Prop :=
  forall i j a b,
    (i < j)%nat -> nth_error tl i = Some a -> nth_error tl j = Some b ->
    end_time a <= start_time b.

(** The entries tile [[a, b]] from left to right. *)
Inductive tiles : Q -> list Segment -> Q -> Prop :=
| tiles_nil a b : a == b -> tiles a [] b
| tiles_cons a b e tl :
    start_time e == a -> proper e -> tiles (end_time e) tl b ->
    tiles a (e :: tl) b.

(** The entries lie in [[a, total]] in order, possibly with gaps. *)
Inductive spaced (total : Q) : Q -> list Segment -> Prop :=
| spaced_nil a : spaced total a []
| spaced_cons a e tl :
    a <= start_time e -> proper e -> end_time e <= total ->
    spaced total (end_time e) tl ->
    spaced total a (e :: tl).

(** The elements of the first list occur in the second, in the same
    order, possibly with other elements in between. *)
Inductive in_order {A : Type} : list A -> list A -> Prop :=
| in_order_nil l : in_order [] l
| in_order_keep x l1 l2 : in_order l1 l2 -> in_order (x :: l1) (x :: l2)
| in_order_skip x l1 l2 : in_order l1 l2 -> in_order l1 (x :: l2).

(** All raw records of a manifest. *)
Definition placements (vc : Manifest) : list RawRecord :=
  image_records vc ++ video_records vc.

Definition timestamp_of (r : RawRecord) : Q :=
  match raw_timestamp r with Some t => t | None => 0 end.

(** *** Inputs of the worked examples *)

Definition image_at (p : string) (t : Q) : RawRecord :=
  {| raw_path := p; raw_timestamp := Some t;
     raw_relevance_score := None; raw_description := None |}.

Definition lasting (total : Q) : Transcript :=
  {| transcript_total_duration := Some total |}.

(** Two images at 0 s and 12 s. *)
Definition two_images : Manifest :=
  {| images := Some [image_at "a.jpg" 0; image_at "b.jpg" 12];
     videos := None |}.

(** One image at 15 s. *)
Definition late_image : Manifest :=
  {| images := Some [image_at "late.jpg" 15]; videos := None |}.

(** A job directory holding nothing but an audio file. *)
Definition audio_only : JobDir :=
  {| job_dir := "jobs/1"; listdir := ["talk.MP3"%string];
     transcript_file := None; manifest_file := None |}.

(** A job directory with audio and transcript but no manifest. *)
Definition no_manifest : JobDir :=
  {| job_dir := "jobs/2"; listdir := ["status.json"; "talk.mp3"]%string;
     transcript_file := Some (lasting 10); manifest_file := None |}.

(** A job directory with audio, transcript and a manifest of two images. *)
Definition complete : JobDir :=
  {| job_dir := "jobs/3"; listdir := ["talk.mp3"%string];
     transcript_file := Some (lasting 20); manifest_file := Some two_images |}.

(** An encoder that always succeeds. *)
Definition obliging : World :=
  {| path_exists := fun _ => true;
     ffmpeg := fun _ => None;
     getsize := fun _ => 1%Z;
     image_video_path := fun p => cat p "_video.mp4";
     background_video_path := fun _ => "background.mp4"%string |}.

End TimelineSpec.
(** ** Further vocabulary: the audio pipeline *)

Module AudioSpec.
Import AudioProcessor.

(** A list of texts without its leading empty ones. *)
Fixpoint drop_empty (l : list string) : list string :=
  match l with
  | EmptyString :: rest => drop_empty rest
  | _ => l
  end.

(** The answered chunks with their positions, counted from [i]. *)
Fixpoint answered_from (i : Z) (outcomes : list (option WhisperResponse))
  : list (Z * WhisperResponse) :=
  match outcomes with
  | [] => []
  | Some resp :: rest => (i, resp) :: answered_from (i + 1) rest
  | None :: rest => answered_from (i + 1) rest
  end.

(** The transcript of the chunk at position [i]. *)
Definition transcript_of (x : Z * WhisperResponse) : SegmentTranscript :=
  {| segment_index := fst x;
     text := w_text (snd x);
     language := w_language (snd x);
     duration := w_duration (snd x);
     segments := w_segments (snd x) |}.

(** The service's local segments are sorted and start within the chunk. *)
Definition response_times_ok (D : Z) (o : option WhisperResponse) : Prop :=
  match o with
  | None => True
  | Some resp =>
      Sorted MergerSpec.by_start (w_segments resp) /\
      Forall (fun s => 0 <= seg_start s /\ seg_start s <= inject_Z D)
             (w_segments resp)
  end.

(** Three chunks, the middle one failed. *)
Definition three_chunks : list (option WhisperResponse) :=
  [ Some {| w_text := "good"; w_language := "en"; w_duration := 600;
            w_segments := [mkSeg 1 3 "good"] |};
    None;
    Some {| w_text := "bye"; w_language := "en"; w_duration := 12;
            w_segments := [mkSeg 2 4 "bye"] |} ].

End AudioSpec.

(** ** audio_processor.py: the pipeline from the job directory *)

Module AudioJob.
Import AudioProcessor.

(** What the pipeline finds outside the program.  [listdir] is
    [os.listdir(self.job_dir)].  [run_segmenter audio_file segment_duration]
    is the encoder run of [segment_audio]: the encoder's stderr when it
    exits with an error ([CalledProcessError]), otherwise the paths
    collected from the segments directory afterwards, sorted by name.
    [transcribe] is the speech-to-text call on a segment file: the
    service's answer, or [None] when [transcribe_segment] raises. *)
Record Studio : Type := mkStudio {
  job_dir : string;
  listdir : list string;
  run_segmenter : string -> Z -> string + list string;
  transcribe : string -> option WhisperResponse
}.

(** What status.json holds: [update_status] overwrites the file, so what
    is left is the record written last (its time stamp is left out). *)
Record Status : Type := mkStatus {
  status : string;
  progress : Z;
  message : string
}.

Definition get_audio_file (st : Studio) : Py.result string :=
  match find VideoComposer.is_audio (listdir st) with
  | Some filename => Py.Ok (VideoComposer.join (job_dir st) filename)
  | None => Py.Raise (Py.FileNotFoundError "No audio file found in job directory")
  end.

Definition segment_audio (st : Studio) (segment_duration : Z)
  : Py.result (list string) :=
  match get_audio_file st with
  | Py.Raise e => Py.Raise e
  | Py.Ok audio_file =>
      match run_segmenter st audio_file segment_duration with
      | inl stderr =>
          Py.Raise (Py.Exception
                      (VideoComposer.cat "Audio segmentation failed: " stderr))
      | inr segment_files => Py.Ok segment_files
      end
  end.

(** [process_audio]: the value returned together with the transcript
    written to full_transcript.json, or the exception re-raised to the
    caller; and what status.json holds afterwards. *)
Definition process_audio (st : Studio) (segment_duration : Z)
  : Py.result (ProcessSummary * MergedTranscript) * Status :=
  let body :=
    match segment_audio st segment_duration with
    | Py.Raise e => Py.Raise e
    | Py.Ok segment_files =>
        AudioProcessor.process_audio (map (transcribe st) segment_files)
                                     segment_duration
    end in
  match body with
  | Py.Ok r =>
      (Py.Ok r,
       mkStatus "completed" 100 "Audio processing completed successfully")
  | Py.Raise e =>
      (Py.Raise e,
       mkStatus "failed" 0 (VideoComposer.cat "Processing failed: " (Py.str e)))
  end.

(** The segment file was answered. *)
Definition answered (st : Studio) (segment_file : string) : bool :=
  match transcribe st segment_file with Some _ => true | None => false end.

End AudioJob.

(** ** Further vocabulary: the timeline *)

Module TimelineExtraSpec.
Import VideoComposer TimelineSpec.

(** The entry shows one of the manifest's placements. *)
Definition from_content (vc : Manifest) (e : Segment) : Prop :=
  exists c,
    In c (collect_content vc) /\
    type e = c_type c /\ path e = Some (c_path c) /\
    description e = c_description c /\
    relevance_score e = c_relevance_score c.

Definition starts_before (a b : Segment) : Prop := start_time a < start_time b.

End TimelineExtraSpec.

(** ** Further vocabulary: the composition pipeline *)

Module ComposerSpec.
Import VideoComposer TimelineSpec.

(** The record is the one written to composition_info.json. *)
Definition is_info (ev : Event) : bool :=
  match ev with InfoWritten _ => true | _ => false end.

(** The event is a command given to the encoder. *)
Definition is_encoder (ev : Event) : bool :=
  match ev with EncoderInvoked _ => true | _ => false end.

(** What rendering one timeline entry comes to: the clip's path, or the
    exception of the conversion. *)
Definition clip_for (w : World) (seg : Segment) : Py.result string :=
  match type seg with
  | image =>
      let p := path_str (path seg) in
      if path_exists w p then
        match ffmpeg w (ImageToVideo p (duration seg) (image_video_path w p)) with
        | None => Py.Ok (image_video_path w p)
        | Some stderr =>
            Py.Raise (Py.Exception (cat "Failed to convert image to video: " stderr))
        end
      else Py.Raise (Py.FileNotFoundError (cat "Image not found: " p))
  | video => Py.Ok (path_str (path seg))
  | background =>
      match
        ffmpeg w (ColorBackground (duration seg)
                                  (background_video_path w (duration seg)))
      with
      | None => Py.Ok (background_video_path w (duration seg))
      | Some stderr =>
          Py.Raise (Py.Exception (cat "Failed to create background video: " stderr))
      end
  end.

(** Rendering the entries in order: all the clips, or the exception of the
    first entry that fails. *)
Fixpoint clips (w : World) (tl : list Segment) : Py.result (list string) :=
  match tl with
  | [] => Py.Ok []
  | seg :: rest =>
      match clip_for w seg with
      | Py.Raise e => Py.Raise e
      | Py.Ok p =>
          match clips w rest with
          | Py.Ok ps => Py.Ok (p :: ps)
          | Py.Raise e => Py.Raise e
          end
      end
  end.

(** The entry needs the encoder: it is not a ready-made video clip. *)
Definition needs_encoder (seg : Segment) : bool :=
  match type seg with video => false | _ => true end.

(** The log [log'] is [log] with further records behind it, none of them
    the composition_info.json record. *)
Definition grows_quietly (log log' : list Event) : Prop :=
  exists mid, log' = log ++ mid /\ Forall (fun ev => is_info ev = false) mid.


(** Every image is on disk and the encoder accepts every command. *)
Definition reliable (w : World) : Prop :=
  (forall p, path_exists w p = true) /\ (forall cmd, ffmpeg w cmd = None).

(** The manifest lists at least one image or video. *)
Definition has_items (m : Manifest) : Prop := placements m <> [].

(** A job whose only image is due after the audio has ended. *)
Definition late_job : JobDir :=
  {| job_dir := "jobs/4"; listdir := ["talk.mp3"%string];
     transcript_file := Some (lasting 10); manifest_file := Some late_image |}.

(** An encoder that rejects every command. *)
Definition failing : World :=
  {| path_exists := fun _ => true;
     ffmpeg := fun _ => Some "broken pipe"%string;
     getsize := fun _ => 0%Z;
     image_video_path := fun p => cat p "_video.mp4";
     background_video_path := fun _ => "background.mp4"%string |}.

End ComposerSpec.

(** ** video.py: the routes over the composer *)

Module VideoRoutes.
Import VideoComposer.

(** A row of the timeline answer: the entry without its path. *)
Record FormattedSegment : Type := mkFormatted {
  f_type : Kind;
  f_start_time : Q;
  f_end_time : Q;
  f_duration : Q;
  f_description : string;
  f_relevance_score : Q
}.

(** The JSON bodies the two routes answer with. *)
Inductive Body : Type :=
| ErrorBody (error : string)
| ComposedBody (job_id status output_path : string) (file_size : Z)
    (timeline_segments : nat) (total_duration : Q) (download_url : string)
| EmptyTimelineBody
| TimelineBody (job_id : string) (timeline : list FormattedSegment)
    (total_segments : nat) (total_duration : Q).

(** [POST /compose/<job_id>].  [job] is the job directory when it exists;
    [options] is what [request.get_json()] comes to. *)
Definition compose_video (w : World) (job_id : string) (job : option JobDir)
  (options : Py.result unit) (log : list Event) : (Body * Z) * list Event :=
  match job with
  | None => ((ErrorBody "Job not found", 404%Z), log)
  | Some job =>
      match transcript_file job with
      | None =>
          ((ErrorBody "Transcript not found. Please process audio first.",
            400%Z), log)
      | Some _ =>
          match manifest_file job with
          | None =>
              ((ErrorBody
                  "Visual content not found. Please generate visual content first.",
                400%Z), log)
          | Some _ =>
              match options with
              | Py.Raise e => ((ErrorBody (Py.str e), 500%Z), log)
              | Py.Ok _ =>
                  match VideoComposer.compose_video w job log with
                  | (Py.Ok composition_info, log') =>
                      ((ComposedBody job_id "completed"
                          (output_path composition_info)
                          (file_size composition_info)
                          (timeline_segments composition_info)
                          (info_total_duration composition_info)
                          (cat "/api/download/" job_id),
                        200%Z), log')
                  | (Py.Raise e, log') => ((ErrorBody (Py.str e), 500%Z), log')
                  end
              end
          end
      end
  end.

(** The loop building [formatted_timeline]. *)
Definition format_segment (formatted_timeline : list FormattedSegment)
  (segment : Segment) : list FormattedSegment :=
  formatted_timeline ++
    [ {| f_type := type segment;
         f_start_time := start_time segment;
         f_end_time := end_time segment;
         f_duration := duration segment;
         f_description := description segment;
         f_relevance_score := relevance_score segment |} ].

(** [GET /timeline/<job_id>] *)
Definition get_video_timeline (job_id : string) (job : option JobDir)
  : Body * Z :=
  match job with
  | None => (ErrorBody "Job not found", 404%Z)
  | Some job =>
      match fst (load_transcript job []) with
      | Py.Raise e => (ErrorBody (Py.str e), 500%Z)
      | Py.Ok transcript =>
          let visual_content := load_visual_content job in
          if no_items (images visual_content)
             && no_items (videos visual_content)
          then (EmptyTimelineBody, 200%Z)
          else
            let timeline := create_timeline visual_content transcript in
            let formatted_timeline := fold_left format_segment timeline [] in
            (TimelineBody job_id formatted_timeline
                          (List.length formatted_timeline)
                          (get (transcript_total_duration transcript) 0),
             200%Z)
      end
  end.

End VideoRoutes.

(** ** [list.sort] in general *)

Module PySort.

(** [l.sort(key=...)] with [before a b] telling that [a]'s key is
    strictly in front of [b]'s: the stable insertion sort, an element going
    in front of the first one that is not strictly before it. *)
Fixpoint insert {A : Type} (before : A -> A -> bool) (x : A) (l : list A)
  : list A :=
  match l with
  | [] => [x]
  | y :: r => if before y x then y :: insert before x r else x :: y :: r
  end.

Definition sort {A : Type} (before : A -> A -> bool) (l : list A) : list A :=
  fold_right (insert before) [] l.

(** [key=lambda x: k(x)]: ascending. *)
Definition ascending {A : Type} (key : A -> Q) (a b : A) : bool :=
  Py.ltb (key a) (key b).

(** [key=lambda x: k(x), reverse=True]: descending, still stable. *)
Definition descending {A : Type} (key : A -> Q) (a b : A) : bool :=
  Py.ltb (key b) (key a).

(** [l[:n]], also for a negative [n]. *)
Definition slice_to {A : Type} (n : Z) (l : list A) : list A :=
  if (0 <=? n)%Z then firstn (Z.to_nat n) l
  else firstn (List.length l - Z.to_nat (- n)) l.

End PySort.

(** ** content_analyzer.py *)

Module ContentAnalyzer.
Import AudioProcessor.

(** A visual suggestion as the language model words it; every key is read
    with [get]. *)
Record Moment : Type := mkMoment {
  m_timestamp : option Q;
  m_search_queries : option (list string);
  m_type : option string;
  m_priority : option Q;
  m_description : option string;
  m_image_prompt : option string
}.

(** [a == b] on two segment dictionaries. *)
Definition segment_eqb (a b : TranscriptSegment) : bool :=
  Qeq_bool (seg_start a) (seg_start b)
  && Qeq_bool (seg_end a) (seg_end b)
  && String.eqb (seg_text a) (seg_text b).

(** [chunk_duration = 45] *)
Definition chunk_duration : Q := 45.

Section Analysis.

(** [analyze_segment_for_visuals], an exchange with the language model;
    it answers [[]] when the exchange fails. *)
Variable analyze_segment_for_visuals : string -> Q -> Q -> list Moment.

(** Body of the loop of [create_visual_timeline]; the state is
    [visual_timeline], [current_chunk] and [chunk_start]. *)
Definition chunk_step (last_segment : TranscriptSegment)
  (st : list Moment * list TranscriptSegment * Q) (segment : TranscriptSegment)
  : list Moment * list TranscriptSegment * Q :=
  let '(visual_timeline, current_chunk, chunk_start) := st in
  if Py.ltb chunk_duration (seg_end segment - chunk_start)
     || segment_eqb segment last_segment
  then
    let visual_timeline :=
      match Py.last_item current_chunk with
      | Some chunk_last =>
          let chunk_text := String.concat " " (map seg_text current_chunk) in
          let chunk_end := seg_end chunk_last in
          visual_timeline ++
            analyze_segment_for_visuals chunk_text chunk_start chunk_end
      | None => visual_timeline
      end in
    (visual_timeline, [segment], seg_start segment)
  else (visual_timeline, current_chunk ++ [segment], chunk_start).

(** [create_visual_timeline], on [transcript.get('segments', [])]. *)
Definition create_visual_timeline (segments : list TranscriptSegment)
  : list Moment :=
  match Py.last_item segments with
  | None => []
  | Some last_segment =>
      let '(visual_timeline, _, _) :=
        fold_left (chunk_step last_segment) segments ([], [], 0) in
      PySort.sort
        (PySort.ascending (fun x => VideoComposer.get (m_timestamp x) 0))
        visual_timeline
  end.

End Analysis.

(** An entry of ['visual_concepts']; every key is read by subscript. *)
Record Concept : Type := mkConcept {
  concept : string;
  search_query : string;
  concept_type : string;
  relevance_score : Q
}.

(** content_analysis.json as far as [get_search_queries] reads it. *)
Record Analysis : Type := mkAnalysis {
  visual_timeline : list Moment;
  visual_concepts : option (list Concept)
}.

(** An element of [queries]. *)
Record Query : Type := mkQuery {
  query : string;
  q_timestamp : Q;
  q_type : string;
  q_priority : Q;
  q_description : string;
  q_image_prompt : string
}.

(** The inner loop over [moment.get('search_queries', [])]. *)
Definition add_moment_query (moment : Moment) (queries : list Query)
  (q : string) : list Query :=
  queries ++
    [ {| query := q;
         q_timestamp := VideoComposer.get (m_timestamp moment) 0;
         q_type := VideoComposer.get (m_type moment) "photo"%string;
         q_priority := VideoComposer.get (m_priority moment) 0.5;
         q_description := VideoComposer.get (m_description moment) EmptyString;
         q_image_prompt := VideoComposer.get (m_image_prompt moment) EmptyString |} ].

Definition add_moment (queries : list Query) (moment : Moment) : list Query :=
  fold_left (add_moment_query moment)
            (VideoComposer.get (m_search_queries moment) []) queries.

Definition add_concept (queries : list Query) (c : Concept) : list Query :=
  queries ++
    [ {| query := search_query c;
         q_timestamp := 0;
         q_type := concept_type c;
         q_priority := relevance_score c;
         q_description := concept c;
         q_image_prompt := concept c |} ].

(** [get_search_queries]; [analysis_file] is content_analysis.json when it
    exists. *)
Definition get_search_queries (analysis_file : option Analysis)
  (max_queries : Z) : Py.result (list Query) :=
  match analysis_file with
  | None =>
      Py.Raise (Py.FileNotFoundError
                  "Content analysis not found. Please analyze content first.")
  | Some analysis =>
      let queries := fold_left add_moment (visual_timeline analysis) [] in
      let queries :=
        fold_left add_concept
                  (VideoComposer.get (visual_concepts analysis) []) queries in
      let queries := PySort.sort (PySort.descending q_priority) queries in
      Py.Ok (PySort.slice_to max_queries queries)
  end.

End ContentAnalyzer.

(** ** Further vocabulary: the content analysis *)

Module AnalyzerSpec.
Import AudioProcessor ContentAnalyzer.

(** The chunks handed to the language model, each with the start time
    passed along, for the segments still to come. *)
Fixpoint flushed (last_segment : TranscriptSegment)
  (chunk : list TranscriptSegment) (chunk_start : Q)
  (segments : list TranscriptSegment) : list (list TranscriptSegment * Q) :=
  match segments with
  | [] => []
  | s :: rest =>
      if Py.ltb chunk_duration (seg_end s - chunk_start)
         || segment_eqb s last_segment
      then
        match chunk with
        | [] => []
        | _ :: _ => [(chunk, chunk_start)]
        end ++ flushed last_segment [s] (seg_start s) rest
      else flushed last_segment (chunk ++ [s]) chunk_start rest
  end.

Definition analysed_chunks (segments : list TranscriptSegment)
  : list (list TranscriptSegment * Q) :=
  match Py.last_item segments with
  | None => []
  | Some last_segment => flushed last_segment [] 0 segments
  end.

(** The exchange about one chunk: its texts joined by blanks, its start,
    and the end of its last segment. *)
Definition ask (analyze : string -> Q -> Q -> list Moment)
  (c : list TranscriptSegment * Q) : list Moment :=
  match Py.last_item (fst c) with
  | Some chunk_last =>
      analyze (String.concat " " (map seg_text (fst c))) (snd c)
              (seg_end chunk_last)
  | None => []
  end.

Definition moment_time (x : Moment) : Q :=
  match m_timestamp x with Some t => t | None => 0 end.

(** The queries one moment gives rise to, one per search query. *)
Definition moment_queries (moment : Moment) : list Query :=
  map (fun q =>
         {| query := q;
            q_timestamp := match m_timestamp moment with Some t => t | None => 0 end;
            q_type := match m_type moment with Some t => t | None => "photo"%string end;
            q_priority := match m_priority moment with Some p => p | None => 0.5 end;
            q_description :=
              match m_description moment with Some d => d | None => EmptyString end;
            q_image_prompt :=
              match m_image_prompt moment with Some d => d | None => EmptyString end |})
      (match m_search_queries moment with Some l => l | None => [] end).

Definition concept_query (c : Concept) : Query :=
  {| query := search_query c; q_timestamp := 0; q_type := concept_type c;
     q_priority := relevance_score c; q_description := concept c;
     q_image_prompt := concept c |}.

(** Every query of an analysis: those of the moments in timeline order,
    then one per visual concept. *)
Definition all_queries (analysis : Analysis) : list Query :=
  flat_map moment_queries (visual_timeline analysis)
  ++ map concept_query
       (match visual_concepts analysis with Some l => l | None => [] end).

(** Three segments of twenty seconds. *)
Definition three_segments : list TranscriptSegment :=
  [mkSeg 0 20 "one"; mkSeg 20 40 "two"; mkSeg 40 60 "three"].

(** An analysis with two moments and one concept. *)
Definition small_analysis : Analysis :=
  {| visual_timeline :=
       [ mkMoment (Some 5) (Some ["cat"; "dog"]%string) None (Some 0.9) None None;
         mkMoment (Some 9) (Some ["bird"]%string) None None None None ];
     visual_concepts := Some [mkConcept "sea" "the sea" "photo" 0.7] |}.

End AnalyzerSpec.

(** ** visual_content_generator.py *)

Module VisualContentGenerator.
Import VideoComposer.

(** *** [get_content_for_timestamp] *)







(** *** File names *)

(** [c.isalnum()] for the code points below 256. *)
Definition isalnum (c : ascii) : bool :=
  let n := nat_of_ascii c in
  (((48 <=? n) && (n <=? 57)) || ((65 <=? n) && (n <=? 90))
   || ((97 <=? n) && (n <=? 122))
   || existsb (Nat.eqb n) [170; 178; 179; 181; 185; 186; 188; 189; 190]
   || ((192 <=? n) && (n <=? 214)) || ((216 <=? n) && (n <=? 246))
   || (248 <=? n))%nat.

(** [c.isspace()] for the code points below 256. *)
Definition isspace (c : ascii) : bool :=
  let n := nat_of_ascii c in
  (((9 <=? n) && (n <=? 13)) || ((28 <=? n) && (n <=? 32))
   || (n =? 133) || (n =? 160))%nat.

Fixpoint string_filter (p : ascii -> bool) (s : string) : string :=
  match s with
  | EmptyString => EmptyString
  | String c r => if p c then String c (string_filter p r) else string_filter p r
  end.

(** [s.rstrip()] *)
Fixpoint rstrip (s : string) : string :=
  match s with
  | EmptyString => EmptyString
  | String c r =>
      match rstrip r with
      | EmptyString => if isspace c then EmptyString else String c EmptyString
      | r' => String c r'
      end
  end.

(** [s.replace(' ', '_')] *)
Fixpoint blanks_to_underscores (s : string) : string :=
  match s with
  | EmptyString => EmptyString
  | String c r =>
      String (if Ascii.eqb c " " then "_"%char else c) (blanks_to_underscores r)
  end.

(** The two lines computing [safe_query]. *)
Definition safe_query (query : string) : string :=
  let kept :=
    string_filter
      (fun c => isalnum c
                || Ascii.eqb c " " || Ascii.eqb c "-" || Ascii.eqb c "_")
      query in
  let safe_query := rstrip kept in
  substring 0 50 (blanks_to_underscores safe_query).

(** [int(x)] on a number: towards zero. *)
Definition int (x : Q) : Z := Z.quot (Qnum x) (Zpos (Qden x)).

(** [str(n)] for an integer. *)
Definition str_int (n : Z) : string :=
  DecimalString.NilZero.string_of_int (Z.to_int n).

(** *** [process_visual_content] *)

(** An element of [visual_queries]; ['query'] is read by subscript. *)
Record QueryData : Type := mkQueryData {
  qd_query : string;
  qd_timestamp : option Q;
  qd_type : option string;
  qd_description : option string;
  qd_image_prompt : option string
}.

(** An item of the web search's answer. *)
Record SearchItem : Type := mkItem {
  item_url : option string
}.

(** An element of [search_results]. *)
Record SearchResult : Type := mkResult {
  result_url : string;
  result_relevance_score : Q
}.

(** A record of the manifest's ['images']. *)
Record ImageRecord : Type := mkImage {
  img_filename : string;
  img_path : string;
  img_timestamp : Q;
  img_query : string;
  img_description : string;
  img_source : string;
  img_relevance_score : Q
}.

(** A record of the manifest's ['videos']. *)
Record VideoRecord : Type := mkVideo {
  vid_filename : string;
  vid_path : string;
  vid_timestamp : Q;
  vid_query : string;
  vid_description : string
}.

(** [generated_content] *)
Record GeneratedContent : Type := mkGenerated {
  gen_images : list ImageRecord;
  gen_videos : list VideoRecord;
  failed_queries : list QueryData
}.

(** The services behind the generator: the web search ([None] when the
    search script fails), the download of one URL, the image generator and
    the video generator, each answering the path written or [None]. *)
Record Services : Type := mkServices {
  web_search : string -> option (list SearchItem);
  download_image : string -> string -> option string;
  generate_image : string -> string -> string -> option string;
  generate_video_clip : string -> string -> option string
}.

(** [search_images(query, max_results)] *)
Definition search_images (sv : Services) (query : string) (max_results : Z)
  : list SearchResult :=
  match web_search sv query with
  | None => []
  | Some found =>
      fold_left
        (fun search_results item =>
           search_results ++
             [ {| result_url := get (item_url item) EmptyString;
                  result_relevance_score := 0.8 |} ])
        (PySort.slice_to max_results found) []
  end.

(** The loop over [enumerate(search_results)], left at the first download
    that succeeds: the record to add, if any. *)
Fixpoint first_download (sv : Services) (prefix : string) (j : nat)
  (search_results : list SearchResult)
  (mk : string -> string -> Q -> ImageRecord) : option ImageRecord :=
  match search_results with
  | [] => None
  | result :: rest =>
      let filename := cat prefix (cat "_" (cat (str_nat j) ".jpg")) in
      match download_image sv (result_url result) filename with
      | Some downloaded_path =>
          Some (mk filename downloaded_path (result_relevance_score result))
      | None => first_download sv prefix (S j) rest mk
      end
  end.

(** Body of the loop over [visual_queries]. *)
Definition process_query (sv : Services) (generated_content : GeneratedContent)
  (query_data : QueryData) : GeneratedContent :=
  let query := qd_query query_data in
  let timestamp := get (qd_timestamp query_data) 0 in
  let content_type := get (qd_type query_data) "photo"%string in
  let description := get (qd_description query_data) EmptyString in
  let image_prompt := get (qd_image_prompt query_data) query in
  let prefix := cat (str_int (int timestamp)) (cat "_" (safe_query query)) in
  if String.eqb content_type "video" then
    let filename := cat prefix ".mp4" in
    match generate_video_clip sv image_prompt filename with
    | Some video_path =>
        {| gen_images := gen_images generated_content;
           gen_videos :=
             gen_videos generated_content ++
               [ {| vid_filename := filename; vid_path := video_path;
                    vid_timestamp := timestamp; vid_query := query;
                    vid_description := description |} ];
           failed_queries := failed_queries generated_content |}
    | None =>
        {| gen_images := gen_images generated_content;
           gen_videos := gen_videos generated_content;
           failed_queries := failed_queries generated_content ++ [query_data] |}
    end
  else
    let search_results := search_images sv query 3 in
    match
      first_download sv prefix 0 search_results
        (fun filename downloaded_path relevance =>
           {| img_filename := filename; img_path := downloaded_path;
              img_timestamp := timestamp; img_query := query;
              img_description := description; img_source := "search";
              img_relevance_score := relevance |})
    with
    | Some record =>
        {| gen_images := gen_images generated_content ++ [record];
           gen_videos := gen_videos generated_content;
           failed_queries := failed_queries generated_content |}
    | None =>
        let filename := cat prefix "_generated.png" in
        match generate_image sv image_prompt filename content_type with
        | Some generated_path =>
            {| gen_images :=
                 gen_images generated_content ++
                   [ {| img_filename := filename; img_path := generated_path;
                        img_timestamp := timestamp; img_query := query;
                        img_description := description;
                        img_source := "generated";
                        img_relevance_score := 0.7 |} ];
               gen_videos := gen_videos generated_content;
               failed_queries := failed_queries generated_content |}
        | None =>
            {| gen_images := gen_images generated_content;
               gen_videos := gen_videos generated_content;
               failed_queries :=
                 failed_queries generated_content ++ [query_data] |}
        end
    end.

(** [process_visual_content]: the dictionary returned, which is also the
    manifest written. *)
Definition process_visual_content (sv : Services)
  (visual_queries : list QueryData) : GeneratedContent :=
  fold_left (process_query sv) visual_queries
            {| gen_images := []; gen_videos := []; failed_queries := [] |}.

(** The manifest as [VideoComposer.load_visual_content] reads it back. *)
Definition manifest_of (g : GeneratedContent) : Manifest :=
  {| images :=
       Some (map (fun r => {| raw_path := img_path r;
                              raw_timestamp := Some (img_timestamp r);
                              raw_relevance_score := Some (img_relevance_score r);
                              raw_description := Some (img_description r) |})
                 (gen_images g));
     videos :=
       Some (map (fun r => {| raw_path := vid_path r;
                              raw_timestamp := Some (vid_timestamp r);
                              raw_relevance_score := None;
                              raw_description := Some (vid_description r) |})
                 (gen_videos g)) |}.

End VisualContentGenerator.

(** ** Further vocabulary: the generated content *)

Module GeneratorSpec.
Import VideoComposer VisualContentGenerator.





(** A character allowed in a file name: a letter, a digit, [-] or [_]. *)
Definition safe_char (c : ascii) : bool :=
  isalnum c || Ascii.eqb c "-" || Ascii.eqb c "_".

Fixpoint string_all (p : ascii -> bool) (s : string) : bool :=
  match s with
  | EmptyString => true
  | String c r => p c && string_all p r
  end.

(** The record answers the query [q]. *)
Definition image_answers (q : QueryData) (r : ImageRecord) : Prop :=
  img_query r = qd_query q
  /\ img_timestamp r = get (qd_timestamp q) 0
  /\ img_description r = get (qd_description q) EmptyString
  /\ get (qd_type q) "photo"%string <> "video"%string
  /\ ((img_source r = "search"%string /\ img_relevance_score r = 0.8)
      \/ (img_source r = "generated"%string /\ img_relevance_score r = 0.7)).

Definition video_answers (q : QueryData) (r : VideoRecord) : Prop :=
  vid_query r = qd_query q
  /\ vid_timestamp r = get (qd_timestamp q) 0
  /\ vid_description r = get (qd_description q) EmptyString
  /\ get (qd_type q) "photo"%string = "video"%string.

(** Every query of [queries] is answered by one image, by one video, or
    listed as failed; and nothing else is in [g]. *)
Definition accounted (queries : list QueryData) (g : GeneratedContent) : Prop :=
  (List.length (gen_images g) + List.length (gen_videos g)
   + List.length (failed_queries g) = List.length queries)%nat
  /\ Forall (fun r => exists q, In q queries /\ image_answers q r) (gen_images g)
  /\ Forall (fun r => exists q, In q queries /\ video_answers q r) (gen_videos g)
  /\ Forall (fun q => In q queries) (failed_queries g).


(** Services with nothing to find on the web and a generator that works. *)
Definition offline : Services :=
  {| web_search := fun _ => None;
     download_image := fun _ _ => None;
     generate_image := fun _ filename _ => Some (cat "images/" filename);
     generate_video_clip := fun _ filename => Some (cat "videos/" filename) |}.

Definition two_queries : list QueryData :=
  [ mkQueryData "a cat, asleep" (Some 12.5) None None None;
    mkQueryData "waves" (Some 30) (Some "video"%string) None None ].

End GeneratorSpec.

(** ** visual.py: the generation route *)

Module VisualRoutes.
Import ContentAnalyzer VisualContentGenerator.

Inductive Body : Type :=
| ErrorBody (error : string)
| GeneratedBody (job_id status : string)
    (images_generated videos_generated failed_queries total_processed : nat).

(** A query dictionary of [get_search_queries] as [process_visual_content]
    reads it: every key is present. *)
Definition as_query_data (q : Query) : QueryData :=
  {| qd_query := query q;
     qd_timestamp := Some (q_timestamp q);
     qd_type := Some (q_type q);
     qd_description := Some (q_description q);
     qd_image_prompt := Some (q_image_prompt q) |}.

(** [POST /generate/<job_id>]; [max_queries] and [generate_videos] are the
    two options after their defaults. *)
Definition generate_visual_content (sv : Services) (job_id : string)
  (job_exists : bool) (analysis_file : option Analysis)
  (max_queries : Z) (generate_videos : bool) : Body * Z :=
  if negb job_exists then (ErrorBody "Job not found", 404%Z)
  else
    match get_search_queries analysis_file max_queries with
    | Py.Raise e => (ErrorBody (Py.str e), 500%Z)
    | Py.Ok queries =>
        let queries :=
          if negb generate_videos
          then filter (fun q => negb (String.eqb (q_type q) "video")) queries
          else queries in
        let result := process_visual_content sv (map as_query_data queries) in
        (GeneratedBody job_id "content_generated"
           (List.length (gen_images result))
           (List.length (gen_videos result))
           (List.length (VisualContentGenerator.failed_queries result))
           (List.length queries),
         200%Z)
    end.

(** A record of the manifest as the two listing routes read it:
    ['filename'] by subscript, the rest with [get]. *)
Record ManifestItem : Type := mkManifestItem {
  mi_filename : string;
  mi_timestamp : option Q;
  mi_description : option string;
  mi_query : option string;
  mi_source : option string;
  mi_relevance_score : option Q
}.

Record ItemManifest : Type := mkItemManifest {
  im_images : option (list ManifestItem);
  im_videos : option (list ManifestItem)
}.

(** An element of the content timeline. *)
Record TimelineItem : Type := mkTimelineItem {
  ti_timestamp : Q;
  ti_type : VideoComposer.Kind;
  ti_filename : string;
  ti_url : string;
  ti_description : string;
  ti_query : string;
  ti_source : string;
  ti_relevance_score : Q
}.

(** An element of the preview. *)
Record PreviewItem : Type := mkPreviewItem {
  pv_type : VideoComposer.Kind;
  pv_timestamp : Q;
  pv_url : string;
  pv_description : string;
  pv_relevance_score : Q
}.

Inductive ListingBody : Type :=
| ListingError (error : string)
| EmptyTimeline
| ContentTimeline (job_id : string) (timeline : list TimelineItem)
    (total_items : nat) (range_start range_end : Q)
| EmptyPreview
| Preview (job_id : string) (preview : list PreviewItem)
    (total_available : nat).

Definition file_url (job_id kind filename : string) : string :=
  VideoComposer.cat "/api/files/"
    (VideoComposer.cat job_id
       (VideoComposer.cat "/"
          (VideoComposer.cat kind (VideoComposer.cat "/" filename)))).

(** [start_time <= timestamp <= end_time] *)
Definition in_range (start_time end_time timestamp : Q) : bool :=
  Qle_bool start_time timestamp && Qle_bool timestamp end_time.

Definition add_timeline_image (job_id : string) (start_time end_time : Q)
  (timeline : list TimelineItem) (image : ManifestItem) : list TimelineItem :=
  let timestamp := VideoComposer.get (mi_timestamp image) 0 in
  if in_range start_time end_time timestamp then
    timeline ++
      [ {| ti_timestamp := timestamp;
           ti_type := VideoComposer.image;
           ti_filename := mi_filename image;
           ti_url := file_url job_id "images" (mi_filename image);
           ti_description := VideoComposer.get (mi_description image) EmptyString;
           ti_query := VideoComposer.get (mi_query image) EmptyString;
           ti_source := VideoComposer.get (mi_source image) "unknown"%string;
           ti_relevance_score :=
             VideoComposer.get (mi_relevance_score image) 0.5 |} ]
  else timeline.

Definition add_timeline_video (job_id : string) (start_time end_time : Q)
  (timeline : list TimelineItem) (video : ManifestItem) : list TimelineItem :=
  let timestamp := VideoComposer.get (mi_timestamp video) 0 in
  if in_range start_time end_time timestamp then
    timeline ++
      [ {| ti_timestamp := timestamp;
           ti_type := VideoComposer.video;
           ti_filename := mi_filename video;
           ti_url := file_url job_id "videos" (mi_filename video);
           ti_description := VideoComposer.get (mi_description video) EmptyString;
           ti_query := VideoComposer.get (mi_query video) EmptyString;
           ti_source := "generated";
           ti_relevance_score := 0.8 |} ]
  else timeline.

(** [GET /content/<job_id>/timeline]; the three arguments after the
    manifest are the query parameters after their defaults. *)
Definition get_content_timeline (job_id : string) (job_exists : bool)
  (manifest_file : option ItemManifest) (start_time end_time : Q)
  : ListingBody * Z :=
  if negb job_exists then (ListingError "Job not found", 404%Z)
  else
    match manifest_file with
    | None => (EmptyTimeline, 200%Z)
    | Some manifest =>
        let timeline :=
          fold_left (add_timeline_image job_id start_time end_time)
                    (VideoComposer.get (im_images manifest) []) [] in
        let timeline :=
          fold_left (add_timeline_video job_id start_time end_time)
                    (VideoComposer.get (im_videos manifest) []) timeline in
        let timeline := PySort.sort (PySort.ascending ti_timestamp) timeline in
        (ContentTimeline job_id timeline (List.length timeline)
                         start_time end_time, 200%Z)
    end.

Definition add_preview_image (job_id : string) (preview_items : list PreviewItem)
  (image : ManifestItem) : list PreviewItem :=
  preview_items ++
    [ {| pv_type := VideoComposer.image;
         pv_timestamp := VideoComposer.get (mi_timestamp image) 0;
         pv_url := file_url job_id "images" (mi_filename image);
         pv_description := VideoComposer.get (mi_description image) EmptyString;
         pv_relevance_score :=
           VideoComposer.get (mi_relevance_score image) 0.5 |} ].

Definition add_preview_video (job_id : string) (preview_items : list PreviewItem)
  (video : ManifestItem) : list PreviewItem :=
  preview_items ++
    [ {| pv_type := VideoComposer.video;
         pv_timestamp := VideoComposer.get (mi_timestamp video) 0;
         pv_url := file_url job_id "videos" (mi_filename video);
         pv_description := VideoComposer.get (mi_description video) EmptyString;
         pv_relevance_score := 0.8 |} ].



End VisualRoutes.

(** ** audio.py: the upload filter *)

Module AudioRoutes.

(** [ALLOWED_EXTENSIONS] *)
Definition ALLOWED_EXTENSIONS : list string :=
  ["mp3"; "wav"; "m4a"; "flac"; "ogg"]%string.

(** [filename.rsplit('.', 1)[1]] when ['.' in filename]: what follows the
    last dot. *)
Fixpoint after_last_dot (filename : string) : option string :=
  match filename with
  | EmptyString => None
  | String c r =>
      match after_last_dot r with
      | Some ext => Some ext
      | None => if Ascii.eqb c "." then Some r else None
      end
  end.

Definition allowed_file (filename : string) : bool :=
  match after_last_dot filename with
  | None => false
  | Some ext =>
      existsb (String.eqb (VideoComposer.lower ext)) ALLOWED_EXTENSIONS
  end.

End AudioRoutes.

(** ** Further vocabulary: the listing routes *)

Module ListingSpec.
Import VisualRoutes.

Definition item_time (x : ManifestItem) : Q :=
  match mi_timestamp x with Some t => t | None => 0 end.

Definition image_item (job_id : string) (x : ManifestItem) : TimelineItem :=
  {| ti_timestamp := item_time x;
     ti_type := VideoComposer.image;
     ti_filename := mi_filename x;
     ti_url := file_url job_id "images" (mi_filename x);
     ti_description :=
       match mi_description x with Some d => d | None => EmptyString end;
     ti_query := match mi_query x with Some d => d | None => EmptyString end;
     ti_source := match mi_source x with Some d => d | None => "unknown"%string end;
     ti_relevance_score :=
       match mi_relevance_score x with Some r => r | None => 0.5 end |}.

Definition video_item (job_id : string) (x : ManifestItem) : TimelineItem :=
  {| ti_timestamp := item_time x;
     ti_type := VideoComposer.video;
     ti_filename := mi_filename x;
     ti_url := file_url job_id "videos" (mi_filename x);
     ti_description :=
       match mi_description x with Some d => d | None => EmptyString end;
     ti_query := match mi_query x with Some d => d | None => EmptyString end;
     ti_source := "generated";
     ti_relevance_score := 0.8 |}.

Definition listed_images (m : ItemManifest) : list ManifestItem :=
  match im_images m with Some l => l | None => [] end.

Definition listed_videos (m : ItemManifest) : list ManifestItem :=
  match im_videos m with Some l => l | None => [] end.

(** The records due within [[start_time, end_time]], images first. *)
Definition due_within (job_id : string) (m : ItemManifest)
  (start_time end_time : Q) : list TimelineItem :=
  map (image_item job_id)
      (filter (fun x => in_range start_time end_time (item_time x))
              (listed_images m))
  ++ map (video_item job_id)
       (filter (fun x => in_range start_time end_time (item_time x))
               (listed_videos m)).






End ListingSpec.

(** ** Facts about the Python built-ins *)

Module PyFacts.

Lemma ltb_lt a b : Py.ltb a b = true <-> a < b.
Proof.
  unfold Py.ltb. rewrite negb_true_iff.
  split; intro H.
  - apply Qnot_le_lt. intro Hle. apply Qle_bool_iff in Hle. congruence.
  - destruct (Qle_bool b a) eqn:E; [|reflexivity].
    apply Qle_bool_iff in E. exfalso. apply (Qlt_not_le _ _ H E).
Qed.

Lemma ltb_ge a b : Py.ltb a b = false <-> b <= a.
Proof.
  unfold Py.ltb. rewrite negb_false_iff. apply Qle_bool_iff.
Qed.

Lemma ltb_spec a b : reflect (a < b) (Py.ltb a b).
Proof.
  destruct (Py.ltb a b) eqn:E; constructor.
  - now apply ltb_lt.
  - apply ltb_ge in E. now apply Qle_not_lt.
Qed.

Lemma max_cases a b :
  (a < b /\ Py.max a b = b) \/ (b <= a /\ Py.max a b = a).
Proof.
  unfold Py.max. destruct (ltb_spec a b) as [H|H]; [left|right]; split; auto.
  now apply Qnot_lt_le.
Qed.

Lemma min_cases a b :
  (b < a /\ Py.min a b = b) \/ (a <= b /\ Py.min a b = a).
Proof.
  unfold Py.min. destruct (ltb_spec b a) as [H|H]; [left|right]; split; auto.
  now apply Qnot_lt_le.
Qed.

Lemma last_item_snoc {A : Type} (l : list A) (x : A) :
  Py.last_item (l ++ [x]) = Some x.
Proof. unfold Py.last_item. now rewrite rev_app_distr. Qed.

End PyFacts.

(** Case analysis on every [Py.max] / [Py.min] in sight, then linear
  arithmetic. *)
Ltac py_arith :=
repeat match goal with
       | |- context [Py.max ?a ?b] =>
           let H := fresh in
           destruct (PyFacts.max_cases a b) as [[? H]|[? H]];
           rewrite H in *; clear H
       | _ : context [Py.max ?a ?b] |- _ =>
           let H := fresh in
           destruct (PyFacts.max_cases a b) as [[? H]|[? H]];
           rewrite H in *; clear H
       | |- context [Py.min ?a ?b] =>
           let H := fresh in
           destruct (PyFacts.min_cases a b) as [[? H]|[? H]];
           rewrite H in *; clear H
       | _ : context [Py.min ?a ?b] |- _ =>
           let H := fresh in
           destruct (PyFacts.min_cases a b) as [[? H]|[? H]];
           rewrite H in *; clear H
       end;
try lra.

(** ** The transcript merger *)

Module MergerProofs.
Import AudioProcessor MergerSpec.

Lemma fold_append_shifted base l acc :
  fold_left (append_shifted base) l acc
  = acc ++ map (shift (inject_Z base)) l.
Proof.
  revert acc. induction l as [|s l IH]; intro acc; simpl.
  - now rewrite app_nil_r.
  - rewrite IH. unfold append_shifted. now rewrite <- app_assoc.
Qed.

Lemma merged_segments_fold D ts m :
  merged_segments (fold_left (merge_step D) ts m)
  = merged_segments m ++ shifted_segments D ts.
Proof.
  revert m. induction ts as [|t ts IH]; intro m; simpl.
  - now rewrite app_nil_r.
  - rewrite IH. simpl. rewrite fold_append_shifted.
    now rewrite <- app_assoc.
Qed.

Lemma merged_language_fold D ts m :
  merged_language (fold_left (merge_step D) ts m) = merged_language m.
Proof.
  revert m. induction ts as [|t ts IH]; intro m; simpl; [reflexivity|].
  now rewrite IH.
Qed.

Lemma merged_segments_eq ts D :
  merged_segments (merge_transcripts ts D) = shifted_segments D ts.
Proof. unfold merge_transcripts. now rewrite merged_segments_fold. Qed.

Lemma by_start_trans : Transitive by_start.
Proof. intros a b c. unfold by_start. lra. Qed.

Lemma StronglySorted_app {A : Type} (R : A -> A -> Prop) (l1 l2 : list A) :
  StronglySorted R l1 -> StronglySorted R l2 ->
  (forall a b, In a l1 -> In b l2 -> R a b) ->
  StronglySorted R (l1 ++ l2).
Proof.
  intros H1 H2 H12. induction H1 as [|a l1 Hs IH Hall]; simpl; [assumption|].
  constructor.
  - apply IH. intros x y Hx Hy. apply H12; [now right | assumption].
  - apply Forall_app. split; [assumption|].
    apply Forall_forall. intros y Hy. apply H12; [now left | assumption].
Qed.

Lemma shift_sorted base l :
  StronglySorted by_start l -> StronglySorted by_start (map (shift base) l).
Proof.
  induction 1 as [|s l Hs IH Hall]; simpl; constructor; [assumption|].
  apply Forall_map. revert Hall. apply Forall_impl.
  intros s'. unfold by_start. simpl. lra.
Qed.

(** Every shifted segment of a later chunk starts at or after the end of
    the slot of an earlier chunk. *)
Lemma later_chunk_bound D (i : Z) ts s :
  (0 <= D)%Z ->
  Forall (fun t => (i < segment_index t)%Z) ts ->
  Forall (local_times_ok D) ts ->
  In s (shifted_segments D ts) ->
  inject_Z (i * D) + inject_Z D <= seg_start s.
Proof.
  intros HD Hidx Hloc Hin. unfold shifted_segments in Hin.
  apply in_flat_map in Hin. destruct Hin as [t [Ht Hs]].
  apply in_map_iff in Hs. destruct Hs as [s0 [<- Hs0]].
  rewrite Forall_forall in Hidx, Hloc.
  specialize (Hidx t Ht). destruct (Hloc t Ht) as [_ Hrange].
  rewrite Forall_forall in Hrange. destruct (Hrange s0 Hs0) as [H0 _].
  simpl. unfold offset.
  assert (Hz : (i * D + D <= segment_index t * D)%Z) by nia.
  rewrite Zle_Qle, inject_Z_plus in Hz. lra.
Qed.

Lemma strongly_sorted_lt_head (i : Z) l :
  Sorted Z.lt (i :: l) -> Forall (fun j => (i < j)%Z) l.
Proof.
  intro H. apply Sorted_StronglySorted in H.
  - now inversion H.
  - intros a b c. lia.
Qed.

Lemma shifted_segments_sorted D ts :
  index_ordered ts -> Forall (local_times_ok D) ts ->
  StronglySorted by_start (shifted_segments D ts).
Proof.
  unfold index_ordered.
  induction ts as [|t ts IH]; intros Hidx Hloc; simpl; [constructor|].
  inversion Hloc as [|? ? Ht Hts]; subst.
  simpl in Hidx.
  pose proof (strongly_sorted_lt_head _ _ Hidx) as Hlt.
  apply Sorted_inv in Hidx. destruct Hidx as [Hidx _].
  destruct Ht as [Hsorted Hrange].
  apply StronglySorted_app.
  - apply shift_sorted. apply Sorted_StronglySorted; [exact by_start_trans | assumption].
  - now apply IH.
  - intros a b Ha Hb.
    apply in_map_iff in Ha. destruct Ha as [s0 [<- Hs0]].
    rewrite Forall_forall in Hrange. destruct (Hrange s0 Hs0) as [H0 HD].
    assert (HDz : (0 <= D)%Z).
    { apply Qle_trans with (z := inject_Z D) in H0; [|assumption].
      rewrite Zle_Qle. exact H0. }
    assert (Hb' : inject_Z (segment_index t * D) + inject_Z D <= seg_start b).
    { apply later_chunk_bound with (ts := ts); auto.
      rewrite Forall_map in Hlt. exact Hlt. }
    unfold by_start, offset. simpl. lra.
Qed.

(** C4. Every segment of the merged transcript is a chunk-local segment
    with [segment_index * segment_duration] added to its start and to its
    end, chunk after chunk in input order; and when the chunks come in
    increasing index order, each chunk's own segments are sorted by start
    and start within [[0, segment_duration]], the merged segments are
    sorted by start. *)
Theorem merge_transcripts_offsets_and_order ts D :
  merged_segments (merge_transcripts ts D)
  = flat_map (fun t =>
                map (fun s =>
                       {| seg_start := inject_Z (segment_index t * D) + seg_start s;
                          seg_end := inject_Z (segment_index t * D) + seg_end s;
                          seg_text := seg_text s |})
                    (segments t)) ts
  /\ (index_ordered ts -> Forall (local_times_ok D) ts ->
      StronglySorted by_start (merged_segments (merge_transcripts ts D))).
Proof.
  split.
  - apply merged_segments_eq.
  - intros Hidx Hloc. rewrite merged_segments_eq.
    now apply shifted_segments_sorted.
Qed.

Lemma merge_transcripts_offsets_and_order_witness :
  index_ordered scenario /\ Forall (local_times_ok 600) scenario /\
  merged_segments (merge_transcripts scenario 600)
  = [mkSeg 5 8 "hello"; mkSeg 602 604 "world"] /\
  StronglySorted by_start (merged_segments (merge_transcripts scenario 600)).
Proof.
  assert (Hidx : index_ordered scenario).
  { unfold index_ordered, scenario; simpl.
    repeat constructor. }
  assert (Hloc : Forall (local_times_ok 600) scenario).
  { unfold scenario, local_times_ok, by_start; simpl.
    repeat constructor; unfold Qle; simpl; lia. }
  destruct (merge_transcripts_offsets_and_order scenario 600) as [Heq Hsorted].
  split; [exact Hidx|]. split; [exact Hloc|].
  split; [exact Heq | exact (Hsorted Hidx Hloc)].
Defined.

(** The running maximum of the outer loop: it never decreases, it
    dominates every chunk's [offset + duration], and it is attained,
    either by the initial value or by one of the chunks. *)
Lemma total_duration_fold D ts m :
  let total := total_duration (fold_left (merge_step D) ts m) in
  total_duration m <= total /\
  Forall (fun t => offset D t + duration t <= total) ts /\
  (total = total_duration m \/
   Exists (fun t => total = offset D t + duration t) ts).
Proof.
  revert m. induction ts as [|t ts IH]; intro m; simpl.
  - split; [lra|]. split; [constructor | now left].
  - destruct (IH (merge_step D m t)) as [Hge [Hall Hex]].
    simpl in Hge.
    destruct (PyFacts.max_cases (total_duration m)
                (inject_Z (segment_index t * D) + duration t))
      as [[Hlt Hmax]|[Hle Hmax]]; rewrite Hmax in Hge.
    + split; [lra|]. split.
      * constructor; [exact Hge | exact Hall].
      * right. destruct Hex as [Hex|Hex].
        -- apply Exists_cons_hd. rewrite Hex. simpl. exact Hmax.
        -- now apply Exists_cons_tl.
    + split; [exact Hge|]. split.
      * constructor; [unfold offset; simpl in Hge |- *; lra | exact Hall].
      * destruct Hex as [Hex|Hex].
        -- left. rewrite Hex. simpl. exact Hmax.
        -- right. now apply Exists_cons_tl.
Qed.

Lemma offset_nonneg D t :
  (0 <= D)%Z -> well_formed t -> 0 <= offset D t + duration t.
Proof.
  intros HD [Hi Hd]. unfold offset.
  assert (Hz : (0 <= segment_index t * D)%Z) by nia.
  rewrite Zle_Qle in Hz. change (inject_Z 0) with 0 in Hz. lra.
Qed.

(** C5. For a non-empty list of chunks within the data model's ranges
    (indices, durations and the chunk length are not negative), the
    merged [total_duration] is the maximum over the chunks of
    [segment_index * segment_duration + duration]: it is at least each of
    these values and numerically equal to one of them. *)
Theorem merge_total_duration_is_max ts D :
  ts <> [] -> (0 <= D)%Z -> Forall well_formed ts ->
  Forall (fun t =>
            inject_Z (segment_index t * D) + duration t
            <= total_duration (merge_transcripts ts D)) ts /\
  Exists (fun t =>
            total_duration (merge_transcripts ts D)
            == inject_Z (segment_index t * D) + duration t) ts.
Proof.
  intros Hne HD Hwf. unfold merge_transcripts.
  set (m0 := {| total_duration := 0;
                merged_language := _; full_text := _; merged_segments := _ |}).
  destruct (total_duration_fold D ts m0) as [Hge [Hall Hex]].
  split; [exact Hall|].
  destruct Hex as [Hinit|Hex].
  - destruct ts as [|t ts]; [congruence|].
    apply Exists_cons_hd.
    inversion Hall as [|? ? Ht _]; subst.
    inversion Hwf as [|? ? Hwt _]; subst.
    pose proof (offset_nonneg D t HD Hwt) as H0.
    unfold offset in *. rewrite Hinit in *. simpl in *. lra.
  - revert Hex. apply Exists_impl. intros t ->. reflexivity.
Qed.

Lemma merge_total_duration_is_max_witness :
  Forall (fun t => inject_Z (segment_index t * 600) + duration t
                   <= total_duration (merge_transcripts scenario 600))
         scenario /\
  Exists (fun t => total_duration (merge_transcripts scenario 600)
                   == inject_Z (segment_index t * 600) + duration t)
         scenario.
Proof.
  apply (merge_total_duration_is_max scenario 600).
  - discriminate.
  - lia.
  - unfold scenario, well_formed; simpl.
    repeat constructor; unfold Qle; simpl; lia.
Defined.

(** The merge function on its own does not raise on the empty list: it
    answers the default transcript in language ["en"]. *)
Lemma merge_transcripts_nil D :
  merge_transcripts [] D
  = {| total_duration := 0; merged_language := "en";
       full_text := EmptyString; merged_segments := [] |}.
Proof. reflexivity. Qed.

(** C6. The merge stage of [process_audio] raises to its caller when no
    chunk was transcribed; with at least one chunk it returns the merged
    transcript, whose language is that of the first chunk.  The same
    holds of [process_audio] as a whole, whatever chunks failed
    upstream. *)
Theorem merge_stage_language_and_failure D :
  merge_stage [] D
  = Py.Raise (Py.Exception "No segments were successfully transcribed")
  /\ (forall t rest,
        merge_stage (t :: rest) D = Py.Ok (merge_transcripts (t :: rest) D) /\
        merged_language (merge_transcripts (t :: rest) D) = language t)
  /\ (forall outcomes,
        match transcribe_all_segments outcomes with
        | [] =>
            process_audio outcomes D
            = Py.Raise (Py.Exception "No segments were successfully transcribed")
        | t :: _ =>
            exists summary merged,
              process_audio outcomes D = Py.Ok (summary, merged) /\
              merged_language merged = language t
        end).
Proof.
  split; [reflexivity|]. split.
  - intros t rest. split; [reflexivity|].
    unfold merge_transcripts. now rewrite merged_language_fold.
  - intro outcomes. unfold process_audio.
    destruct (transcribe_all_segments outcomes) as [|t ts]; [reflexivity|].
    simpl. do 2 eexists. split; [reflexivity|].
    unfold merge_transcripts. now rewrite merged_language_fold.
Qed.

(** [process_audio] fails exactly when every chunk failed upstream. *)
Lemma process_audio_fails_iff outcomes D :
  (exists e, process_audio outcomes D = Py.Raise e)
  <-> transcribe_all_segments outcomes = [].
Proof.
  unfold process_audio.
  destruct (transcribe_all_segments outcomes) as [|t ts]; simpl.
  - split; [reflexivity | intros _; eexists; reflexivity].
  - split; [intros [e He]; discriminate | discriminate].
Qed.

(** The transcripts [transcribe_all_segments] hands to the merger carry
    strictly increasing indices, whichever chunks failed. *)
Lemma transcribe_from_indices outcomes : forall i acc,
  exists l,
    map segment_index (transcribe_from i outcomes acc)
    = map segment_index acc ++ l
    /\ StronglySorted Z.lt l /\ Forall (fun j => (i <= j)%Z) l.
Proof.
  induction outcomes as [|[resp|] outcomes IH]; intros i acc; simpl.
  - exists []. rewrite app_nil_r. repeat constructor.
  - destruct (IH (i + 1)%Z (acc ++ [transcribe_segment resp i]))
      as [l [Heq [Hs Hall]]].
    exists (i :: l). rewrite Heq, map_app, <- app_assoc. simpl.
    split; [reflexivity|]. split.
    + constructor; [assumption|].
      revert Hall. apply Forall_impl. intros j Hj. lia.
    + constructor; [lia|].
      revert Hall. apply Forall_impl. intros j Hj. lia.
  - destruct (IH (i + 1)%Z acc) as [l [Heq [Hs Hall]]].
    exists l. split; [assumption|]. split; [assumption|].
    revert Hall. apply Forall_impl. intros j Hj. lia.
Qed.

Lemma transcribe_all_index_ordered outcomes :
  index_ordered (transcribe_all_segments outcomes).
Proof.
  unfold index_ordered, transcribe_all_segments.
  destruct (transcribe_from_indices outcomes 0%Z []) as [l [Heq [Hs _]]].
  rewrite Heq. simpl. now apply StronglySorted_Sorted.
Qed.

End MergerProofs.

(** ** Normalisation and ordering of the placements *)

Module NormalizerProofs.
Import VideoComposer TimelineSpec.

Lemma fold_add_image l acc :
  fold_left add_image l acc = acc ++ map image_placement l.
Proof.
  revert acc. induction l as [|r l IH]; intro acc; simpl.
  - now rewrite app_nil_r.
  - rewrite IH. unfold add_image. rewrite <- app_assoc. reflexivity.
Qed.

Lemma fold_add_video l acc :
  fold_left add_video l acc = acc ++ map video_placement l.
Proof.
  revert acc. induction l as [|r l IH]; intro acc; simpl.
  - now rewrite app_nil_r.
  - rewrite IH. unfold add_video. rewrite <- app_assoc. reflexivity.
Qed.

Lemma collect_content_eq vc :
  collect_content vc
  = map image_placement (image_records vc)
    ++ map video_placement (video_records vc).
Proof.
  unfold collect_content. rewrite fold_add_video, fold_add_image. reflexivity.
Qed.

(** C7. The content list holds, in input order, one placement per raw
    image record (duration 5, timestamp defaulting to 0, relevance
    defaulting to 0.5) followed by one placement per raw video record
    (duration 3, timestamp defaulting to 0, relevance defaulting to 0.8);
    path, and timestamp, relevance and description when present, are
    copied unchanged, and the list is as long as the two inputs
    together. *)
Theorem collect_content_is_projection vc :
  collect_content vc
  = map (fun r =>
           {| c_type := image;
              c_path := raw_path r;
              c_timestamp := match raw_timestamp r with Some t => t | None => 0 end;
              c_relevance_score :=
                match raw_relevance_score r with Some x => x | None => 0.5 end;
              c_description :=
                match raw_description r with Some d => d | None => EmptyString end;
              c_duration := 5 |})
        (match images vc with Some l => l | None => [] end)
    ++ map (fun r =>
           {| c_type := video;
              c_path := raw_path r;
              c_timestamp := match raw_timestamp r with Some t => t | None => 0 end;
              c_relevance_score :=
                match raw_relevance_score r with Some x => x | None => 0.8 end;
              c_description :=
                match raw_description r with Some d => d | None => EmptyString end;
              c_duration := 3 |})
        (match videos vc with Some l => l | None => [] end)
  /\ List.length (collect_content vc)
     = (List.length (image_records vc) + List.length (video_records vc))%nat.
Proof.
  split.
  - apply collect_content_eq.
  - rewrite collect_content_eq, length_app, !length_map. reflexivity.
Qed.

Lemma collect_content_durations vc :
  Forall (fun c => 0 < c_duration c) (collect_content vc).
Proof.
  rewrite collect_content_eq. apply Forall_app. split;
    apply Forall_map, Forall_forall; intros r _; simpl; lra.
Qed.

Lemma collect_content_timestamps vc :
  map c_timestamp (collect_content vc) = map timestamp_of (placements vc).
Proof.
  rewrite collect_content_eq. unfold placements.
  rewrite !map_app, !map_map. reflexivity.
Qed.

End NormalizerProofs.

Module SortProofs.
Import VideoComposer TimelineSpec.

Lemma insert_perm x l : Permutation (insert_by_timestamp x l) (x :: l).
Proof.
  induction l as [|y l IH]; simpl; [reflexivity|].
  destruct (Py.ltb (c_timestamp y) (c_timestamp x)); [|reflexivity].
  rewrite IH. apply perm_swap.
Qed.

Lemma sort_perm l : Permutation (sort_by_timestamp l) l.
Proof.
  induction l as [|x l IH]; simpl; [reflexivity|].
  rewrite insert_perm. now constructor.
Qed.

Lemma insert_sorted x l :
  StronglySorted by_timestamp l ->
  StronglySorted by_timestamp (insert_by_timestamp x l).
Proof.
  induction 1 as [|y l Hs IH Hall]; simpl.
  - repeat constructor.
  - destruct (PyFacts.ltb_spec (c_timestamp y) (c_timestamp x)) as [Hlt|Hge].
    + constructor; [assumption|].
      eapply Permutation_Forall.
      * symmetry. apply insert_perm.
      * constructor; [unfold by_timestamp; lra | assumption].
    + apply Qnot_lt_le in Hge.
      constructor; [now constructor|].
      constructor; [exact Hge|].
      revert Hall. apply Forall_impl. intros z. unfold by_timestamp. lra.
Qed.

Lemma sort_sorted l : StronglySorted by_timestamp (sort_by_timestamp l).
Proof.
  induction l as [|x l IH]; simpl; [constructor | now apply insert_sorted].
Qed.

(** Inserting [x] moves it past strictly smaller keys only, so the
    placements sharing any one timestamp keep their order. *)
Lemma insert_stable t x l :
  with_timestamp t (insert_by_timestamp x l) = with_timestamp t (x :: l).
Proof.
  unfold with_timestamp.
  induction l as [|y l IH]; simpl; [reflexivity|].
  destruct (PyFacts.ltb_spec (c_timestamp y) (c_timestamp x)) as [Hlt|Hge];
    [|reflexivity].
  simpl. rewrite IH. simpl.
  destruct (Qeq_bool (c_timestamp y) t) eqn:Ey;
    destruct (Qeq_bool (c_timestamp x) t) eqn:Ex; try reflexivity.
  apply Qeq_bool_iff in Ey, Ex. lra.
Qed.

Lemma sort_stable t l :
  with_timestamp t (sort_by_timestamp l) = with_timestamp t l.
Proof.
  induction l as [|x l IH]; simpl; [reflexivity|].
  rewrite insert_stable. unfold with_timestamp in *. simpl. now rewrite IH.
Qed.

Lemma sort_head_least x r l :
  sort_by_timestamp l = x :: r ->
  Forall (fun y => c_timestamp x <= c_timestamp y) l.
Proof.
  intro E. pose proof (sort_sorted l) as Hs. rewrite E in Hs.
  inversion Hs as [|? ? _ Hall]; subst.
  assert (Hp : Permutation (x :: r) l) by (rewrite <- E; apply sort_perm).
  eapply Permutation_Forall; [exact Hp|].
  constructor; [lra | exact Hall].
Qed.

End SortProofs.

(** ** The placement pass *)

Module PlacementProofs.
Import VideoComposer TimelineSpec.

(** The loop with its two accumulators against the list of assigned
    intervals. *)
Lemma place_fold total cs : forall acc cur,
  fst (fold_left (place_step total) cs (acc, cur))
  = acc ++ map entry_of (filter kept (assigned cur total cs)).
Proof.
  induction cs as [|c cs IH]; intros acc cur; simpl.
  - now rewrite app_nil_r.
  - destruct (Py.ltb (Py.max (c_timestamp c) cur)
                (Py.min (Py.max (c_timestamp c) cur + c_duration c) total));
      rewrite IH; simpl; [|reflexivity].
    now rewrite <- app_assoc.
Qed.

Lemma place_all_eq cs total :
  place_all cs total = map entry_of (filter kept (assigned 0 total cs)).
Proof. unfold place_all. now rewrite place_fold. Qed.

Lemma assigned_covers cur total cs : map fst (assigned cur total cs) = cs.
Proof.
  revert cur. induction cs as [|c cs IH]; intro cur; simpl; [reflexivity|].
  now rewrite IH.
Qed.

(** An interval never starts before its placement's timestamp or before
    the cursor, and never extends past the intrinsic duration or the
    total duration. *)
Lemma assigned_truncated cur total cs :
  Forall (fun x : Content * (Q * Q) =>
            let '(c, (s, e)) := x in
            c_timestamp c <= s /\ cur <= s /\
            e <= s + c_duration c /\ e <= total)
         (assigned cur total cs).
Proof.
  revert cur. induction cs as [|c cs IH]; intro cur; simpl; constructor.
  - repeat split; py_arith.
  - specialize (IH (if Py.ltb (Py.max (c_timestamp c) cur)
                        (Py.min (Py.max (c_timestamp c) cur + c_duration c) total)
                    then Py.min (Py.max (c_timestamp c) cur + c_duration c) total
                    else cur)).
    revert IH. apply Forall_impl. intros [c' [s e]] [H1 [H2 [H3 H4]]].
    repeat split; try assumption.
    destruct (PyFacts.ltb_spec (Py.max (c_timestamp c) cur)
                (Py.min (Py.max (c_timestamp c) cur + c_duration c) total));
      [|assumption].
    py_arith.
Qed.

Lemma assigned_spaced total cs : forall cur,
  spaced total cur (map entry_of (filter kept (assigned cur total cs))).
Proof.
  induction cs as [|c cs IH]; intro cur; simpl; [constructor|].
  destruct (PyFacts.ltb_spec (Py.max (c_timestamp c) cur)
              (Py.min (Py.max (c_timestamp c) cur + c_duration c) total))
    as [Hlt|Hge]; simpl; [|apply IH].
  constructor; simpl.
  - py_arith.
  - split; simpl; [exact Hlt | reflexivity].
  - py_arith.
  - apply IH.
Qed.

Lemma place_all_spaced cs total : spaced total 0 (place_all cs total).
Proof. rewrite place_all_eq. apply assigned_spaced. Qed.

(** With a positive intrinsic duration, the interval is empty exactly
    when the placement would start at or after the total duration. *)
Lemma kept_iff cur total c :
  0 < c_duration c ->
  let s := Py.max (c_timestamp c) cur in
  Py.ltb s (Py.min (s + c_duration c) total) = true <-> s < total.
Proof.
  intros Hd s. rewrite PyFacts.ltb_lt. subst s. split; intro H; py_arith.
Qed.

Lemma assigned_dropped_iff total cs : forall cur,
  Forall (fun c => 0 < c_duration c) cs ->
  Forall (fun x : Content * (Q * Q) =>
            let '(_, (s, _)) := x in kept x = false <-> total <= s)
         (assigned cur total cs).
Proof.
  induction cs as [|c cs IH]; intros cur Hd; simpl; [constructor|].
  inversion Hd as [|? ? Hc Hcs]; subst.
  constructor; [|now apply IH].
  simpl. rewrite PyFacts.ltb_ge. split; intro H; py_arith.
Qed.

Lemma place_all_head c cs total :
  0 < c_duration c -> 0 < total -> c_timestamp c < total ->
  exists seg rest, place_all (c :: cs) total = seg :: rest.
Proof.
  intros Hd Ht Hc. rewrite place_all_eq. simpl.
  assert (Hk : Py.ltb (Py.max (c_timestamp c) 0)
                 (Py.min (Py.max (c_timestamp c) 0 + c_duration c) total) = true).
  { apply kept_iff; [assumption|]. py_arith. }
  rewrite Hk. simpl. eauto.
Qed.

End PlacementProofs.

(** ** Gap closing *)

Module GapProofs.
Import VideoComposer TimelineSpec.

(** The loop followed by the final filler, started with a non-empty
    [filled_timeline] whose last element is [p]. *)
Lemma fill_fold total tl : forall acc cur p,
  Py.last_item acc = Some p ->
  (let '(filled_timeline, current_time) := fold_left fill_step tl (acc, cur) in
   if Py.ltb current_time total then
     match Py.last_item filled_timeline with
     | Some last_segment =>
         filled_timeline ++
           [copy_with_times last_segment current_time total
                            (total - current_time)]
     | None => filled_timeline
     end
   else filled_timeline)
  = acc ++ fill_by_policy (Some p) cur total tl.
Proof.
  induction tl as [|seg tl IH]; intros acc cur p Hlast.
  - simpl. rewrite Hlast.
    destruct (Py.ltb cur total); [reflexivity | now rewrite app_nil_r].
  - cbn [fold_left fill_step]. rewrite Hlast.
    erewrite IH by apply PyFacts.last_item_snoc.
    cbn [fill_by_policy].
    destruct (Py.ltb cur (start_time seg)).
    + rewrite <- !app_assoc. reflexivity.
    + rewrite <- !app_assoc. reflexivity.
Qed.

Lemma fill_timeline_gaps_cons seg rest total :
  fill_timeline_gaps (seg :: rest) total
  = fill_by_policy None 0 total (seg :: rest).
Proof.
  unfold fill_timeline_gaps. cbn [fold_left fill_step].
  change (Py.last_item []) with (@None Segment).
  erewrite fill_fold by apply PyFacts.last_item_snoc.
  cbn [fill_by_policy].
  destruct (Py.ltb 0 (start_time seg)); rewrite <- ?app_assoc; reflexivity.
Qed.

(** C2 (amended). On a timeline with at least one real entry the
    gap-closing pass is the filler policy: every stretch between the
    cursor and the next entry's start is covered by a duplicate of the
    previous real entry, or by a path-less Background entry when there is
    no previous entry, and a final duplicate of the last real entry
    reaches the total duration when the cursor ends below it.  On the
    empty timeline the pass returns the empty timeline. *)
Theorem fill_timeline_gaps_policy total :
  (forall seg rest,
      fill_timeline_gaps (seg :: rest) total
      = fill_by_policy None 0 total (seg :: rest))
  /\ fill_timeline_gaps [] total = [].
Proof.
  split; [intros; apply fill_timeline_gaps_cons | reflexivity].
Qed.

(** With nothing placed and ten seconds to cover the policy asks for one
    trailing Background entry; the pass returns nothing. *)
Lemma fill_timeline_gaps_no_trailing_background :
  place_all (sort_by_timestamp (collect_content late_image)) 10 = []
  /\ fill_by_policy None 0 10 []
     = [ {| type := background; path := None;
            start_time := 0; end_time := 10; duration := 10 - 0;
            description := "Background"; relevance_score := 0.1 |} ]
  /\ fill_timeline_gaps [] 10 = []
  /\ create_timeline late_image (lasting 10) = []
  /\ fill_timeline_gaps [] 10 <> fill_by_policy None 0 10 [].
Proof.
  repeat split; try reflexivity. discriminate.
Qed.

End GapProofs.

(** ** The drop policy *)

Module DropPolicyProofs.
Import VideoComposer TimelineSpec.

(** Gap closing keeps every real entry, in order. *)
Lemma fill_by_policy_in_order total tl : forall prev cur,
  in_order tl (fill_by_policy prev cur total tl).
Proof.
  induction tl as [|seg tl IH]; intros prev cur; cbn [fill_by_policy].
  - constructor.
  - destruct (Py.ltb cur (start_time seg)); cbn [app].
    + apply in_order_skip, in_order_keep, IH.
    + apply in_order_keep, IH.
Qed.

(** Whatever gap closing adds is a filler made from nothing but the
    previous real entry, or the Background filler. *)
Lemma fill_by_policy_entries total tl : forall prev cur,
  Forall (fun e =>
            In e tl
            \/ exists p s e',
                 (p = prev \/ exists q, p = Some q /\ In q tl)
                 /\ e = filler p s e')
         (fill_by_policy prev cur total tl).
Proof.
  induction tl as [|seg tl IH]; intros prev cur; cbn [fill_by_policy].
  - destruct (Py.ltb cur total); constructor; [|constructor].
    right. exists prev, cur, total. split; [now left | reflexivity].
  - assert (Hrest :
      Forall (fun e =>
                In e (seg :: tl)
                \/ exists p s e',
                     (p = prev \/ exists q, p = Some q /\ In q (seg :: tl))
                     /\ e = filler p s e')
             (seg :: fill_by_policy (Some seg) (end_time seg) total tl)).
    { constructor; [left; now left|].
      specialize (IH (Some seg) (end_time seg)).
      revert IH. apply Forall_impl.
      intros e [Hin | [p [s [e' [[Hp | [q [Hq Hin]]] He]]]]].
      - left. now right.
      - right. exists p, s, e'. split; [|exact He].
        right. exists seg. split; [exact Hp | now left].
      - right. exists p, s, e'. split; [|exact He].
        right. exists q. split; [exact Hq | now right]. }
    destruct (Py.ltb cur (start_time seg)); cbn [app]; [|exact Hrest].
    constructor; [|exact Hrest].
    right. exists prev, cur, (start_time seg). split; [now left | reflexivity].
Qed.

(** C3. The placements are passed over in ascending order of timestamp,
    equal timestamps in manifest order.  The pass gives each of them the
    interval [start = max(timestamp, cursor)],
    [end = min(start + duration, total)], one per placement and in sorted
    order.  An interval is empty exactly when it would start at or after
    the total duration.  The entries the pass produces are exactly those of
    the placements whose interval is not empty, in that same order, each
    within its placement's intrinsic duration and the total duration.  The
    timeline returned holds every one of these entries unchanged and in
    that order; whatever else it holds is a filler, a duplicate of one of
    them or the Background entry, so a placement with an empty interval
    contributes nothing to it. *)
Theorem create_timeline_drop_policy vc tr :
  let total := get (transcript_total_duration tr) 0 in
  let sorted := sort_by_timestamp (collect_content vc) in
  let intervals := assigned 0 total sorted in
  let entries := map entry_of (filter kept intervals) in
  (Permutation sorted (collect_content vc)
   /\ StronglySorted by_timestamp sorted
   /\ forall t, with_timestamp t sorted = with_timestamp t (collect_content vc))
  /\ map fst intervals = sorted
  /\ Forall (fun x : Content * (Q * Q) =>
               let '(_, (s, _)) := x in kept x = false <-> total <= s)
            intervals
  /\ place_all sorted total = entries
  /\ Forall (fun x : Content * (Q * Q) =>
               let '(c, (s, e)) := x in
               c_timestamp c <= s /\ s < e /\
               e <= s + c_duration c /\ e <= total)
            (filter kept intervals)
  /\ create_timeline vc tr
     = match entries with
       | [] => []
       | _ :: _ => fill_by_policy None 0 total entries
       end
  /\ in_order entries (create_timeline vc tr)
  /\ Forall (fun e =>
               In e entries
               \/ exists p s e',
                    (p = None \/ exists q, p = Some q /\ In q entries)
                    /\ e = filler p s e')
            (create_timeline vc tr).
Proof.
  intros total sorted intervals entries.
  assert (Htl : create_timeline vc tr
                = match entries with
                  | [] => []
                  | _ :: _ => fill_by_policy None 0 total entries
                  end).
  { unfold create_timeline. fold total. fold sorted.
    rewrite PlacementProofs.place_all_eq. fold intervals. fold entries.
    destruct entries as [|seg rest]; [reflexivity|].
    apply GapProofs.fill_timeline_gaps_cons. }
  split.
  { split; [apply SortProofs.sort_perm|].
    split; [apply SortProofs.sort_sorted|].
    intro t. apply SortProofs.sort_stable. }
  split; [apply PlacementProofs.assigned_covers|].
  split.
  { apply PlacementProofs.assigned_dropped_iff. subst sorted.
    eapply Permutation_Forall.
    - symmetry. apply SortProofs.sort_perm.
    - apply NormalizerProofs.collect_content_durations. }
  split; [apply PlacementProofs.place_all_eq|].
  split.
  { apply Forall_forall. intros [c [s e]] Hin.
    apply filter_In in Hin. destruct Hin as [Hin Hk].
    pose proof (PlacementProofs.assigned_truncated 0 total sorted) as Hall.
    rewrite Forall_forall in Hall. specialize (Hall _ Hin). simpl in Hall.
    simpl in Hk. apply PyFacts.ltb_lt in Hk. tauto. }
  split; [exact Htl|].
  rewrite Htl.
  destruct entries as [|seg rest] eqn:E.
  - split; constructor.
  - split; [apply fill_by_policy_in_order | apply fill_by_policy_entries].
Qed.

End DropPolicyProofs.

(** ** Coverage of [[0, total_duration]] *)

Module CoverageProofs.
Import VideoComposer TimelineSpec.

Lemma filler_proper prev s e : s < e -> proper (filler prev s e).
Proof.
  intro H. destruct prev; split; simpl; solve [assumption | reflexivity].
Qed.

Lemma filler_start prev s e : start_time (filler prev s e) = s.
Proof. now destruct prev. Qed.

Lemma filler_end prev s e : end_time (filler prev s e) = e.
Proof. now destruct prev. Qed.

(** Closing the gaps of a spaced list of entries tiles the interval. *)
Lemma fill_by_policy_tiles total tl : forall prev cur,
  spaced total cur tl -> cur <= total ->
  tiles cur (fill_by_policy prev cur total tl) total.
Proof.
  induction tl as [|seg tl IH]; intros prev cur Hsp Hle; simpl.
  - destruct (PyFacts.ltb_spec cur total) as [Hlt|Hge].
    + apply tiles_cons.
      * rewrite filler_start. reflexivity.
      * now apply filler_proper.
      * rewrite filler_end. apply tiles_nil. reflexivity.
    + apply tiles_nil. lra.
  - inversion Hsp as [|? ? ? Hcur Hprop Hend Hrest]; subst.
    destruct (PyFacts.ltb_spec cur (start_time seg)) as [Hlt|Hge]; simpl.
    + apply tiles_cons.
      * rewrite filler_start. reflexivity.
      * now apply filler_proper.
      * rewrite filler_end. apply tiles_cons;
          [reflexivity | assumption | now apply IH].
    + apply tiles_cons; [lra | assumption | now apply IH].
Qed.

Lemma tiles_proper a tl b : tiles a tl b -> Forall proper tl.
Proof. induction 1; constructor; assumption. Qed.

Lemma tiles_le a tl b : tiles a tl b -> a <= b.
Proof.
  induction 1 as [a b H|a b e tl Hs [Hp _] _ IH]; lra.
Qed.

Lemma tiles_bounds a tl b :
  tiles a tl b ->
  Forall (fun e => a <= start_time e /\ end_time e <= b) tl.
Proof.
  induction 1 as [a b H|a b e tl Hs [Hp Hd] Ht IH]; constructor.
  - split; [lra | now apply tiles_le in Ht].
  - revert IH. apply Forall_impl. intros x [H1 H2]. split; lra.
Qed.

Lemma tiles_first a b e tl : tiles a (e :: tl) b -> start_time e == a.
Proof. now inversion 1. Qed.

Lemma tiles_last front : forall a b e,
  tiles a (front ++ [e]) b -> end_time e == b.
Proof.
  induction front as [|x front IH]; intros a b e H; simpl in H.
  - inversion H as [|? ? ? ? _ _ Hnil]; subst. now inversion Hnil.
  - inversion H; subst. eapply IH; eassumption.
Qed.

Lemma tiles_contiguous a tl b : tiles a tl b -> contiguous tl.
Proof.
  induction 1 as [a b H|a b e tl Hs Hp Ht IH]; intros i x y Hx Hy.
  - destruct i; discriminate.
  - destruct i as [|i]; simpl in Hx, Hy.
    + injection Hx as <-. destruct tl as [|z tl]; [discriminate|].
      simpl in Hy. injection Hy as <-.
      apply tiles_first in Ht. lra.
    + eapply IH; eassumption.
Qed.

Lemma tiles_no_overlap a tl b : tiles a tl b -> no_overlap tl.
Proof.
  induction 1 as [a b H|a b e tl Hs Hp Ht IH]; intros i j x y Hij Hx Hy.
  - destruct i; discriminate.
  - destruct j as [|j]; [lia|]. simpl in Hy.
    destruct i as [|i]; simpl in Hx.
    + injection Hx as <-.
      apply tiles_bounds in Ht. rewrite Forall_forall in Ht.
      apply nth_error_In in Hy. now destruct (Ht _ Hy).
    + apply (IH i j); [lia | assumption | assumption].
Qed.

Lemma fill_by_policy_cons_nonempty prev cur total seg rest :
  fill_by_policy prev cur total (seg :: rest) <> [].
Proof.
  simpl. destruct (Py.ltb cur (start_time seg)); discriminate.
Qed.

(** What [create_timeline] returns: nothing when the placement pass kept
    nothing, and a tiling of [[0, total]] otherwise. *)
Lemma create_timeline_cases vc tr :
  let total := get (transcript_total_duration tr) 0 in
  let real := place_all (sort_by_timestamp (collect_content vc)) total in
  (real = [] /\ create_timeline vc tr = [])
  \/ (real <> [] /\ create_timeline vc tr <> [] /\
      tiles 0 (create_timeline vc tr) total).
Proof.
  intros total real. unfold create_timeline. fold total. fold real.
  pose proof (PlacementProofs.place_all_spaced
                (sort_by_timestamp (collect_content vc)) total) as Hsp.
  fold real in Hsp.
  destruct real as [|seg rest]; [left; split; reflexivity|].
  right. split; [discriminate|].
  rewrite GapProofs.fill_timeline_gaps_cons.
  split; [apply fill_by_policy_cons_nonempty|].
  apply fill_by_policy_tiles; [assumption|].
  inversion Hsp as [|? ? ? H0 [Hp _] He _]; subst. lra.
Qed.

End CoverageProofs.

(** ** The timeline builder as a whole *)

Module TimelineProofs.
Import VideoComposer TimelineSpec.

Lemma early_placement_in_content vc total :
  Exists (fun r => timestamp_of r < total) (placements vc) ->
  exists c, In c (collect_content vc) /\ c_timestamp c < total.
Proof.
  intro H. apply Exists_exists in H. destruct H as [r [Hin Hr]].
  rewrite NormalizerProofs.collect_content_eq.
  unfold placements in Hin. apply in_app_or in Hin.
  destruct Hin as [Hin|Hin].
  - exists (image_placement r). split; [|exact Hr].
    apply in_or_app. left. now apply in_map.
  - exists (video_placement r). split; [|exact Hr].
    apply in_or_app. right. now apply in_map.
Qed.

(** The placement pass keeps something as soon as one placement is due
    before the end of a positive total duration. *)
Lemma place_all_nonempty vc total :
  0 < total ->
  Exists (fun r => timestamp_of r < total) (placements vc) ->
  place_all (sort_by_timestamp (collect_content vc)) total <> [].
Proof.
  intros Ht Hex.
  destruct (early_placement_in_content vc total Hex) as [c [Hin Hc]].
  destruct (sort_by_timestamp (collect_content vc)) as [|x r] eqn:E.
  - pose proof (SortProofs.sort_perm (collect_content vc)) as Hp.
    rewrite E in Hp. apply Permutation_nil in Hp.
    rewrite Hp in Hin. contradiction.
  - pose proof (SortProofs.sort_head_least _ _ _ E) as Hleast.
    rewrite Forall_forall in Hleast. specialize (Hleast c Hin).
    assert (Hx : In x (collect_content vc)).
    { apply (Permutation_in x (SortProofs.sort_perm (collect_content vc))).
      rewrite E. now left. }
    pose proof (NormalizerProofs.collect_content_durations vc) as Hd.
    rewrite Forall_forall in Hd. specialize (Hd x Hx).
    destruct (PlacementProofs.place_all_head x r total Hd Ht) as [seg [rest Hs]];
      [lra|].
    rewrite Hs. discriminate.
Qed.

(** Nothing is kept when every placement is due at or after the total
    duration, or when the total duration is not positive. *)
Lemma assigned_all_dropped total cs : forall cur,
  0 <= cur ->
  total <= 0 \/ Forall (fun c => total <= c_timestamp c) cs ->
  filter kept (assigned cur total cs) = [].
Proof.
  induction cs as [|c cs IH]; intros cur Hcur H; simpl; [reflexivity|].
  assert (Hdrop : Py.ltb (Py.max (c_timestamp c) cur)
                    (Py.min (Py.max (c_timestamp c) cur + c_duration c) total)
                  = false).
  { apply PyFacts.ltb_ge. destruct H as [H|H].
    - py_arith.
    - inversion H; subst. py_arith. }
  rewrite Hdrop. apply IH; [assumption|].
  destruct H as [H|H]; [now left | right; now inversion H].
Qed.

Lemma create_timeline_empty vc tr :
  let total := get (transcript_total_duration tr) 0 in
  total <= 0 \/ Forall (fun r => total <= timestamp_of r) (placements vc) ->
  create_timeline vc tr = [].
Proof.
  intros total H. unfold create_timeline. fold total.
  rewrite PlacementProofs.place_all_eq.
  rewrite assigned_all_dropped; [reflexivity | lra |].
  destruct H as [H|H]; [now left|right].
  apply Forall_forall. intros c Hc.
  apply (Permutation_in c (SortProofs.sort_perm _)) in Hc.
  rewrite NormalizerProofs.collect_content_eq in Hc.
  rewrite Forall_forall in H. unfold placements in H.
  apply in_app_or in Hc. destruct Hc as [Hc|Hc];
    apply in_map_iff in Hc; destruct Hc as [r [<- Hr]];
    apply (H r); apply in_or_app; [now left | now right].
Qed.

(** C1 (amended). When the total duration is positive and at least one
    placement is due before it, the timeline is non-empty, its first
    entry starts at 0, its last entry ends at the total duration, every
    entry ends where the next one starts, and no two entries overlap. *)
Theorem create_timeline_partition vc tr :
  0 < get (transcript_total_duration tr) 0 ->
  Exists (fun r => timestamp_of r < get (transcript_total_duration tr) 0)
         (placements vc) ->
  create_timeline vc tr <> []
  /\ (exists first rest,
        create_timeline vc tr = first :: rest /\ start_time first == 0)
  /\ (exists front last,
        create_timeline vc tr = front ++ [last] /\
        end_time last == get (transcript_total_duration tr) 0)
  /\ contiguous (create_timeline vc tr)
  /\ no_overlap (create_timeline vc tr).
Proof.
  intros Ht Hex.
  pose proof (place_all_nonempty vc _ Ht Hex) as Hreal.
  destruct (CoverageProofs.create_timeline_cases vc tr)
    as [[Hnil _]|[_ [Hne Htiles]]]; [contradiction|].
  split; [exact Hne|].
  split.
  { destruct (create_timeline vc tr) as [|first rest]; [contradiction|].
    exists first, rest. split; [reflexivity|].
    now apply CoverageProofs.tiles_first in Htiles. }
  split.
  { destruct (exists_last Hne) as [front [last Hl]].
    exists front, last. split; [exact Hl|].
    rewrite Hl in Htiles. now apply CoverageProofs.tiles_last in Htiles. }
  split.
  - eapply CoverageProofs.tiles_contiguous; eassumption.
  - eapply CoverageProofs.tiles_no_overlap; eassumption.
Qed.

Lemma create_timeline_partition_witness :
  create_timeline two_images (lasting 20) <> []
  /\ (exists first rest,
        create_timeline two_images (lasting 20) = first :: rest /\
        start_time first == 0)
  /\ (exists front last,
        create_timeline two_images (lasting 20) = front ++ [last] /\
        end_time last == 20)
  /\ contiguous (create_timeline two_images (lasting 20))
  /\ no_overlap (create_timeline two_images (lasting 20)).
Proof.
  apply (create_timeline_partition two_images (lasting 20)).
  - reflexivity.
  - apply Exists_cons_hd. reflexivity.
Defined.

(** One image due at 15 s and ten seconds of audio: the placement list
    is not empty, the total duration is positive, and the timeline is
    empty. *)
Lemma create_timeline_empty_despite_placement :
  placements late_image <> []
  /\ 0 < get (transcript_total_duration (lasting 10)) 0
  /\ create_timeline late_image (lasting 10) = [].
Proof.
  split; [discriminate|]. split; [simpl; lra | reflexivity].
Qed.

(** C9. Every entry of the timeline ends strictly after it starts, and
    its stored duration is the difference of the two. *)
Theorem create_timeline_entries_positive vc tr :
  Forall (fun e => start_time e < end_time e /\
                   duration e == end_time e - start_time e)
         (create_timeline vc tr).
Proof.
  destruct (CoverageProofs.create_timeline_cases vc tr)
    as [[_ Hnil]|[_ [_ Htiles]]].
  - rewrite Hnil. constructor.
  - apply CoverageProofs.tiles_proper in Htiles. exact Htiles.
Qed.



(** The specification's two timeline scenarios, evaluated. *)
Example scenario_two_images :
  map (fun e => (type e, path e, start_time e, end_time e))
      (create_timeline two_images (lasting 20))
  = [ (image, Some "a.jpg"%string, 0, 5);
      (image, Some "a.jpg"%string, 5, 12);
      (image, Some "b.jpg"%string, 12, 17);
      (image, Some "b.jpg"%string, 17, 20) ].
Proof. reflexivity. Qed.

Example scenario_leading_gap :
  map (fun e => (type e, path e, start_time e, end_time e))
      (create_timeline
         {| images := Some [image_at "a.jpg" 8]; videos := None |}
         (lasting 10))
  = [ (background, None, 0, 8); (image, Some "a.jpg"%string, 8, 10) ].
Proof. reflexivity. Qed.

End TimelineProofs.

(** ** The composition pipeline without a manifest *)

Module ComposerProofs.
Import VideoComposer TimelineSpec.

Lemma load_visual_content_absent job :
  manifest_file job = None ->
  load_visual_content job = {| images := Some []; videos := Some [] |}.
Proof. unfold load_visual_content. now intros ->. Qed.

(** C10 (amended). Without a manifest file [load_visual_content] answers
    the empty manifest, and [compose_video] raises after writing two
    status records and nothing else: no timeline is built and no encoder
    command is issued.  The exception is the no-visual-content error when
    the transcript and an audio file are there; a missing transcript or a
    missing audio file is reported first, by its own error. *)
Theorem compose_video_without_manifest w job log :
  manifest_file job = None ->
  load_visual_content job = {| images := Some []; videos := Some [] |}
  /\ exists e,
       compose_video w job log
       = (Py.Raise e,
          log ++ [ StatusWritten "composing" 95 "Starting video composition...";
                   StatusWritten "failed" 0
                     (cat "Video composition failed: " (Py.str e)) ])
       /\ e = match transcript_file job, find is_audio (listdir job) with
              | None, _ => Py.FileNotFoundError "Transcript not found"
              | Some _, None =>
                  Py.FileNotFoundError "No audio file found in job directory"
              | Some _, Some _ =>
                  Py.Exception "No visual content available for video composition"
              end.
Proof.
  intro Hm. split; [now apply load_visual_content_absent|].
  unfold compose_video, try_except, bind, update_status, emit,
    load_transcript, get_audio_file, load_visual_content, raise, ret.
  rewrite Hm.
  destruct (transcript_file job) as [t|].
  - destruct (find is_audio (listdir job)) as [f|]; simpl.
    + eexists. split; [|reflexivity]. simpl.
      rewrite <- app_assoc. reflexivity.
    + eexists. split; [|reflexivity]. simpl.
      rewrite <- app_assoc. reflexivity.
  - simpl. eexists. split; [|reflexivity]. simpl.
    rewrite <- app_assoc. reflexivity.
Qed.

Lemma compose_video_without_manifest_witness :
  fst (compose_video obliging no_manifest [])
  = Py.Raise (Py.Exception "No visual content available for video composition").
Proof.
  destruct (compose_video_without_manifest obliging no_manifest [] eq_refl)
    as [_ [e [Hrun He]]].
  rewrite Hrun. simpl. rewrite He. reflexivity.
Defined.

(** No manifest and no transcript: the call fails, but with the
    transcript error, not with the no-visual-content error. *)
Lemma compose_video_reports_transcript_first :
  manifest_file audio_only = None
  /\ fst (compose_video obliging audio_only [])
     = Py.Raise (Py.FileNotFoundError "Transcript not found")
  /\ fst (compose_video obliging audio_only [])
     <> Py.Raise (Py.Exception "No visual content available for video composition").
Proof.
  split; [reflexivity|]. split; [reflexivity | discriminate].
Qed.

(** With everything in place the pipeline does build a timeline and does
    call the encoder: four clips, one concatenation, one multiplexing. *)
Example compose_video_complete_job :
  let '(r, log) := compose_video obliging complete [] in
  (exists info, r = Py.Ok info /\ timeline_segments info = 4%nat)
  /\ In (TimelineBuilt (create_timeline two_images (lasting 20))) log
  /\ List.length
       (filter (fun ev => match ev with EncoderInvoked _ => true | _ => false end)
               log) = 6%nat.
Proof.
  vm_compute. split; [eexists; split; reflexivity|].
  split; [|reflexivity].
  do 2 right. left. reflexivity.
Qed.

End ComposerProofs.

(** ** More on the audio pipeline *)

Module AudioExtraProofs.
Import AudioProcessor MergerSpec AudioSpec.

Lemma append_assoc (a b c : string) :
  String.append (String.append a b) c = String.append a (String.append b c).
Proof. induction a as [|x a IH]; simpl; [reflexivity | now rewrite IH]. Qed.

Lemma truthy_append a b :
  Py.truthy a = true -> Py.truthy (String.append a b) = true.
Proof. destruct a; [discriminate | reflexivity]. Qed.

(** Once the accumulated text is not empty every further text is added
    behind a blank. *)
Lemma full_text_fold_nonempty D ts : forall m,
  Py.truthy (full_text m) = true ->
  full_text (fold_left (merge_step D) ts m)
  = String.concat " " (full_text m :: map text ts).
Proof.
  induction ts as [|t ts IH]; intros m Hm; simpl; [reflexivity|].
  rewrite IH; simpl; rewrite Hm.
  - destruct (map text ts) as [|y ys]; simpl.
    + now rewrite append_assoc.
    + now rewrite !append_assoc.
  - now apply truthy_append, truthy_append.
Qed.

Lemma full_text_fold_empty D ts : forall m,
  full_text m = EmptyString ->
  full_text (fold_left (merge_step D) ts m)
  = String.concat " " (drop_empty (map text ts)).
Proof.
  induction ts as [|t ts IH]; intros m Hm; simpl.
  - exact Hm.
  - destruct (text t) as [|c s] eqn:Et.
    + apply IH. simpl. rewrite Hm, Et. reflexivity.
    + rewrite full_text_fold_nonempty; simpl; rewrite Hm, Et; reflexivity.
  Qed.

(** X1. The merged [full_text] is the texts of the chunks joined by single
    blanks, in input order, after the leading chunks with an empty text
    have been left out; an empty text further on keeps its blank. *)
Theorem merge_full_text ts D :
  full_text (merge_transcripts ts D)
  = String.concat " " (drop_empty (map text ts)).
Proof. unfold merge_transcripts. now apply full_text_fold_empty. Qed.

Lemma copy_segments l acc :
  fold_left
    (fun acc s =>
       acc ++ [ {| seg_start := seg_start s; seg_end := seg_end s;
                   seg_text := seg_text s |} ]) l acc
  = acc ++ l.
Proof.
  revert acc. induction l as [|s l IH]; intro acc; simpl.
  - now rewrite app_nil_r.
  - rewrite IH, <- app_assoc. now destruct s.
Qed.

Lemma transcribe_segment_eq resp i :
  transcribe_segment resp i = transcript_of (i, resp).
Proof.
  unfold transcribe_segment, transcript_of. simpl.
  now rewrite copy_segments.
Qed.

Lemma transcribe_from_eq outcomes : forall i acc,
  transcribe_from i outcomes acc
  = acc ++ map transcript_of (answered_from i outcomes).
Proof.
  induction outcomes as [|[resp|] outcomes IH]; intros i acc; simpl.
  - now rewrite app_nil_r.
  - rewrite IH, <- app_assoc, transcribe_segment_eq. reflexivity.
  - apply IH.
Qed.

Lemma answered_from_spec outcomes : forall i j resp,
  In (j, resp) (answered_from i outcomes)
  <-> (i <= j)%Z /\ nth_error outcomes (Z.to_nat (j - i)) = Some (Some resp).
Proof.
  induction outcomes as [|o outcomes IH]; intros i j resp.
  - simpl. split; [contradiction|]. intros [_ H].
    destruct (Z.to_nat (j - i)); discriminate.
  - assert (Hstep : In (j, resp) (answered_from (i + 1) outcomes)
                    <-> (i < j)%Z /\
                        nth_error (o :: outcomes) (Z.to_nat (j - i))
                        = Some (Some resp)).
    { rewrite IH. split; intros [Hle Hn]; (split; [lia|]).
      - replace (Z.to_nat (j - i)) with (S (Z.to_nat (j - (i + 1)))) by lia.
        exact Hn.
      - replace (Z.to_nat (j - i)) with (S (Z.to_nat (j - (i + 1)))) in Hn by lia.
        exact Hn. }
    destruct o as [r|]; simpl answered_from.
    + simpl In. rewrite Hstep. split.
      * intros [Heq|[Hlt Hn]].
        -- injection Heq as <- <-. split; [lia|].
           now replace (Z.to_nat (i - i)) with 0%nat by lia.
        -- split; [lia | exact Hn].
      * intros [Hle Hn].
        destruct (Z.eq_dec i j) as [<-|Hne].
        -- left. replace (Z.to_nat (i - i)) with 0%nat in Hn by lia.
           simpl in Hn. now injection Hn as <-.
        -- right. split; [lia | exact Hn].
    + rewrite Hstep. split; intros [Hle Hn]; (split; [|exact Hn]); [lia|].
      destruct (Z.eq_dec i j) as [<-|Hne]; [|lia].
      replace (Z.to_nat (i - i)) with 0%nat in Hn by lia. discriminate.
Qed.

Lemma answered_from_length outcomes : forall i,
  List.length (answered_from i outcomes)
  = List.length (filter (fun o => match o with Some _ => true | None => false end)
                        outcomes).
Proof.
  induction outcomes as [|[r|] outcomes IH]; intro i; simpl;
    [reflexivity | now rewrite IH | apply IH].
Qed.

(** X2. [transcribe_all_segments] returns one transcript per answered
    chunk and none for a failed one: a transcript with index [j] and the
    answer [resp] copied field by field is in the result exactly when the
    chunk at position [j] was answered with [resp]; the transcripts come
    in strictly increasing index order. *)
Theorem transcribe_all_segments_answered outcomes :
  (forall t,
      In t (transcribe_all_segments outcomes)
      <-> exists resp,
            (0 <= segment_index t)%Z /\
            nth_error outcomes (Z.to_nat (segment_index t)) = Some (Some resp) /\
            t = {| segment_index := segment_index t;
                   text := w_text resp; language := w_language resp;
                   duration := w_duration resp;
                   segments := w_segments resp |})
  /\ List.length (transcribe_all_segments outcomes)
     = List.length (filter (fun o => match o with Some _ => true | None => false end)
                           outcomes)
  /\ index_ordered (transcribe_all_segments outcomes).
Proof.
  split; [|split].
  - intro t. unfold transcribe_all_segments. rewrite transcribe_from_eq. simpl.
    rewrite in_map_iff. split.
    + intros [[j resp] [<- Hin]]. apply answered_from_spec in Hin.
      destruct Hin as [Hle Hn]. exists resp. simpl.
      rewrite Z.sub_0_r in Hn. auto.
    + intros [resp [Hle [Hn Ht]]]. exists (segment_index t, resp).
      split; [symmetry; exact Ht|].
      apply answered_from_spec. now rewrite Z.sub_0_r.
  - unfold transcribe_all_segments. rewrite transcribe_from_eq. simpl.
    rewrite length_map. apply answered_from_length.
  - apply MergerProofs.transcribe_all_index_ordered.
Qed.

Lemma transcribe_all_eq outcomes :
  transcribe_all_segments outcomes
  = map transcript_of (answered_from 0 outcomes).
Proof. unfold transcribe_all_segments. now rewrite transcribe_from_eq. Qed.

Lemma answered_from_nil outcomes : forall i,
  answered_from i outcomes = [] -> Forall (fun o => o = None) outcomes.
Proof.
  induction outcomes as [|[r|] outcomes IH]; intros i H; simpl in H.
  - constructor.
  - discriminate.
  - constructor; [reflexivity | now apply (IH (i + 1)%Z)].
Qed.

Lemma answered_from_in outcomes : forall i j resp,
  In (j, resp) (answered_from i outcomes) -> In (Some resp) outcomes.
Proof.
  intros i j resp H. apply answered_from_spec in H. destruct H as [_ H].
  now apply nth_error_In in H.
Qed.

(** Once the audio has been cut, the pipeline fails exactly when no chunk
    was answered. *)
Lemma process_audio_after_cut outcomes D :
  match process_audio outcomes D with
  | Py.Ok (summary, merged) =>
      (exists resp, In (Some resp) outcomes)
      /\ merged = merge_transcripts (transcribe_all_segments outcomes) D
      /\ segments_created summary = List.length outcomes
      /\ transcripts_generated summary
         = List.length
             (filter (fun o => match o with Some _ => true | None => false end)
                     outcomes)
      /\ (1 <= transcripts_generated summary <= segments_created summary)%nat
      /\ summary_total_duration summary = total_duration merged
      /\ estimated_time summary = (2 * List.length outcomes)%nat
  | Py.Raise e =>
      Forall (fun o => o = None) outcomes
      /\ e = Py.Exception "No segments were successfully transcribed"
  end.
Proof.
  unfold process_audio. rewrite transcribe_all_eq.
  pose proof (answered_from_length outcomes 0) as Hlen.
  destruct (answered_from 0 outcomes) as [|[j resp] rest] eqn:E; simpl.
  - split; [now apply (answered_from_nil outcomes 0) | reflexivity].
  - split.
    { exists resp. apply (answered_from_in outcomes 0 j). rewrite E. now left. }
    split; [reflexivity|]. split; [reflexivity|].
    rewrite length_map. simpl in Hlen.
    split; [exact Hlen|]. split.
    + split; [lia|]. rewrite Hlen. apply filter_length_le.
    + split; [reflexivity | lia].
Qed.

Lemma filter_map_length {A B : Type} (f : A -> B) (p : B -> bool) l :
  List.length (filter p (map f l))
  = List.length (filter (fun x => p (f x)) l).
Proof.
  induction l as [|x l IH]; simpl; [reflexivity|].
  destruct (p (f x)); simpl; now rewrite IH.
Qed.

(** X3. [process_audio] fails in exactly three ways, each time re-raising
    the exception and leaving the status [failed] at 0 with the
    exception's message: with [FileNotFoundError] when the job directory
    holds no audio file, with the segmentation error and the encoder's
    stderr when the encoder fails, and with the no-segments error when the
    audio was cut but no segment file was answered.  Otherwise it succeeds
    and leaves the status [completed] at 100: the transcript written is the
    merge of the answered segment files, [segments_created] counts all
    segment files, [transcripts_generated] counts the answered ones (at
    least one, at most all), and [estimated_time] is twice the number of
    segment files. *)
Theorem process_audio_outcome st D :
  match AudioJob.process_audio st D with
  | (Py.Ok (summary, merged), written) =>
      written = AudioJob.mkStatus "completed" 100
                  "Audio processing completed successfully"
      /\ exists f files,
           find VideoComposer.is_audio (AudioJob.listdir st) = Some f
           /\ AudioJob.run_segmenter st
                (VideoComposer.join (AudioJob.job_dir st) f) D = inr files
           /\ (exists file resp,
                 In file files /\ AudioJob.transcribe st file = Some resp)
           /\ merged
              = merge_transcripts
                  (transcribe_all_segments (map (AudioJob.transcribe st) files))
                  D
           /\ segments_created summary = List.length files
           /\ transcripts_generated summary
              = List.length (filter (AudioJob.answered st) files)
           /\ (1 <= transcripts_generated summary
               <= segments_created summary)%nat
           /\ summary_total_duration summary = total_duration merged
           /\ estimated_time summary = (2 * List.length files)%nat
  | (Py.Raise e, written) =>
      written = AudioJob.mkStatus "failed" 0
                  (VideoComposer.cat "Processing failed: " (Py.str e))
      /\ ((find VideoComposer.is_audio (AudioJob.listdir st) = None
           /\ e = Py.FileNotFoundError "No audio file found in job directory")
          \/ (exists f stderr,
                find VideoComposer.is_audio (AudioJob.listdir st) = Some f
                /\ AudioJob.run_segmenter st
                     (VideoComposer.join (AudioJob.job_dir st) f) D
                   = inl stderr
                /\ e = Py.Exception
                         (VideoComposer.cat "Audio segmentation failed: "
                                            stderr))
          \/ (exists f files,
                find VideoComposer.is_audio (AudioJob.listdir st) = Some f
                /\ AudioJob.run_segmenter st
                     (VideoComposer.join (AudioJob.job_dir st) f) D
                   = inr files
                /\ Forall (fun file => AudioJob.transcribe st file = None)
                          files
                /\ e = Py.Exception
                         "No segments were successfully transcribed"))
  end.
Proof.
  unfold AudioJob.process_audio, AudioJob.segment_audio,
    AudioJob.get_audio_file.
  destruct (find VideoComposer.is_audio (AudioJob.listdir st)) as [f|] eqn:Hf.
  2: { split; [reflexivity|]. left. now split. }
  destruct (AudioJob.run_segmenter st
              (VideoComposer.join (AudioJob.job_dir st) f) D)
    as [stderr|files] eqn:Hcut.
  { split; [reflexivity|]. right. left. exists f, stderr. now repeat split. }
  pose proof (process_audio_after_cut
                (map (AudioJob.transcribe st) files) D) as Hrun.
  destruct (process_audio (map (AudioJob.transcribe st) files) D)
    as [[summary merged]|e].
  - destruct Hrun as [[resp Hin] [Hm [Hsc [Htg [Hb [Htd Het]]]]]].
    split; [reflexivity|]. exists f, files.
    split; [reflexivity|]. split; [exact Hcut|].
    rewrite length_map in Hsc, Het.
    rewrite filter_map_length in Htg.
    split.
    { apply in_map_iff in Hin. destruct Hin as [file [Hfile Hin]].
      now exists file, resp. }
    split; [exact Hm|]. split; [exact Hsc|]. split; [exact Htg|].
    split; [exact Hb|]. split; [exact Htd | exact Het].
  - destruct Hrun as [Hnone ->].
    split; [reflexivity|]. right. right. exists f, files.
    split; [reflexivity|]. split; [exact Hcut|]. split; [|reflexivity].
    apply Forall_forall. intros file Hin.
    rewrite Forall_forall in Hnone. apply Hnone.
    now apply in_map.
Qed.

Lemma process_audio_ok_merged outcomes D summary merged :
  process_audio outcomes D = Py.Ok (summary, merged) ->
  merged = merge_transcripts (transcribe_all_segments outcomes) D.
Proof.
  unfold process_audio, merge_stage.
  destruct (transcribe_all_segments outcomes); [discriminate|].
  now intros [= _ <-].
Qed.

Lemma transcribe_all_local_times outcomes D :
  Forall (response_times_ok D) outcomes ->
  Forall (local_times_ok D) (transcribe_all_segments outcomes).
Proof.
  intro H. rewrite transcribe_all_eq. apply Forall_map, Forall_forall.
  intros [j resp] Hin. apply answered_from_in in Hin.
  rewrite Forall_forall in H. exact (H _ Hin).
Qed.

(** X4. Whatever chunks failed, when each answered chunk's own segments
    are sorted by start and start within [[0, segment_duration]], the
    segments of the transcript [process_audio] writes are sorted by
    start. *)
Theorem process_audio_segments_sorted outcomes D summary merged :
  Forall (response_times_ok D) outcomes ->
  process_audio outcomes D = Py.Ok (summary, merged) ->
  StronglySorted by_start (merged_segments merged).
Proof.
  intros Hok Hrun. apply process_audio_ok_merged in Hrun. subst merged.
  rewrite MergerProofs.merged_segments_eq.
  apply MergerProofs.shifted_segments_sorted.
  - apply MergerProofs.transcribe_all_index_ordered.
  - now apply transcribe_all_local_times.
Qed.

Lemma process_audio_segments_sorted_witness :
  exists summary merged,
    process_audio three_chunks 600 = Py.Ok (summary, merged) /\
    merged_segments merged = [mkSeg 1 3 "good"; mkSeg 1202 1204 "bye"] /\
    StronglySorted by_start (merged_segments merged).
Proof.
  eexists. eexists. split; [reflexivity|]. split; [reflexivity|].
  eapply (process_audio_segments_sorted three_chunks 600).
  - unfold three_chunks, response_times_ok, by_start; simpl.
    repeat constructor; unfold Qle; simpl; lia.
  - reflexivity.
Defined.

End AudioExtraProofs.

(** ** More on the timeline *)

Module TimelineExtraProofs.
Import VideoComposer TimelineSpec TimelineExtraSpec.

Lemma Qle_dec (x y : Q) : {x <= y} + {~ x <= y}.
Proof.
  destruct (Qlt_le_dec y x) as [H|H]; [right | left; exact H].
  now apply Qlt_not_le.
Qed.

(** X5. The timeline is empty exactly when the total duration is not
    positive or every placement (if any) is due at or after it. *)
Theorem create_timeline_empty_iff vc tr :
  create_timeline vc tr = []
  <-> get (transcript_total_duration tr) 0 <= 0
      \/ Forall (fun r => get (transcript_total_duration tr) 0 <= timestamp_of r)
                (placements vc).
Proof.
  split.
  - intro Hnil.
    destruct (Qlt_le_dec 0 (get (transcript_total_duration tr) 0)) as [Hpos|Hle];
      [|now left].
    right.
    destruct (Forall_Exists_dec
                (fun r => get (transcript_total_duration tr) 0 <= timestamp_of r)
                (fun r => Qle_dec _ _) (placements vc))
      as [Hall|Hex]; [exact Hall|].
    exfalso.
    assert (Hex' : Exists (fun r => timestamp_of r
                                    < get (transcript_total_duration tr) 0)
                          (placements vc)).
    { revert Hex. apply Exists_impl. intros r Hr. now apply Qnot_le_lt. }
    pose proof (TimelineProofs.place_all_nonempty vc _ Hpos Hex') as Hreal.
    destruct (CoverageProofs.create_timeline_cases vc tr)
      as [[Hr _]|[_ [Hne _]]]; contradiction.
  - apply TimelineProofs.create_timeline_empty.
Qed.

Lemma tiles_fill_by_policy a tl b :
  tiles a tl b -> forall prev, fill_by_policy prev a b tl = tl.
Proof.
  induction 1 as [a b H|a b e tl Hs Hp Ht IH]; intro prev; simpl.
  - destruct (PyFacts.ltb_spec a b) as [Hlt|_]; [lra | reflexivity].
  - destruct (PyFacts.ltb_spec a (start_time e)) as [Hlt|_]; [lra|].
    simpl. now rewrite IH.
Qed.

(** X7. Closing the gaps a second time changes nothing: the gap-closing
    pass returns the timeline [create_timeline] built unchanged. *)
Theorem fill_timeline_gaps_idempotent vc tr :
  fill_timeline_gaps (create_timeline vc tr)
                     (get (transcript_total_duration tr) 0)
  = create_timeline vc tr.
Proof.
  destruct (CoverageProofs.create_timeline_cases vc tr)
    as [[_ Hnil]|[_ [Hne Ht]]].
  - now rewrite Hnil.
  - destruct (create_timeline vc tr) as [|e rest]; [contradiction|].
    rewrite GapProofs.fill_timeline_gaps_cons.
    now apply tiles_fill_by_policy.
Qed.

Lemma place_all_from_content vc total :
  Forall (from_content vc)
         (place_all (sort_by_timestamp (collect_content vc)) total).
Proof.
  rewrite PlacementProofs.place_all_eq.
  apply Forall_map, Forall_forall. intros [c [s e]] Hin.
  apply filter_In in Hin. destruct Hin as [Hin _].
  exists c. simpl. repeat split.
  apply (in_map fst) in Hin. rewrite PlacementProofs.assigned_covers in Hin.
  simpl in Hin.
  exact (Permutation_in c (SortProofs.sort_perm (collect_content vc)) Hin).
Qed.

Lemma filler_from_content vc p s e :
  from_content vc p -> from_content vc (filler (Some p) s e).
Proof. intros [c H]. exists c. exact H. Qed.

Lemma fill_by_policy_from_content vc total tl : forall p cur,
  from_content vc p -> Forall (from_content vc) tl ->
  Forall (from_content vc) (fill_by_policy (Some p) cur total tl).
Proof.
  induction tl as [|seg tl IH]; intros p cur Hp Htl; simpl.
  - destruct (Py.ltb cur total); repeat constructor.
    now apply filler_from_content.
  - inversion Htl; subst.
    destruct (Py.ltb cur (start_time seg)); simpl.
    + constructor; [now apply filler_from_content|].
      constructor; [assumption | now apply IH].
    + constructor; [assumption | now apply IH].
Qed.

(** X8. The timeline shows nothing but the manifest's content: every entry
    carries the type, path, description and relevance of one of the
    placements, except that the first entry may be the path-less
    Background entry starting at 0. *)
Theorem create_timeline_provenance vc tr :
  match create_timeline vc tr with
  | [] => True
  | e :: rest =>
      (from_content vc e \/ exists s, e = background_segment 0 s (s - 0))
      /\ Forall (from_content vc) rest
  end.
Proof.
  unfold create_timeline.
  pose proof (place_all_from_content vc (get (transcript_total_duration tr) 0))
    as Hreal.
  destruct (place_all (sort_by_timestamp (collect_content vc))
                      (get (transcript_total_duration tr) 0))
    as [|seg rest]; [exact I|].
  rewrite GapProofs.fill_timeline_gaps_cons.
  inversion Hreal as [|? ? Hseg Hrest]; subst.
  cbn [fill_by_policy].
  destruct (Py.ltb 0 (start_time seg)); simpl.
  - split; [right; now exists (start_time seg)|].
    constructor; [assumption | now apply fill_by_policy_from_content].
  - split; [now left | now apply fill_by_policy_from_content].
Qed.

Lemma tiles_ascending a tl b : tiles a tl b -> StronglySorted starts_before tl.
Proof.
  induction 1 as [a b H|a b e tl Hs [Hp Hd] Ht IH]; constructor; [assumption|].
  apply CoverageProofs.tiles_bounds in Ht. revert Ht. apply Forall_impl.
  intros x [Hx _]. unfold starts_before. lra.
Qed.

(** X9. In every timeline the entries come in strictly ascending order of
    [start_time], and each of them lies within [[0, total_duration]]. *)
Theorem create_timeline_ascending vc tr :
  StronglySorted starts_before (create_timeline vc tr)
  /\ Forall (fun e => 0 <= start_time e /\
                      end_time e <= get (transcript_total_duration tr) 0)
            (create_timeline vc tr).
Proof.
  destruct (CoverageProofs.create_timeline_cases vc tr)
    as [[_ Hnil]|[_ [_ Ht]]].
  - rewrite Hnil. split; constructor.
  - split; [eapply tiles_ascending; eassumption|].
    now apply CoverageProofs.tiles_bounds.
Qed.

Lemma with_timestamp_app t l1 l2 :
  with_timestamp t (l1 ++ l2) = with_timestamp t l1 ++ with_timestamp t l2.
Proof. apply filter_app. Qed.

(** X10. Among the placements due at the same instant the images come
    before the videos, and within each kind the manifest's order is kept,
    when the content is sorted for placing. *)
Theorem sorted_content_images_first vc t :
  with_timestamp t (sort_by_timestamp (collect_content vc))
  = with_timestamp t (map image_placement (image_records vc))
    ++ with_timestamp t (map video_placement (video_records vc)).
Proof.
  rewrite SortProofs.sort_stable, NormalizerProofs.collect_content_eq.
  apply with_timestamp_app.
Qed.

Lemma fill_by_policy_length total tl : forall prev cur,
  (List.length tl <= List.length (fill_by_policy prev cur total tl)
   <= 2 * List.length tl + 1)%nat.
Proof.
  induction tl as [|seg tl IH]; intros prev cur; simpl.
  - destruct (Py.ltb cur total); simpl; lia.
  - specialize (IH (Some seg) (end_time seg)).
    destruct (Py.ltb cur (start_time seg)); simpl; lia.
Qed.

(** X11. The timeline has at least as many entries as placements were kept
    by the placement pass and at most twice as many plus one; it never has
    more than twice the number of manifest records plus one. *)
Theorem create_timeline_length vc tr :
  let kept_entries :=
    place_all (sort_by_timestamp (collect_content vc))
              (get (transcript_total_duration tr) 0) in
  (List.length kept_entries <= List.length (create_timeline vc tr))%nat
  /\ (List.length (create_timeline vc tr) <= 2 * List.length kept_entries + 1)%nat
  /\ (List.length kept_entries <= List.length (placements vc))%nat
  /\ (List.length (create_timeline vc tr)
      <= 2 * List.length (placements vc) + 1)%nat.
Proof.
  intro kept_entries.
  assert (Hk : (List.length kept_entries <= List.length (placements vc))%nat).
  { subst kept_entries. rewrite PlacementProofs.place_all_eq, length_map.
    etransitivity; [apply filter_length_le|].
    rewrite <- (length_map fst), PlacementProofs.assigned_covers.
    rewrite (Permutation_length (SortProofs.sort_perm _)).
    rewrite NormalizerProofs.collect_content_eq. unfold placements.
    rewrite !length_app, !length_map. lia. }
  assert (Hl : (List.length kept_entries <= List.length (create_timeline vc tr)
                <= 2 * List.length kept_entries + 1)%nat).
  { unfold create_timeline. fold kept_entries.
    destruct kept_entries as [|seg rest]; [simpl; lia|].
    rewrite GapProofs.fill_timeline_gaps_cons. apply fill_by_policy_length. }
  lia.
Qed.

End TimelineExtraProofs.

(** ** More on the composition pipeline *)

Module ComposerExtraProofs.
Import VideoComposer TimelineSpec ComposerSpec.

(** One step of the rendering loop: the status record, then the clip of
    the entry or its exception. *)
Lemma prepare_from_cons w i n seg rest acc log :
  exists evs,
    Forall (fun ev => is_info ev = false) evs /\
    (forall p, clip_for w seg = Py.Ok p ->
               List.length (filter is_encoder evs)
               = (if needs_encoder seg then 1 else 0)%nat) /\
    prepare_from w i n (seg :: rest) acc log
    = match clip_for w seg with
      | Py.Ok p => prepare_from w (S i) n rest (acc ++ [p]) (log ++ evs)
      | Py.Raise e => (Py.Raise e, log ++ evs)
      end.
Proof.
  cbn [prepare_from].
  unfold bind, update_status, emit, ret, clip_for, needs_encoder,
    prepare_image_for_video, create_background_video, raise.
  destruct (type seg) eqn:Ety;
    [destruct (path_exists w (path_str (path seg))); simpl| |];
    unfold bind, emit; try destruct (ffmpeg w _) eqn:Ef;
    (eexists; split; [|split];
     [ | | rewrite <- ?app_assoc; reflexivity ];
     [ repeat constructor
     | intros p' Hp'; first [discriminate Hp' | reflexivity] ]).
Qed.

Lemma prepare_from_run w n tl : forall i acc log,
  exists evs,
    Forall (fun ev => is_info ev = false) evs /\
    (forall ps, clips w tl = Py.Ok ps ->
                List.length (filter is_encoder evs)
                = List.length (filter needs_encoder tl)) /\
    prepare_from w i n tl acc log
    = (match clips w tl with
       | Py.Ok ps => Py.Ok (acc ++ ps)
       | Py.Raise e => Py.Raise e
       end, log ++ evs).
Proof.
  induction tl as [|seg rest IH]; intros i acc log.
  - exists []. simpl. rewrite !app_nil_r. repeat split. constructor.
  - destruct (prepare_from_cons w i n seg rest acc log) as [evs [Hno [Henc Hrun]]].
    rewrite Hrun. cbn [clips].
    destruct (clip_for w seg) as [p|e].
    + destruct (IH (S i) (acc ++ [p]) (log ++ evs)) as [evs' [Hno' [Henc' Hrun']]].
      exists (evs ++ evs'). split; [now apply Forall_app|]. split.
      * intros ps Hps. destruct (clips w rest) as [ps'|]; [|discriminate].
        rewrite filter_app, length_app, (Henc p eq_refl), (Henc' ps' eq_refl).
        cbn [filter]. destruct (needs_encoder seg); reflexivity.
      * rewrite Hrun'. destruct (clips w rest);
          rewrite <- !app_assoc; reflexivity.
    + exists evs. split; [assumption|]. split; [discriminate | reflexivity].
Qed.





Lemma grows_refl log : grows_quietly log log.
Proof. exists []. split; [now rewrite app_nil_r | constructor]. Qed.

Lemma grows_app log log' evs :
  grows_quietly log log' -> Forall (fun ev => is_info ev = false) evs ->
  grows_quietly log (log' ++ evs).
Proof.
  intros [mid [-> Hmid]] Hevs. exists (mid ++ evs).
  split; [now rewrite app_assoc | now apply Forall_app].
Qed.

Lemma grows_snoc log log' ev :
  grows_quietly log log' -> is_info ev = false ->
  grows_quietly log (log' ++ [ev]).
Proof. intros H Hev. apply grows_app; [assumption | now constructor]. Qed.

Ltac grows :=
  repeat first
    [ apply grows_refl
    | apply grows_snoc; [|reflexivity]
    | apply grows_app; [|assumption] ].

Lemma compose_video_log_shape w job log :
  match compose_video w job log with
  | (Py.Ok info, log') =>
      exists before,
        grows_quietly log before /\
        log' = before ++
                 [ InfoWritten info;
                   StatusWritten "completed" 100
                     "Video composition completed successfully" ]
  | (Py.Raise e, log') =>
      exists before,
        grows_quietly log before /\
        log' = before ++
                 [ StatusWritten "failed" 0
                     (cat "Video composition failed: " (Py.str e)) ]
  end.
Proof.
  unfold compose_video, try_except, bind, update_status, emit,
    load_transcript, get_audio_file, raise, ret.
  destruct (transcript_file job) as [t|];
    [|eexists; split; [|reflexivity]; grows].
  destruct (find is_audio (listdir job)) as [f|];
    [|eexists; split; [|reflexivity]; grows].
  destruct (no_items (images (load_visual_content job))
            && no_items (videos (load_visual_content job)));
    [eexists; split; [|reflexivity]; grows|].
  unfold prepare_video_segments.
  match goal with
  | |- context [prepare_from w 0 ?n ?tl [] ?l] =>
      destruct (prepare_from_run w n tl 0 [] l) as [evs [Hno [_ Hrun]]];
      rewrite Hrun; destruct (clips w tl) as [ps|e]
  end; [|eexists; split; [|reflexivity]; grows].
  unfold concatenate_videos, add_audio_to_video, bind, emit, raise, ret.
  simpl app.
  destruct ps as [|p ps]; [eexists; split; [|reflexivity]; grows|].
  destruct (ffmpeg w (ConcatSegments _ _));
    [eexists; split; [|reflexivity]; grows|].
  destruct (ffmpeg w (MuxAudio _ _ _));
    [eexists; split; [|reflexivity]; grows|].
  eexists. split; [|rewrite <- app_assoc; reflexivity]. grows.
Qed.

(** X13. Whatever happens, [compose_video] only adds to what was written
    before, and the last record it writes tells the outcome: on success
    composition_info.json followed by the status [completed] at 100, on
    any exception the status [failed] at 0 with the exception's message.
    composition_info.json is written only on success, and only once. *)
Theorem compose_video_last_status w job log :
  match compose_video w job log with
  | (Py.Ok info, log') =>
      exists before,
        grows_quietly log before /\
        log' = before ++
                 [ InfoWritten info;
                   StatusWritten "completed" 100
                     "Video composition completed successfully" ]
  | (Py.Raise e, log') =>
      exists before,
        grows_quietly log before /\
        log' = before ++
                 [ StatusWritten "failed" 0
                     (cat "Video composition failed: " (Py.str e)) ]
  end.
Proof. apply compose_video_log_shape. Qed.

Lemma no_items_placements m :
  no_items (images m) && no_items (videos m) = false <-> has_items m.
Proof.
  unfold has_items, placements, image_records, video_records.
  destruct (images m) as [[|x xs]|], (videos m) as [[|y ys]|]; simpl;
    split; intro H; try reflexivity; try discriminate; try congruence.
Qed.

(** X14. When the manifest lists content but none of it is due before the
    end of the audio (or the total duration is not positive), the timeline
    is empty and [compose_video] fails with the no-segments [ValueError] of
    [concatenate_videos], without a single call to the encoder. *)
Theorem compose_video_nothing_to_show w job log t f m :
  transcript_file job = Some t ->
  find is_audio (listdir job) = Some f ->
  manifest_file job = Some m ->
  has_items m ->
  get (transcript_total_duration t) 0 <= 0
  \/ Forall (fun r => get (transcript_total_duration t) 0 <= timestamp_of r)
            (placements m) ->
  compose_video w job log
  = (Py.Raise (Py.ValueError "No video segments to concatenate"),
     log ++ [ StatusWritten "composing" 95 "Starting video composition...";
              StatusWritten "composing" 96 "Creating video timeline...";
              TimelineBuilt [];
              StatusWritten "composing" 97 "Preparing video segments...";
              StatusWritten "composing" 98 "Combining video segments...";
              StatusWritten "failed" 0
                "Video composition failed: No video segments to concatenate" ]).
Proof.
  intros Ht Hf Hm Hitems Hlate.
  apply no_items_placements in Hitems.
  apply TimelineProofs.create_timeline_empty in Hlate.
  unfold compose_video, try_except, bind, update_status, emit,
    load_transcript, get_audio_file, load_visual_content, raise, ret.
  rewrite Ht, Hf, Hm, Hitems, Hlate. simpl.
  rewrite <- !app_assoc. reflexivity.
Qed.

Lemma compose_video_nothing_to_show_witness :
  fst (compose_video failing late_job [])
  = Py.Raise (Py.ValueError "No video segments to concatenate").
Proof.
  rewrite (compose_video_nothing_to_show failing late_job []
             (lasting 10) "talk.mp3" late_image);
    try reflexivity.
  - discriminate.
  - right. repeat constructor. cbv. discriminate.
Defined.

Lemma clips_reliable w tl :
  reliable w -> exists ps, clips w tl = Py.Ok ps /\ List.length ps = List.length tl.
Proof.
  intros [Hex Hff]. induction tl as [|seg rest [ps [IH Hlen]]]; simpl.
  - now exists [].
  - unfold clip_for. rewrite Hex, !Hff, IH.
    destruct (type seg); eexists; (split; [reflexivity | simpl; now rewrite Hlen]).
Qed.

(** X15. With every image on disk and an encoder that accepts every
    command, [compose_video] succeeds as soon as the transcript, an audio
    file and the manifest are there, the total duration is positive and one
    placement is due before it.  The record returned names the output file
    under the job's output directory, counts the timeline's entries and
    repeats the transcript's total duration; the encoder was called once
    per image or background entry, once to concatenate and once to add the
    audio. *)
Theorem compose_video_succeeds w job log t f m :
  reliable w ->
  transcript_file job = Some t ->
  find is_audio (listdir job) = Some f ->
  manifest_file job = Some m ->
  0 < get (transcript_total_duration t) 0 ->
  Exists (fun r => timestamp_of r < get (transcript_total_duration t) 0)
         (placements m) ->
  exists evs,
    compose_video w job log
    = (Py.Ok {| output_path :=
                  join (join (job_dir job) "output") "illustrated_podcast.mp4";
                file_size :=
                  getsize w (join (join (job_dir job) "output")
                                  "illustrated_podcast.mp4");
                timeline_segments := List.length (create_timeline m t);
                info_total_duration := get (transcript_total_duration t) 0;
                video_resolution := "1920x1080";
                fps := 30 |},
       log ++ evs)
    /\ List.length (filter is_encoder evs)
       = (List.length (filter needs_encoder (create_timeline m t)) + 2)%nat.
Proof.
  intros Hrel Ht Hf Hm Hpos Hex.
  assert (Hitems : has_items m).
  { unfold has_items. intro Hnil. rewrite Hnil in Hex. inversion Hex. }
  apply no_items_placements in Hitems.
  pose proof (TimelineProofs.place_all_nonempty m _ Hpos Hex) as Hreal.
  destruct (CoverageProofs.create_timeline_cases m t)
    as [[Hr _]|[_ [Hne _]]]; [contradiction|].
  destruct (clips_reliable w (create_timeline m t) Hrel) as [ps [Hclips Hlen]].
  destruct ps as [|p ps];
    [destruct (create_timeline m t); [contradiction | discriminate]|].
  unfold compose_video, try_except, bind, update_status, emit,
    load_transcript, get_audio_file, load_visual_content, raise, ret.
  rewrite Ht, Hf, Hm, Hitems.
  unfold prepare_video_segments.
  match goal with
  | |- context [prepare_from w 0 ?n ?tl [] ?l] =>
      destruct (prepare_from_run w n tl 0 [] l) as [evs [_ [Henc Hrun]]];
      rewrite Hrun, Hclips
  end.
  unfold concatenate_videos, add_audio_to_video, bind, emit, raise, ret.
  destruct Hrel as [_ Hff]. rewrite !Hff.
  cbn [app]. cbv beta iota zeta.
  eexists. split.
  - rewrite <- !app_assoc. reflexivity.
  - rewrite !filter_app, !length_app, (Henc _ Hclips). simpl. lia.
Qed.

Lemma compose_video_succeeds_witness :
  exists info log,
    compose_video obliging complete [] = (Py.Ok info, log) /\
    timeline_segments info = 4%nat /\
    List.length (filter is_encoder log) = 6%nat.
Proof.
  destruct (compose_video_succeeds obliging complete []
              (lasting 20) "talk.mp3" two_images) as [evs [Hrun Henc]];
    try reflexivity.
  - split; reflexivity.
  - apply Exists_cons_hd. reflexivity.
  - rewrite Hrun. do 2 eexists. split; [reflexivity|].
    split; [reflexivity | exact Henc].
Defined.

Lemma compose_video_ok_inv w job log info log' :
  compose_video w job log = (Py.Ok info, log') ->
  exists t f m ps,
    transcript_file job = Some t
    /\ find is_audio (listdir job) = Some f
    /\ manifest_file job = Some m
    /\ has_items m
    /\ create_timeline m t <> []
    /\ clips w (create_timeline m t) = Py.Ok ps
    /\ timeline_segments info = List.length (create_timeline m t)
    /\ info_total_duration info = get (transcript_total_duration t) 0.
Proof.
  unfold compose_video, try_except, bind, update_status, emit,
    load_transcript, get_audio_file, raise, ret.
  destruct (transcript_file job) as [t|]; [|discriminate].
  destruct (find is_audio (listdir job)) as [f|]; [|discriminate].
  destruct (no_items (images (load_visual_content job))
            && no_items (videos (load_visual_content job))) eqn:Hitems;
    [discriminate|].
  unfold load_visual_content in *.
  destruct (manifest_file job) as [m|]; [|discriminate Hitems].
  apply no_items_placements in Hitems.
  unfold prepare_video_segments.
  match goal with
  | |- context [prepare_from w 0 ?n ?tl [] ?l] =>
      destruct (prepare_from_run w n tl 0 [] l) as [evs [_ [_ Hrun]]];
      rewrite Hrun; destruct (clips w tl) as [ps|e] eqn:Hclips
  end; [|discriminate].
  unfold concatenate_videos, add_audio_to_video, bind, emit, raise, ret.
  simpl app.
  destruct ps as [|p ps]; [discriminate|].
  destruct (ffmpeg w (ConcatSegments _ _)); [discriminate|].
  destruct (ffmpeg w (MuxAudio _ _ _)); [discriminate|].
  intros [= <- _].
  exists t, f, m, (p :: ps). repeat split; try assumption; try reflexivity.
  intro Hnil. rewrite Hnil in Hclips. discriminate.
Qed.

(** X16. [compose_video] cannot succeed without a transcript, an audio
    file, a manifest that lists content, a timeline with at least one
    entry, and a clip for every entry of that timeline. *)
Theorem compose_video_success_needs w job log info log' :
  compose_video w job log = (Py.Ok info, log') ->
  exists t f m ps,
    transcript_file job = Some t
    /\ find is_audio (listdir job) = Some f
    /\ manifest_file job = Some m
    /\ has_items m
    /\ create_timeline m t <> []
    /\ clips w (create_timeline m t) = Py.Ok ps
    /\ timeline_segments info = List.length (create_timeline m t).
Proof.
  intro Hrun. destruct (compose_video_ok_inv w job log info log' Hrun)
    as [t [f [m [ps [H1 [H2 [H3 [H4 [H5 [H6 [H7 _]]]]]]]]]]].
  exists t, f, m, ps. tauto.
Qed.

Lemma compose_video_success_needs_witness :
  exists info log' t f m ps,
    compose_video obliging complete [] = (Py.Ok info, log')
    /\ transcript_file complete = Some t
    /\ find is_audio (listdir complete) = Some f
    /\ manifest_file complete = Some m
    /\ has_items m
    /\ create_timeline m t <> []
    /\ clips obliging (create_timeline m t) = Py.Ok ps
    /\ timeline_segments info = List.length (create_timeline m t).
Proof.
  destruct (compose_video obliging complete []) as [[info|e] log'] eqn:E;
    [|vm_compute in E; discriminate].
  destruct (compose_video_success_needs obliging complete [] info log' E)
    as [t [f [m [ps H]]]].
  exists info, log', t, f, m, ps. split; [reflexivity | exact H].
Defined.

End ComposerExtraProofs.

(** ** The routes over the composer *)

Module RouteProofs.
Import VideoComposer TimelineSpec ComposerSpec.

(** X17. With a readable request body, the compose route answers 200
    exactly with what [compose_video] returned; it answers 500 only after
    [compose_video] raised, with the exception's message, and then that
    same message is in the [failed] status record written last; and it
    answers 404 or 400 without writing anything, when the job directory,
    the transcript or the manifest is missing.  So the composer is never
    run without a manifest file through this route. *)
Theorem compose_route_outcome w job_id job log body code log' :
  VideoRoutes.compose_video w job_id job (Py.Ok tt) log = ((body, code), log') ->
  (code = 200%Z /\
   exists j info,
     job = Some j /\ compose_video w j log = (Py.Ok info, log') /\
     body = VideoRoutes.ComposedBody job_id "completed" (output_path info)
              (file_size info) (timeline_segments info)
              (info_total_duration info) (cat "/api/download/" job_id))
  \/ (code = 500%Z /\
      exists j e before,
        job = Some j /\ compose_video w j log = (Py.Raise e, log') /\
        transcript_file j <> None /\ manifest_file j <> None /\
        body = VideoRoutes.ErrorBody (Py.str e) /\
        grows_quietly log before /\
        log' = before ++
                 [ StatusWritten "failed" 0
                     (cat "Video composition failed: " (Py.str e)) ])
  \/ ((code = 404%Z \/ code = 400%Z) /\ log' = log /\
      (job = None \/
       exists j, job = Some j /\
                 (transcript_file j = None \/ manifest_file j = None))).
Proof.
  unfold VideoRoutes.compose_video.
  destruct job as [j|];
    [|intros [= <- <- <-]; right; right;
      split; [now left|]; split; [reflexivity | now left]].
  destruct (transcript_file j) as [t|] eqn:Et;
    [|intros [= <- <- <-]; right; right;
      split; [now right|]; split; [reflexivity|];
      right; exists j; split; [reflexivity | now left]].
  destruct (manifest_file j) as [m|] eqn:Em;
    [|intros [= <- <- <-]; right; right;
      split; [now right|]; split; [reflexivity|];
      right; exists j; split; [reflexivity | now right]].
  pose proof (ComposerExtraProofs.compose_video_log_shape w j log) as Hshape.
  destruct (compose_video w j log) as [[info|e] l] eqn:Hrun.
  - intros [= <- <- <-]. left. split; [reflexivity|].
    exists j, info. split; [reflexivity|]. split; [exact Hrun | reflexivity].
  - intros [= <- <- <-]. right. left. split; [reflexivity|].
    destruct Hshape as [before [Hg Hl]].
    exists j, e, before. rewrite Et, Em.
    split; [reflexivity|]. split; [exact Hrun|].
    repeat split; auto; discriminate.
Qed.

Lemma compose_route_outcome_witness :
  VideoRoutes.compose_video obliging "2" (Some no_manifest) (Py.Ok tt) []
  = ((VideoRoutes.ErrorBody
        "Visual content not found. Please generate visual content first.",
      400%Z), []).
Proof.
  destruct (VideoRoutes.compose_video obliging "2" (Some no_manifest)
              (Py.Ok tt) []) as [[body code] log'] eqn:E.
  destruct (compose_route_outcome obliging "2" (Some no_manifest) []
              body code log' E)
    as [[Hc _]|[[Hc _]|[_ [Hl _]]]];
    injection E as <- <- <-; try discriminate Hc. reflexivity.
Defined.

Lemma format_rows tl : forall acc,
  fold_left VideoRoutes.format_segment tl acc
  = acc ++ map (fun s => VideoRoutes.mkFormatted (type s) (start_time s)
                           (end_time s) (duration s) (description s)
                           (relevance_score s)) tl.
Proof.
  induction tl as [|s tl IH]; intro acc; simpl.
  - now rewrite app_nil_r.
  - rewrite IH. unfold VideoRoutes.format_segment.
    now rewrite <- app_assoc.
Qed.

(** X18. After a successful composition the timeline route reports the
    composition's own figures: as many rows as [timeline_segments] says,
    one per entry in order with that entry's times, the same total
    duration, and every row ends after it starts. *)
Theorem timeline_route_matches_composition w job_id job log info log' :
  compose_video w job log = (Py.Ok info, log') ->
  exists rows,
    VideoRoutes.get_video_timeline job_id (Some job)
    = (VideoRoutes.TimelineBody job_id rows (timeline_segments info)
         (info_total_duration info), 200%Z)
    /\ List.length rows = timeline_segments info
    /\ (exists tl,
          In (TimelineBuilt tl) log' /\
          map (fun r => (VideoRoutes.f_start_time r, VideoRoutes.f_end_time r))
              rows
          = map (fun s => (start_time s, end_time s)) tl)
    /\ Forall (fun r => VideoRoutes.f_start_time r < VideoRoutes.f_end_time r)
              rows.
Proof.
  intro Hrun.
  destruct (ComposerExtraProofs.compose_video_ok_inv w job log info log' Hrun)
    as [t [f [m [ps [Ht [Hf [Hm [Hitems [Hne [Hclips [Hn Hd]]]]]]]]]]].
  apply ComposerExtraProofs.no_items_placements in Hitems.
  unfold VideoRoutes.get_video_timeline, load_transcript, load_visual_content.
  rewrite Ht, Hm. simpl. rewrite Hitems, format_rows. simpl.
  exists (map (fun s => VideoRoutes.mkFormatted (type s) (start_time s)
                          (end_time s) (duration s) (description s)
                          (relevance_score s)) (create_timeline m t)).
  rewrite !length_map, Hn, Hd.
  split; [reflexivity|]. split; [reflexivity|]. split.
  - exists (create_timeline m t). split.
    + revert Hrun.
      unfold compose_video, try_except, bind, update_status, emit,
        load_transcript, get_audio_file, load_visual_content, raise, ret.
      rewrite Ht, Hf, Hm, Hitems.
      unfold prepare_video_segments.
      match goal with
      | |- context [prepare_from w 0 ?n ?tl [] ?l] =>
          destruct (ComposerExtraProofs.prepare_from_run w n tl 0 [] l)
            as [evs [_ [_ Hp]]];
          rewrite Hp, Hclips
      end.
      unfold concatenate_videos, add_audio_to_video, bind, emit, raise, ret.
      cbn [app]. cbv beta iota zeta.
      destruct ps as [|p ps]; [discriminate|].
      destruct (ffmpeg w (ConcatSegments _ _)); [discriminate|].
      destruct (ffmpeg w (MuxAudio _ _ _)); [discriminate|].
      intros [= _ <-]. rewrite !in_app_iff. simpl. tauto.
    + rewrite map_map. reflexivity.
  - apply Forall_map.
    destruct (CoverageProofs.create_timeline_cases m t)
      as [[_ Hnil]|[_ [_ Htiles]]]; [contradiction|].
    apply CoverageProofs.tiles_proper in Htiles.
    revert Htiles. apply Forall_impl. intros s [Hs _]. exact Hs.
Qed.

Lemma timeline_route_matches_composition_witness :
  exists rows,
    VideoRoutes.get_video_timeline "3" (Some complete)
    = (VideoRoutes.TimelineBody "3" rows 4 20, 200%Z)
    /\ List.length rows = 4%nat.
Proof.
  destruct (compose_video obliging complete []) as [[info|e] log'] eqn:E;
    [|vm_compute in E; discriminate].
  destruct (timeline_route_matches_composition obliging "3" complete []
              info log' E) as [rows [Hroute [Hlen _]]].
  exists rows. rewrite Hroute, Hlen.
  vm_compute in E. injection E as <- _. split; reflexivity.
Defined.

End RouteProofs.

(** ** Sorting in general *)

Module PySortProofs.

Section Sorting.
Context {A : Type} (before : A -> A -> bool) (le : A -> A -> Prop).
Hypothesis before_le : forall a b, before a b = true -> le a b.
Hypothesis not_before_le : forall a b, before a b = false -> le b a.
Hypothesis le_trans : forall a b c, le a b -> le b c -> le a c.

Lemma insert_by_perm x l : Permutation (PySort.insert before x l) (x :: l).
Proof.
  induction l as [|y l IH]; simpl; [reflexivity|].
  destruct (before y x); [|reflexivity].
  rewrite IH. apply perm_swap.
Qed.

Lemma sort_by_perm l : Permutation (PySort.sort before l) l.
Proof.
  induction l as [|x l IH]; simpl; [reflexivity|].
  rewrite insert_by_perm. now constructor.
Qed.

Lemma insert_by_sorted x l :
  StronglySorted le l -> StronglySorted le (PySort.insert before x l).
Proof.
  induction 1 as [|y l Hs IH Hall]; simpl.
  - repeat constructor.
  - destruct (before y x) eqn:E.
    + constructor; [assumption|].
      eapply Permutation_Forall; [symmetry; apply insert_by_perm|].
      constructor; [now apply before_le | assumption].
    + apply not_before_le in E.
      constructor; [now constructor|].
      constructor; [assumption|].
      revert Hall. apply Forall_impl. intros z Hz. now apply (le_trans x y z).
Qed.

Lemma sort_by_sorted l : StronglySorted le (PySort.sort before l).
Proof.
  induction l as [|x l IH]; simpl; [constructor | now apply insert_by_sorted].
Qed.

End Sorting.

Lemma ascending_sorted {A : Type} (key : A -> Q) l :
  StronglySorted (fun a b => key a <= key b)
                 (PySort.sort (PySort.ascending key) l).
Proof.
  apply sort_by_sorted; unfold PySort.ascending.
  - intros a b H. apply PyFacts.ltb_lt in H. lra.
  - intros a b H. now apply PyFacts.ltb_ge in H.
  - intros a b c. lra.
Qed.

Lemma descending_sorted {A : Type} (key : A -> Q) l :
  StronglySorted (fun a b => key b <= key a)
                 (PySort.sort (PySort.descending key) l).
Proof.
  apply sort_by_sorted; unfold PySort.descending.
  - intros a b H. apply PyFacts.ltb_lt in H. lra.
  - intros a b H. now apply PyFacts.ltb_ge in H.
  - intros a b c. lra.
Qed.

(** The elements satisfying [p], a property of the key alone, keep their
    order. *)
Lemma insert_by_stable {A : Type} (before : A -> A -> bool) (p : A -> bool) x l :
  (forall a b, before a b = true -> p a = true -> p b = true -> False) ->
  filter p (PySort.insert before x l) = filter p (x :: l).
Proof.
  intro Hsame. induction l as [|y l IH]; simpl; [reflexivity|].
  destruct (before y x) eqn:E; [|reflexivity].
  simpl. rewrite IH. simpl.
  destruct (p y) eqn:Ey; destruct (p x) eqn:Ex; try reflexivity.
  exfalso. exact (Hsame y x E Ey Ex).
Qed.

Lemma sort_by_stable {A : Type} (before : A -> A -> bool) (p : A -> bool) l :
  (forall a b, before a b = true -> p a = true -> p b = true -> False) ->
  filter p (PySort.sort before l) = filter p l.
Proof.
  intro Hsame. induction l as [|x l IH]; simpl; [reflexivity|].
  rewrite insert_by_stable by assumption. simpl. now rewrite IH.
Qed.

End PySortProofs.

(** ** The content analysis *)

Module AnalyzerProofs.
Import AudioProcessor ContentAnalyzer AnalyzerSpec.

Section WithModel.
Variable analyze : string -> Q -> Q -> list Moment.

Lemma chunk_fold last_segment segments : forall vt chunk cstart,
  fst (fst (fold_left (chunk_step analyze last_segment) segments
                      (vt, chunk, cstart)))
  = vt ++ flat_map (ask analyze) (flushed last_segment chunk cstart segments).
Proof.
  induction segments as [|s rest IH]; intros vt chunk cstart; simpl.
  - now rewrite app_nil_r.
  - destruct (Py.ltb chunk_duration (seg_end s - cstart)
              || segment_eqb s last_segment).
    + rewrite IH. destruct chunk as [|c chunk]; simpl.
      * reflexivity.
      * unfold ask at 2. simpl fst. simpl snd.
        destruct (Py.last_item (c :: chunk)); simpl;
          rewrite ?app_nil_r, <- ?app_assoc; reflexivity.
    + apply IH.
Qed.

End WithModel.

Lemma segment_eqb_refl s : segment_eqb s s = true.
Proof.
  unfold segment_eqb. now rewrite !Qeq_bool_refl, String.eqb_refl.
Qed.

Lemma last_item_cons {A : Type} (x y : A) l :
  Py.last_item (x :: y :: l) = Py.last_item (y :: l).
Proof.
  unfold Py.last_item. simpl.
  destruct (rev l ++ [y]) eqn:E; [|reflexivity].
  destruct (rev l); discriminate.
Qed.

(** The flushed chunks are what came before the final segment. *)
Lemma flushed_concat last_segment segments : forall chunk cstart,
  Py.last_item segments = Some last_segment ->
  List.concat (map fst (flushed last_segment chunk cstart segments))
  = chunk ++ removelast segments.
Proof.
  induction segments as [|s rest IH]; intros chunk cstart Hlast.
  - discriminate.
  - destruct rest as [|s' rest].
    + injection Hlast as <-. cbn [flushed].
      rewrite segment_eqb_refl, orb_true_r. simpl.
      destruct chunk; simpl; now rewrite ?app_nil_r.
    + rewrite last_item_cons in Hlast.
      change (removelast (s :: s' :: rest)) with (s :: removelast (s' :: rest)).
      remember (s' :: rest) as tl eqn:Etl. clear Etl.
      cbn [flushed].
      destruct (Py.ltb chunk_duration (seg_end s - cstart)
                || segment_eqb s last_segment).
      * rewrite map_app, concat_app, (IH [s] (seg_start s) Hlast).
        destruct chunk; simpl; now rewrite ?app_nil_r.
      * rewrite (IH (chunk ++ [s]) cstart Hlast).
        now rewrite <- app_assoc.
Qed.

Lemma flushed_nonempty last_segment segments : forall chunk cstart,
  Forall (fun c => fst c <> [])
         (flushed last_segment chunk cstart segments).
Proof.
  induction segments as [|s rest IH]; intros chunk cstart; simpl;
    [constructor|].
  destruct (Py.ltb chunk_duration (seg_end s - cstart)
            || segment_eqb s last_segment); [|apply IH].
  apply Forall_app. split; [|apply IH].
  destruct chunk; repeat constructor. discriminate.
Qed.

(** X19. [create_visual_timeline] cuts the segments before the last one
    into consecutive non-empty chunks and asks the language model once per
    chunk; the last segment of a transcript is never part of a chunk, so a
    transcript of fewer than two segments yields no suggestion.  What it
    returns is the suggestions of all chunks in ascending order of
    timestamp (a missing timestamp counting as 0), those with equal
    timestamps in the order received. *)
Theorem create_visual_timeline_chunks analyze segments :
  List.concat (map fst (analysed_chunks segments)) = removelast segments
  /\ Forall (fun c => fst c <> []) (analysed_chunks segments)
  /\ Permutation (create_visual_timeline analyze segments)
                 (flat_map (ask analyze) (analysed_chunks segments))
  /\ StronglySorted (fun a b => moment_time a <= moment_time b)
                    (create_visual_timeline analyze segments)
  /\ (forall t,
        filter (fun x => Qeq_bool (moment_time x) t)
               (create_visual_timeline analyze segments)
        = filter (fun x => Qeq_bool (moment_time x) t)
                 (flat_map (ask analyze) (analysed_chunks segments)))
  /\ ((List.length segments < 2)%nat ->
      create_visual_timeline analyze segments = []).
Proof.
  unfold analysed_chunks, create_visual_timeline.
  destruct (Py.last_item segments) as [last_segment|] eqn:Hlast.
  - pose proof (chunk_fold analyze last_segment segments [] [] 0) as Hfold.
    destruct (fold_left (chunk_step analyze last_segment) segments ([], [], 0))
      as [[vt chunk] cstart].
    simpl in Hfold. subst vt.
    split; [now apply (flushed_concat last_segment segments [] 0)|].
    split; [apply flushed_nonempty|].
    split; [apply PySortProofs.sort_by_perm|].
    split; [apply (PySortProofs.ascending_sorted moment_time)|].
    split.
    + intro t. apply PySortProofs.sort_by_stable.
      intros a b Hab Ha Hb. unfold PySort.ascending in Hab.
      apply PyFacts.ltb_lt in Hab. apply Qeq_bool_iff in Ha, Hb.
      unfold moment_time in *. unfold VideoComposer.get in Hab. lra.
    + intro Hlen.
      destruct segments as [|s [|s' rest]]; simpl in Hlen; try lia.
      * discriminate.
      * simpl. destruct (Py.ltb _ _ || _); reflexivity.
  - destruct segments as [|s rest]; simpl.
    + repeat split; constructor.
    + exfalso. unfold Py.last_item in Hlast. simpl in Hlast.
      destruct (rev rest); discriminate.
Qed.

Lemma create_visual_timeline_chunks_witness :
  (List.length [mkSeg 0 20 "one"] < 2)%nat
  /\ create_visual_timeline (fun _ _ _ => []) [mkSeg 0 20 "one"] = [].
Proof.
  split; [simpl; lia|].
  destruct (create_visual_timeline_chunks (fun _ _ _ => [])
              [mkSeg 0 20 "one"]) as (_ & _ & _ & _ & _ & H).
  apply H. simpl. lia.
Defined.

Lemma fold_add_moment_query moment l acc :
  fold_left (add_moment_query moment) l acc
  = acc ++ map (fun q =>
                  {| query := q;
                     q_timestamp := VideoComposer.get (m_timestamp moment) 0;
                     q_type := VideoComposer.get (m_type moment) "photo"%string;
                     q_priority := VideoComposer.get (m_priority moment) 0.5;
                     q_description :=
                       VideoComposer.get (m_description moment) EmptyString;
                     q_image_prompt :=
                       VideoComposer.get (m_image_prompt moment) EmptyString |}) l.
Proof.
  revert acc. induction l as [|q l IH]; intro acc; simpl.
  - now rewrite app_nil_r.
  - rewrite IH. unfold add_moment_query. now rewrite <- app_assoc.
Qed.

Lemma fold_add_moment timeline acc :
  fold_left add_moment timeline acc = acc ++ flat_map moment_queries timeline.
Proof.
  revert acc. induction timeline as [|m timeline IH]; intro acc; simpl.
  - now rewrite app_nil_r.
  - rewrite IH. unfold add_moment. rewrite fold_add_moment_query.
    now rewrite <- app_assoc.
Qed.

Lemma fold_add_concept l acc :
  fold_left add_concept l acc = acc ++ map concept_query l.
Proof.
  revert acc. induction l as [|c l IH]; intro acc; simpl.
  - now rewrite app_nil_r.
  - rewrite IH. unfold add_concept. now rewrite <- app_assoc.
Qed.

Lemma strongly_sorted_app_inv {A : Type} (R : A -> A -> Prop) l1 l2 :
  StronglySorted R (l1 ++ l2) ->
  StronglySorted R l1 /\ forall a b, In a l1 -> In b l2 -> R a b.
Proof.
  induction l1 as [|x l1 IH]; simpl; intro H.
  - split; [constructor | contradiction].
  - inversion H as [|? ? Hs Hall]; subst. destruct (IH Hs) as [Hs1 Hcross].
    apply Forall_app in Hall. destruct Hall as [Hall1 Hall2].
    split; [now constructor|].
    intros a b [<-|Ha] Hb.
    + rewrite Forall_forall in Hall2. now apply Hall2.
    + now apply Hcross.
Qed.

(** [l[:n]] is a prefix of [l], whatever the sign of [n]. *)
Lemma slice_to_prefix {A : Type} (n : Z) (l : list A) :
  exists k,
    PySort.slice_to n l = firstn k l
    /\ ((0 <= n)%Z -> k = Z.to_nat n)
    /\ ((n < 0)%Z -> k = (List.length l - Z.to_nat (- n))%nat).
Proof.
  unfold PySort.slice_to.
  destruct (0 <=? n)%Z eqn:E.
  - exists (Z.to_nat n). split; [reflexivity|].
    split; [reflexivity|]. apply Z.leb_le in E. lia.
  - exists (List.length l - Z.to_nat (- n))%nat. split; [reflexivity|].
    split; [|reflexivity]. apply Z.leb_gt in E. lia.
Qed.

(** X20. [get_search_queries] raises [FileNotFoundError] without the
    analysis file.  With it, it returns the queries of highest priority:
    the result is in descending order of priority, no query left out has a
    higher priority than one returned, and queries of equal priority come
    in the order of the analysis, those of the timeline moments before
    those of the visual concepts.  For a limit that is not negative it
    returns [max_queries] queries (all of them if there are fewer); for a
    negative limit it leaves out the [-max_queries] queries of lowest
    priority. *)
Theorem get_search_queries_top analysis max_queries :
  get_search_queries None max_queries
  = Py.Raise (Py.FileNotFoundError
                "Content analysis not found. Please analyze content first.")
  /\ exists result dropped,
       get_search_queries (Some analysis) max_queries = Py.Ok result
       /\ Permutation (result ++ dropped) (all_queries analysis)
       /\ ((0 <= max_queries)%Z ->
           List.length result
           = Nat.min (Z.to_nat max_queries)
                     (List.length (all_queries analysis)))
       /\ ((max_queries < 0)%Z ->
           List.length result
           = (List.length (all_queries analysis)
              - Z.to_nat (- max_queries))%nat)
       /\ StronglySorted (fun a b => q_priority b <= q_priority a) result
       /\ (forall q r, In q result -> In r dropped ->
                       q_priority r <= q_priority q)
       /\ (forall p,
             filter (fun q => Qeq_bool (q_priority q) p) (result ++ dropped)
             = filter (fun q => Qeq_bool (q_priority q) p) (all_queries analysis)).
Proof.
  split; [reflexivity|].
  unfold get_search_queries.
  rewrite fold_add_concept, fold_add_moment. simpl app.
  change (flat_map moment_queries (visual_timeline analysis) ++
          map concept_query (VideoComposer.get (visual_concepts analysis) []))
    with (all_queries analysis).
  set (sorted := PySort.sort (PySort.descending q_priority) (all_queries analysis)).
  destruct (slice_to_prefix max_queries sorted) as [k [-> [Hpos Hneg]]].
  assert (Hlen : List.length sorted = List.length (all_queries analysis)).
  { unfold sorted. apply Permutation_length, PySortProofs.sort_by_perm. }
  exists (firstn k sorted), (skipn k sorted).
  rewrite firstn_skipn.
  pose proof (PySortProofs.descending_sorted q_priority (all_queries analysis))
    as Hsorted. fold sorted in Hsorted.
  rewrite <- (firstn_skipn k sorted) in Hsorted.
  apply strongly_sorted_app_inv in Hsorted. destruct Hsorted as [Hs Hcross].
  split; [reflexivity|].
  split; [apply PySortProofs.sort_by_perm|].
  split.
  { intro H. rewrite length_firstn, (Hpos H), Hlen. reflexivity. }
  split.
  { intro H. rewrite length_firstn, (Hneg H), Hlen. lia. }
  split; [exact Hs|].
  split; [intros q r Hq Hr; now apply Hcross|].
  intro p. apply PySortProofs.sort_by_stable.
  intros a b Hab Ha Hb. unfold PySort.descending in Hab.
  apply PyFacts.ltb_lt in Hab. apply Qeq_bool_iff in Ha, Hb. lra.
Qed.

Lemma get_search_queries_bounded analysis max_queries :
  exists result,
    get_search_queries (Some analysis) max_queries = Py.Ok result
    /\ ((0 <= max_queries)%Z ->
        (List.length result <= Z.to_nat max_queries)%nat).
Proof.
  unfold get_search_queries.
  destruct (slice_to_prefix max_queries
              (PySort.sort (PySort.descending q_priority)
                 (fold_left add_concept
                    (VideoComposer.get (visual_concepts analysis) [])
                    (fold_left add_moment (visual_timeline analysis) []))))
    as [k [Hk [Hpos _]]].
  eexists. split; [reflexivity|].
  intro H. rewrite Hk, length_firstn, (Hpos H). lia.
Qed.

Lemma get_search_queries_top_witness :
  exists result,
    get_search_queries (Some small_analysis) 2 = Py.Ok result
    /\ map query result = ["cat"; "dog"]%string.
Proof.
  destruct (get_search_queries_top small_analysis 2) as [_ [result [dropped H]]].
  exists result. destruct H as [Hrun _]. split; [exact Hrun|].
  vm_compute in Hrun. injection Hrun as <-. reflexivity.
Defined.

End AnalyzerProofs.

(** ** The generated content *)

Module GeneratorProofs.
Import VideoComposer VisualContentGenerator GeneratorSpec.






Lemma search_images_results sv q n :
  Forall (fun r => result_relevance_score r = 0.8) (search_images sv q n)
  /\ ((0 <= n)%Z ->
      (List.length (search_images sv q n) <= Z.to_nat n)%nat).
Proof.
  unfold search_images. destruct (web_search sv q) as [found|].
  - assert (Hfold : forall l acc,
              fold_left
                (fun search_results item =>
                   search_results ++
                     [ {| result_url := get (item_url item) EmptyString;
                          result_relevance_score := 0.8 |} ]) l acc
              = acc ++ map (fun item =>
                              {| result_url := get (item_url item) EmptyString;
                                 result_relevance_score := 0.8 |}) l).
    { induction l as [|x l IH]; intro acc; simpl.
      - now rewrite app_nil_r.
      - rewrite IH. now rewrite <- app_assoc. }
    rewrite Hfold. simpl. split.
    + apply Forall_map, Forall_forall. reflexivity.
    + intro Hn. rewrite length_map. unfold PySort.slice_to.
      assert (Hle : (0 <=? n)%Z = true) by now apply Z.leb_le.
      rewrite Hle, length_firstn. lia.
  - split; [constructor | simpl; lia].
Qed.

Lemma first_download_some sv prefix rs mk : forall j record,
  first_download sv prefix j rs mk = Some record ->
  exists filename downloaded_path r,
    In r rs /\ record = mk filename downloaded_path (result_relevance_score r).
Proof.
  induction rs as [|r rs IH]; intros j record H; simpl in H; [discriminate|].
  destruct (download_image sv (result_url r) _) as [p|] eqn:E.
  - injection H as <-. do 3 eexists. split; [now left | reflexivity].
  - destruct (IH _ _ H) as [fn [p [r' [Hin Hrec]]]].
    exists fn, p, r'. split; [now right | assumption].
Qed.

Lemma accounted_step sv done g q :
  accounted done g -> accounted (done ++ [q]) (process_query sv g q).
Proof.
  intros [Hcount [Himg [Hvid Hfail]]].
  assert (Hin : forall x, In x done -> In x (done ++ [q])).
  { intros x Hx. apply in_or_app. now left. }
  assert (Hq : In q (done ++ [q])) by (apply in_or_app; right; now left).
  assert (Himg' : Forall (fun r => exists q0, In q0 (done ++ [q]) /\
                                              image_answers q0 r) (gen_images g)).
  { revert Himg. apply Forall_impl. intros r [q0 [H0 H1]]. eauto. }
  assert (Hvid' : Forall (fun r => exists q0, In q0 (done ++ [q]) /\
                                              video_answers q0 r) (gen_videos g)).
  { revert Hvid. apply Forall_impl. intros r [q0 [H0 H1]]. eauto. }
  assert (Hfail' : Forall (fun q0 => In q0 (done ++ [q])) (failed_queries g)).
  { revert Hfail. apply Forall_impl. auto. }
  unfold process_query, accounted.
  destruct (String.eqb_spec (get (qd_type q) "photo"%string) "video") as [Hv|Hv].
  - destruct (generate_video_clip sv _ _) as [p|]; simpl;
      rewrite ?length_app; simpl.
    + repeat split; try assumption; try lia.
      apply Forall_app. split; [assumption|]. constructor; [|constructor].
      exists q. repeat split; assumption.
    + repeat split; try assumption; try lia.
      apply Forall_app. split; [assumption|]. now constructor.
  - destruct (first_download sv _ 0 _ _) as [record|] eqn:Ed.
    + apply first_download_some in Ed.
      destruct Ed as [fn [p [r [Hr ->]]]].
      destruct (search_images_results sv (qd_query q) 3) as [Hrel _].
      rewrite Forall_forall in Hrel. specialize (Hrel r Hr).
      simpl. rewrite ?length_app. simpl.
      repeat split; try assumption; try lia.
      apply Forall_app. split; [assumption|]. constructor; [|constructor].
      exists q. split; [assumption|]. repeat split; try assumption.
      left. split; [reflexivity | exact Hrel].
    + destruct (generate_image sv _ _ _) as [p|]; simpl;
        rewrite ?length_app; simpl.
      * repeat split; try assumption; try lia.
        apply Forall_app. split; [assumption|]. constructor; [|constructor].
        exists q. split; [assumption|]. repeat split; try assumption.
        right. split; reflexivity.
      * repeat split; try assumption; try lia.
        apply Forall_app. split; [assumption|]. now constructor.
Qed.

Lemma accounted_fold sv qs : forall done g,
  accounted done g -> accounted (done ++ qs) (fold_left (process_query sv) qs g).
Proof.
  induction qs as [|q qs IH]; intros done g H; simpl.
  - now rewrite app_nil_r.
  - replace (done ++ q :: qs) with ((done ++ [q]) ++ qs)
      by now rewrite <- app_assoc.
    apply IH. now apply accounted_step.
Qed.

Lemma process_visual_content_accounted sv queries :
  accounted queries (process_visual_content sv queries).
Proof.
  apply (accounted_fold sv queries []). repeat split; constructor.
Qed.


(** X23. A manifest written by [process_visual_content] and read back by
    the composer gives one placement per image and video, so as many as
    there were queries that did not fail; none of them falls back on the
    0.5 relevance default: each has relevance 0.8 or 0.7, and the timestamp
    of the query it answers. *)
Theorem generated_manifest_placements sv queries :
  let g := process_visual_content sv queries in
  let content := collect_content (manifest_of g) in
  (List.length content + List.length (failed_queries g)
   = List.length queries)%nat
  /\ Forall (fun c => c_relevance_score c = 0.8 \/ c_relevance_score c = 0.7)
            content
  /\ Forall (fun c => exists q, In q queries /\
                                c_timestamp c = get (qd_timestamp q) 0)
            content.
Proof.
  intros g content. subst content.
  destruct (process_visual_content_accounted sv queries)
    as [Hcount [Himg [Hvid _]]]. fold g in Hcount, Himg, Hvid.
  rewrite NormalizerProofs.collect_content_eq.
  unfold TimelineSpec.image_records, TimelineSpec.video_records, manifest_of.
  simpl. rewrite !map_map. split; [|split].
  - rewrite length_app, !length_map. lia.
  - apply Forall_app. split; apply Forall_map.
    + revert Himg. apply Forall_impl.
      intros r [q [_ [_ [_ [_ [_ [[_ H]|[_ H]]]]]]]]; simpl; auto.
    + apply Forall_forall. intros r _. now left.
  - apply Forall_app. split; apply Forall_map.
    + revert Himg. apply Forall_impl.
      intros r [q [Hq [_ [Ht _]]]]. exists q. simpl. auto.
    + revert Hvid. apply Forall_impl.
      intros r [q [Hq [_ [Ht _]]]]. exists q. simpl. auto.
Qed.

Lemma string_all_impl (p q : ascii -> bool) s :
  (forall c, p c = true -> q c = true) ->
  string_all p s = true -> string_all q s = true.
Proof.
  intro Hpq. induction s as [|c s IH]; simpl; [reflexivity|].
  rewrite !andb_true_iff. intros [Hc Hs]. auto.
Qed.

Lemma string_all_filter p s : string_all p (string_filter p s) = true.
Proof.
  induction s as [|c s IH]; simpl; [reflexivity|].
  destruct (p c) eqn:E; simpl; [now rewrite E | assumption].
Qed.

Lemma string_all_rstrip p s :
  string_all p s = true -> string_all p (rstrip s) = true.
Proof.
  induction s as [|c s IH]; simpl; [reflexivity|].
  rewrite andb_true_iff. intros [Hc Hs]. specialize (IH Hs).
  destruct (rstrip s) as [|c' r'].
  - destruct (isspace c); simpl; [reflexivity | now rewrite Hc].
  - simpl in *. now rewrite Hc.
Qed.

Lemma string_all_substring p n s :
  string_all p s = true -> string_all p (substring 0 n s) = true.
Proof.
  revert n. induction s as [|c s IH]; intros [|n]; simpl; try reflexivity.
  rewrite !andb_true_iff. intros [Hc Hs]. auto.
Qed.

Lemma string_all_underscores s :
  string_all (fun c => isalnum c || Ascii.eqb c " " || Ascii.eqb c "-"
                       || Ascii.eqb c "_") s = true ->
  string_all safe_char (blanks_to_underscores s) = true.
Proof.
  induction s as [|c s IH]; simpl; [reflexivity|].
  rewrite !andb_true_iff. intros [Hc Hs]. split; [|auto].
  unfold safe_char. destruct (Ascii.eqb c " ") eqn:E; [reflexivity|].
  rewrite orb_false_r in Hc. exact Hc.
Qed.

Lemma length_filter_le p s :
  (String.length (string_filter p s) <= String.length s)%nat.
Proof.
  induction s as [|c s IH]; simpl; [lia|]. destruct (p c); simpl; lia.
Qed.

Lemma length_rstrip_le s : (String.length (rstrip s) <= String.length s)%nat.
Proof.
  induction s as [|c s IH]; simpl; [lia|].
  destruct (rstrip s); [destruct (isspace c)|]; simpl in *; lia.
Qed.

Lemma length_underscores s :
  String.length (blanks_to_underscores s) = String.length s.
Proof. induction s as [|c s IH]; simpl; [reflexivity | now rewrite IH]. Qed.

Lemma length_substring_le n s :
  (String.length (substring 0 n s) <= n)%nat
  /\ (String.length (substring 0 n s) <= String.length s)%nat.
Proof.
  revert n. induction s as [|c s IH]; intros [|n]; simpl; try lia.
  destruct (IH n). lia.
Qed.

Lemma substring_all n s :
  (String.length s <= n)%nat -> substring 0 n s = s.
Proof.
  revert n. induction s as [|c s IH]; intros [|n] H; simpl in *;
    try reflexivity; try lia.
  rewrite IH; [reflexivity | lia].
Qed.

Lemma safe_char_facts c :
  safe_char c = true ->
  isspace c = false /\ c <> " "%char /\ c <> "/"%char /\ c <> "."%char.
Proof.
  destruct c as [[] [] [] [] [] [] [] []]; vm_compute; intro H;
    try discriminate H; repeat split; discriminate.
Qed.

Lemma filter_all p s : string_all p s = true -> string_filter p s = s.
Proof.
  induction s as [|c s IH]; simpl; [reflexivity|].
  rewrite andb_true_iff. intros [Hc Hs]. now rewrite Hc, IH.
Qed.

Lemma rstrip_no_space s :
  string_all (fun c => negb (isspace c)) s = true -> rstrip s = s.
Proof.
  induction s as [|c s IH]; simpl; [reflexivity|].
  rewrite andb_true_iff, negb_true_iff. intros [Hc Hs]. rewrite (IH Hs).
  destruct s; [now rewrite Hc | reflexivity].
Qed.

Lemma underscores_no_blank s :
  string_all (fun c => negb (Ascii.eqb c " ")) s = true ->
  blanks_to_underscores s = s.
Proof.
  induction s as [|c s IH]; simpl; [reflexivity|].
  rewrite andb_true_iff, negb_true_iff. intros [Hc Hs]. now rewrite Hc, IH.
Qed.

(** X24. The file-name part made from a query holds nothing but letters,
    digits, hyphens and underscores (no blank, no dot, no slash), is at
    most 50 characters long and never longer than the query; making it
    again from itself changes nothing. *)
Theorem safe_query_is_safe query :
  string_all safe_char (safe_query query) = true
  /\ string_all (fun c => negb (Ascii.eqb c " " || Ascii.eqb c "."
                               || Ascii.eqb c "/"))
                (safe_query query) = true
  /\ (String.length (safe_query query) <= 50)%nat
  /\ (String.length (safe_query query) <= String.length query)%nat
  /\ safe_query (safe_query query) = safe_query query.
Proof.
  assert (Hsafe : string_all safe_char (safe_query query) = true).
  { unfold safe_query. apply string_all_substring, string_all_underscores,
      string_all_rstrip, string_all_filter. }
  assert (Hlen : (String.length (safe_query query) <= 50)%nat).
  { unfold safe_query. apply length_substring_le. }
  split; [exact Hsafe|]. split.
  { revert Hsafe. apply string_all_impl. intros c Hc.
    destruct (safe_char_facts c Hc) as [_ [H1 [H2 H3]]].
    apply negb_true_iff. rewrite !orb_false_iff. repeat split;
      now apply Ascii.eqb_neq. }
  split; [exact Hlen|]. split.
  { unfold safe_query.
    etransitivity; [apply length_substring_le|].
    rewrite length_underscores.
    etransitivity; [apply length_rstrip_le | apply length_filter_le]. }
  set (s := safe_query query) in *. unfold safe_query at 1.
  rewrite filter_all.
  - rewrite rstrip_no_space.
    + rewrite underscores_no_blank; [now apply substring_all|].
      revert Hsafe. apply string_all_impl. intros c Hc.
      destruct (safe_char_facts c Hc) as [_ [H1 _]].
      apply negb_true_iff. now apply Ascii.eqb_neq.
    + revert Hsafe. apply string_all_impl. intros c Hc.
      destruct (safe_char_facts c Hc) as [H0 _]. now rewrite H0.
  - revert Hsafe. apply string_all_impl. intros c Hc. unfold safe_char in Hc.
    apply orb_true_iff in Hc. destruct Hc as [Hc|Hc]; [|now rewrite Hc, orb_true_r].
    apply orb_true_iff in Hc. destruct Hc as [Hc|Hc]; rewrite Hc;
      rewrite ?orb_true_r; reflexivity.
Qed.

End GeneratorProofs.

(** ** The generation route *)

Module VisualRouteProofs.
Import ContentAnalyzer VisualContentGenerator GeneratorSpec.

(** X25. The generation route answers 404 for an unknown job and 500 with
    the analyzer's message when the analysis is missing.  Otherwise it
    answers 200, and its figures add up: images, videos and failed queries
    together are the queries processed, which are at most [max_queries]
    (when that is not negative); and with [generate_videos] off no video
    is generated. *)
Theorem generate_route_figures sv job_id analysis max_queries generate_videos :
  VisualRoutes.generate_visual_content sv job_id false (Some analysis)
    max_queries generate_videos
  = (VisualRoutes.ErrorBody "Job not found", 404%Z)
  /\ VisualRoutes.generate_visual_content sv job_id true None
       max_queries generate_videos
     = (VisualRoutes.ErrorBody
          "Content analysis not found. Please analyze content first.", 500%Z)
  /\ exists images videos failed total,
       VisualRoutes.generate_visual_content sv job_id true (Some analysis)
         max_queries generate_videos
       = (VisualRoutes.GeneratedBody job_id "content_generated"
            images videos failed total, 200%Z)
       /\ (images + videos + failed = total)%nat
       /\ ((0 <= max_queries)%Z -> (total <= Z.to_nat max_queries)%nat)
       /\ (generate_videos = false -> videos = 0%nat).
Proof.
  split; [reflexivity|]. split; [reflexivity|].
  unfold VisualRoutes.generate_visual_content. simpl negb. cbv iota.
  destruct (AnalyzerProofs.get_search_queries_bounded analysis max_queries)
    as [result [Hrun Hlen]].
  rewrite Hrun.
  set (queries := if negb generate_videos
                  then filter (fun q => negb (String.eqb (q_type q) "video"))
                              result
                  else result).
  destruct (GeneratorProofs.process_visual_content_accounted sv
              (map VisualRoutes.as_query_data queries))
    as [Hcount [_ [Hvid _]]].
  rewrite length_map in Hcount.
  do 4 eexists. split; [reflexivity|]. split; [exact Hcount|]. split.
  - intro Hmax. specialize (Hlen Hmax).
    assert (Hq : (List.length queries <= List.length result)%nat).
    { subst queries. destruct (negb generate_videos);
        [apply filter_length_le | lia]. }
    lia.
  - intros ->. subst queries. simpl negb in *. cbv iota in *.
    destruct (gen_videos _) as [|v vs]; [reflexivity|]. exfalso.
    inversion Hvid as [|? ? [q [Hq [_ [_ [_ Hty]]]]] _]; subst.
    apply in_map_iff in Hq. destruct Hq as [q0 [<- Hq0]].
    apply filter_In in Hq0. destruct Hq0 as [_ Hneq]. simpl in Hty.
    rewrite Hty in Hneq. discriminate.
Qed.

Lemma generate_route_figures_witness :
  VisualRoutes.generate_visual_content offline "7" true
    (Some AnalyzerSpec.small_analysis) 10 false
  = (VisualRoutes.GeneratedBody "7" "content_generated" 4 0 0 4, 200%Z).
Proof.
  destruct (generate_route_figures offline "7" AnalyzerSpec.small_analysis
              10 false) as [_ [_ [images [videos [failed [total [Hrun _]]]]]]].
  rewrite Hrun. vm_compute in Hrun. injection Hrun as <- <- <- <-. reflexivity.
Defined.

End VisualRouteProofs.

(** ** File names of audio *)

Module AudioNameProofs.
Import VideoComposer AudioRoutes.

Lemma length_append a b :
  String.length (String.append a b) = (String.length a + String.length b)%nat.
Proof. induction a as [|c a IH]; simpl; [reflexivity | now rewrite IH]. Qed.

Lemma substring_append pre suf :
  substring (String.length pre) (String.length suf) (String.append pre suf) = suf.
Proof.
  induction pre as [|c pre IH]; simpl; [|exact IH].
  induction suf as [|c suf IH]; simpl; [reflexivity | now rewrite IH].
Qed.

Lemma substring_split s : forall k,
  (k <= String.length s)%nat ->
  s = String.append (substring 0 k s) (substring k (String.length s - k) s).
Proof.
  induction s as [|c s IH]; intros [|k] Hk; simpl in *; try reflexivity; try lia.
  - f_equal. clear. induction s as [|c s IH]; simpl; [reflexivity | now f_equal].
  - f_equal. apply IH. lia.
Qed.

Lemma endswith_iff s suf :
  endswith s suf = true <-> exists pre, s = String.append pre suf.
Proof.
  unfold endswith. rewrite andb_true_iff, Nat.leb_le, String.eqb_eq. split.
  - intros [Hle Hsub].
    exists (substring 0 (String.length s - String.length suf) s).
    assert (H : (String.length s - String.length suf <= String.length s)%nat)
      by lia.
    apply substring_split in H.
    replace (String.length s - (String.length s - String.length suf))%nat
      with (String.length suf) in H by lia.
    now rewrite Hsub in H.
  - intros [pre ->]. rewrite length_append. split; [lia|].
    replace (String.length pre + String.length suf - String.length suf)%nat
      with (String.length pre) by lia.
    apply substring_append.
Qed.

Lemma lower_append a b :
  lower (String.append a b) = String.append (lower a) (lower b).
Proof. induction a as [|c a IH]; simpl; [reflexivity | now rewrite IH]. Qed.

Lemma lower_dot c : Ascii.eqb (lower_ascii c) "." = Ascii.eqb c ".".
Proof. destruct c as [[] [] [] [] [] [] [] []]; reflexivity. Qed.

Lemma after_last_dot_lower s :
  after_last_dot (lower s) = option_map lower (after_last_dot s).
Proof.
  induction s as [|c s IH]; simpl; [reflexivity|].
  rewrite IH, lower_dot.
  destruct (after_last_dot s); simpl; [reflexivity|].
  destruct (Ascii.eqb c "."); reflexivity.
Qed.

Lemma after_last_dot_append pre e :
  after_last_dot e = None ->
  after_last_dot (String.append pre (String "." e)) = Some e.
Proof.
  intro He. induction pre as [|c pre IH]; simpl.
  - now rewrite He.
  - now rewrite IH.
Qed.

Lemma after_last_dot_some s : forall e,
  after_last_dot s = Some e ->
  exists pre, s = String.append pre (String "." e).
Proof.
  induction s as [|c s IH]; intros e H; simpl in H; [discriminate|].
  destruct (after_last_dot s) as [e'|].
  - injection H as <-. destruct (IH e' eq_refl) as [pre ->].
    now exists (String c pre).
  - destruct (Ascii.eqb_spec c ".") as [->|]; [|discriminate].
    injection H as <-. now exists EmptyString.
Qed.

(** For an extension without a dot, the two tests agree. *)
Lemma endswith_extension f e :
  after_last_dot e = None ->
  endswith (lower f) (String "." e)
  = match after_last_dot f with
    | Some ext => String.eqb (lower ext) e
    | None => false
    end.
Proof.
  intro He. apply Bool.eq_iff_eq_true. rewrite endswith_iff. split.
  - intros [pre Hpre].
    pose proof (after_last_dot_append pre e He) as H.
    rewrite <- Hpre, after_last_dot_lower in H.
    destruct (after_last_dot f) as [ext|]; [|discriminate].
    simpl in H. injection H as ->. apply String.eqb_refl.
  - destruct (after_last_dot f) as [ext|] eqn:E; [|discriminate].
    intro H. apply String.eqb_eq in H.
    apply after_last_dot_some in E. destruct E as [pre ->].
    exists (lower pre). rewrite lower_append. simpl.
    rewrite H. reflexivity.
Qed.

(** X26. The upload filter and the audio lookup accept the same names:
    [allowed_file], which compares what follows the last dot, lower-cased,
    with the five extensions, and the [endswith] test of [get_audio_file]
    on the lower-cased name agree on every file name. *)
Theorem allowed_file_is_audio filename :
  allowed_file filename = is_audio filename.
Proof.
  unfold is_audio, audio_extensions, allowed_file, ALLOWED_EXTENSIONS.
  cbn [existsb].
  rewrite !endswith_extension by reflexivity.
  destruct (after_last_dot filename); reflexivity.
Qed.

End AudioNameProofs.

(** ** The listing routes *)

Module ListingProofs.
Import VisualRoutes ListingSpec.

Lemma fold_add_timeline_image job_id s e l acc :
  fold_left (add_timeline_image job_id s e) l acc
  = acc ++ map (image_item job_id)
               (filter (fun x => in_range s e (item_time x)) l).
Proof.
  revert acc. induction l as [|x l IH]; intro acc; simpl.
  - now rewrite app_nil_r.
  - rewrite IH. unfold add_timeline_image, item_time, VideoComposer.get.
    destruct (in_range s e _); simpl; [now rewrite <- app_assoc | reflexivity].
Qed.

Lemma fold_add_timeline_video job_id s e l acc :
  fold_left (add_timeline_video job_id s e) l acc
  = acc ++ map (video_item job_id)
               (filter (fun x => in_range s e (item_time x)) l).
Proof.
  revert acc. induction l as [|x l IH]; intro acc; simpl.
  - now rewrite app_nil_r.
  - rewrite IH. unfold add_timeline_video, item_time, VideoComposer.get.
    destruct (in_range s e _); simpl; [now rewrite <- app_assoc | reflexivity].
Qed.

(** X27. The content-timeline route answers 404 for an unknown job and an
    empty timeline without a manifest.  Otherwise it lists exactly the
    manifest's records whose timestamp (0 when missing) lies within
    [[start_time, end_time]], in ascending order of timestamp, records of
    equal timestamp with the images first and otherwise in manifest order;
    videos are always listed with relevance 0.8; [total_items] is the
    number of rows. *)
Theorem get_content_timeline_listing job_id manifest start_time end_time :
  get_content_timeline job_id false (Some manifest) start_time end_time
  = (ListingError "Job not found", 404%Z)
  /\ get_content_timeline job_id true None start_time end_time
     = (EmptyTimeline, 200%Z)
  /\ exists timeline,
       get_content_timeline job_id true (Some manifest) start_time end_time
       = (ContentTimeline job_id timeline (List.length timeline)
                          start_time end_time, 200%Z)
       /\ Permutation timeline (due_within job_id manifest start_time end_time)
       /\ Forall (fun x => start_time <= ti_timestamp x /\
                           ti_timestamp x <= end_time) timeline
       /\ Forall (fun x => ti_type x = VideoComposer.video ->
                           ti_relevance_score x = 0.8) timeline
       /\ StronglySorted (fun a b => ti_timestamp a <= ti_timestamp b) timeline
       /\ (forall t,
             filter (fun x => Qeq_bool (ti_timestamp x) t) timeline
             = filter (fun x => Qeq_bool (ti_timestamp x) t)
                      (due_within job_id manifest start_time end_time)).
Proof.
  split; [reflexivity|]. split; [reflexivity|].
  unfold get_content_timeline. simpl negb. cbv iota.
  rewrite fold_add_timeline_video, fold_add_timeline_image. simpl app.
  change (map (image_item job_id) _ ++ map (video_item job_id) _)
    with (due_within job_id manifest start_time end_time).
  set (found := due_within job_id manifest start_time end_time).
  assert (Hfound : Forall (fun x => (start_time <= ti_timestamp x /\
                                     ti_timestamp x <= end_time) /\
                                    (ti_type x = VideoComposer.video ->
                                     ti_relevance_score x = 0.8)) found).
  { subst found. unfold due_within. apply Forall_app.
    split; apply Forall_map, Forall_forall; intros x Hx;
      apply filter_In in Hx; destruct Hx as [_ Hx];
      unfold in_range in Hx; apply andb_true_iff in Hx;
      destruct Hx as [H1 H2]; apply Qle_bool_iff in H1, H2; simpl;
      (split; [split; assumption|]); [discriminate | reflexivity]. }
  eexists. split; [reflexivity|].
  split; [apply PySortProofs.sort_by_perm|].
  assert (Hsorted : Forall (fun x => (start_time <= ti_timestamp x /\
                                      ti_timestamp x <= end_time) /\
                                     (ti_type x = VideoComposer.video ->
                                      ti_relevance_score x = 0.8))
                           (PySort.sort (PySort.ascending ti_timestamp) found)).
  { eapply Permutation_Forall; [|exact Hfound].
    symmetry. apply PySortProofs.sort_by_perm. }
  split; [revert Hsorted; apply Forall_impl; tauto|].
  split; [revert Hsorted; apply Forall_impl; tauto|].
  split; [apply (PySortProofs.ascending_sorted ti_timestamp)|].
  intro t. apply PySortProofs.sort_by_stable.
  intros a b Hab Ha Hb. unfold PySort.ascending in Hab.
  apply PyFacts.ltb_lt in Hab. apply Qeq_bool_iff in Ha, Hb. lra.
Qed.

Lemma length_fold_preview_image job_id l acc :
  List.length (fold_left (add_preview_image job_id) l acc)
  = (List.length acc + List.length l)%nat.
Proof.
  revert acc. induction l as [|x l IH]; intro acc; simpl; [lia|].
  rewrite IH. unfold add_preview_image. rewrite length_app. simpl. lia.
Qed.

Lemma length_fold_preview_video job_id l acc :
  List.length (fold_left (add_preview_video job_id) l acc)
  = (List.length acc + List.length l)%nat.
Proof.
  revert acc. induction l as [|x l IH]; intro acc; simpl; [lia|].
  rewrite IH. unfold add_preview_video. rewrite length_app. simpl. lia.
Qed.

Lemma length_slice_to {A : Type} (n : Z) (l : list A) :
  (0 <= n)%Z -> (List.length (PySort.slice_to n l) <= Z.to_nat n)%nat.
Proof.
  intro Hn. unfold PySort.slice_to.
  assert (Hle : (0 <=? n)%Z = true) by now apply Z.leb_le.
  rewrite Hle, length_firstn. lia.
Qed.

Lemma sorted_firstn {A : Type} (R : A -> A -> Prop) n l :
  StronglySorted R l -> StronglySorted R (firstn n l).
Proof.
  intro H. rewrite <- (firstn_skipn n l) in H.
  now apply AnalyzerProofs.strongly_sorted_app_inv in H.
Qed.









End ListingProofs.
